(** * GTFS scraper: shape clustering, stop projection and timetable
      deduplication (backend/models/gtfs.py)

    A shallow embedding of the algorithmic core of [gtfs.py].  Python lists
    are Rocq lists, Python dicts are insertion-ordered association lists,
    Python exceptions are an explicit error type threaded through a small
    error monad, and the floating point distances of shapely and numpy are
    exact rationals. *)

From Stdlib Require Import String Ascii DecimalString ZArith QArith Qround Bool Arith Lia List.
From Stdlib Require Import Sorting.Sorted Permutation Finite.
Import ListNotations.

Local Open Scope nat_scope.

(* ------------------------------------------------------------------ *)
(** ** Python values: equality, exceptions                              *)
(* ------------------------------------------------------------------ *)

(** Python's [==] on the value types the scraper compares. *)
Class PyEq (A : Type) : Type := {
  eqb : A -> A -> bool;
  eqb_spec : forall x y : A, reflect (x = y) (eqb x y)
}.

#[export] Instance PyEq_Z : PyEq Z := {| eqb := Z.eqb; eqb_spec := Z.eqb_spec |}.
#[export] Instance PyEq_nat : PyEq nat := {| eqb := Nat.eqb; eqb_spec := Nat.eqb_spec |}.
#[export] Instance PyEq_string : PyEq string :=
  {| eqb := String.eqb; eqb_spec := String.eqb_spec |}.

(** The exceptions raised on the modelled paths. *)
Inductive exn : Type :=
| IndexError
| ValueError
| KeyError
| AttributeError
| NameError (name : string)
| Exception (msg : string).

Inductive result (A : Type) : Type :=
| Ok (a : A)
| Raise (e : exn).
Arguments Ok {A} a.
Arguments Raise {A} e.

Definition bind {A B : Type} (r : result A) (k : A -> result B) : result B :=
  match r with
  | Ok a => k a
  | Raise e => Raise e
  end.

Declare Scope py_scope.
Delimit Scope py_scope with py.
Notation "x <- r ;; k" := (bind r (fun x => k))
  (at level 61, r at next level, right associativity) : py_scope.
Notation "' p <- r ;; k" := (bind r (fun p => k))
  (at level 61, p pattern, r at next level, right associativity) : py_scope.
Local Open Scope py_scope.

Section PyList.
Context {A : Type} `{PyEq A}.

Lemma eqb_refl (x : A) : eqb x x = true.
Proof. destruct (eqb_spec x x); congruence. Qed.

Lemma eqb_eq (x y : A) : eqb x y = true <-> x = y.
Proof. destruct (eqb_spec x y); split; congruence. Qed.

Lemma eqb_neq (x y : A) : eqb x y = false <-> x <> y.
Proof. destruct (eqb_spec x y); split; congruence. Qed.

(** [a == b] on lists. *)
Fixpoint list_eqb (a b : list A) : bool :=
  match a, b with
  | [], [] => true
  | x :: a', y :: b' => eqb x y && list_eqb a' b'
  | _, _ => false
  end.

Lemma list_eqb_spec (a b : list A) : reflect (a = b) (list_eqb a b).
Proof.
  revert b; induction a as [|x a IH]; intros [|y b]; simpl;
    try (constructor; congruence).
  destruct (eqb_spec x y) as [->|Hne]; simpl.
  - destruct (IH b) as [->|Hne]; constructor; congruence.
  - constructor; congruence.
Qed.

(** [x in l]. *)
Fixpoint contains (l : list A) (x : A) : bool :=
  match l with
  | [] => false
  | y :: l' => eqb y x || contains l' x
  end.

(** [l.index(x)]: the first position of [x], [ValueError] when absent. *)
Fixpoint index (l : list A) (x : A) : result nat :=
  match l with
  | [] => Raise ValueError
  | y :: l' => if eqb y x then Ok 0 else (n <- index l' x ;; Ok (S n))
  end.

(** [l.index(x, start)]. *)
Definition index_from (l : list A) (x : A) (start : nat) : result nat :=
  n <- index (skipn start l) x ;; Ok (start + n).

(** [l[i]]. *)
Definition getitem (l : list A) (i : nat) : result A :=
  match nth_error l i with
  | Some x => Ok x
  | None => Raise IndexError
  end.

(** [l[lo:hi]] for [0 <= lo]. *)
Definition slice (l : list A) (lo hi : nat) : list A :=
  firstn (hi - lo) (skipn lo l).

(** [l.remove(x)]: drops the first occurrence. *)
Fixpoint remove_first (l : list A) (x : A) : list A :=
  match l with
  | [] => []
  | y :: l' => if eqb y x then l' else y :: remove_first l' x
  end.

(** *** is_subsequence (gtfs.py, lines 75-90) *)
Definition is_subsequence (smaller bigger : list A) : result bool :=
  let smaller_len := length smaller in
  let bigger_len := length bigger in
  if bigger_len <? smaller_len then Ok false
  else
    x0 <- getitem smaller 0 ;;
    match index bigger x0 with
    | Raise ValueError => Ok false
    | Raise e => Raise e
    | Ok start_pos =>
        let end_pos := start_pos + smaller_len in
        if bigger_len <? end_pos then Ok false
        else Ok (list_eqb smaller (slice bigger start_pos end_pos))
    end.

(** [i] is the position of the first occurrence of [x] in [l]. *)
Definition first_occurrence (l : list A) (x : A) (i : nat) : Prop :=
  nth_error l i = Some x /\ forall j, j < i -> nth_error l j <> Some x.

Lemma index_Ok_first (l : list A) (x : A) (i : nat) :
  index l x = Ok i <-> first_occurrence l x i.
Proof.
  revert i; induction l as [|y l IH]; intros i; simpl.
  - split; [discriminate|]. intros [Hn _]. destruct i; discriminate.
  - destruct (eqb_spec y x) as [->|Hne].
    + split.
      * intros [= <-]. split; [reflexivity|]. intros j Hj; lia.
      * intros [Hn Hfirst]. destruct i as [|i]; [reflexivity|].
        exfalso. apply (Hfirst 0); [lia | reflexivity].
    + destruct (index l x) as [n|e] eqn:Hix; simpl.
      * split.
        -- intros [= <-]. destruct (proj1 (IH n) eq_refl) as [Hn Hfirst].
           split; [exact Hn|]. intros [|j] Hj; simpl; [congruence|].
           apply Hfirst; lia.
        -- intros [Hn Hfirst]. destruct i as [|i]; simpl in Hn; [congruence|].
           f_equal. f_equal. symmetry.
           assert (Hi : Ok n = Ok i); [|congruence].
           apply IH. split; [exact Hn|].
           intros j Hj. apply (Hfirst (S j)). lia.
      * split; [discriminate|].
        intros [Hn Hfirst]. destruct i as [|i]; simpl in Hn; [congruence|].
        assert (Hi : @Raise nat e = Ok i); [|discriminate].
        apply IH. split; [exact Hn|].
        intros j Hj. apply (Hfirst (S j)). lia.
Qed.

Lemma index_result (l : list A) (x : A) :
  (exists i, index l x = Ok i) \/ index l x = Raise ValueError.
Proof.
  induction l as [|y l IH]; simpl; [now right|].
  destruct (eqb y x); [left; eauto|].
  destruct IH as [[i ->]| ->]; simpl; [left; eauto | now right].
Qed.

Lemma index_Ok_lt (l : list A) (x : A) (i : nat) :
  index l x = Ok i -> i < length l.
Proof.
  intros Hi. apply index_Ok_first in Hi. destruct Hi as [Hn _].
  apply nth_error_Some. congruence.
Qed.

Lemma index_Ok_contains (l : list A) (x : A) :
  contains l x = true <-> exists i, index l x = Ok i.
Proof.
  induction l as [|y l IH]; simpl.
  - split; [discriminate | intros [i Hi]; discriminate].
  - destruct (eqb y x); simpl; [split; eauto|].
    rewrite IH. split; intros [i Hi].
    + rewrite Hi. simpl. eauto.
    + destruct (index l x); simpl in Hi; [eauto | discriminate].
Qed.

End PyList.


(* ------------------------------------------------------------------ *)
(** ** Python dicts: insertion-ordered association lists               *)
(* ------------------------------------------------------------------ *)

(** A Python dict keeps its keys in insertion order; [items()] is the list
    itself.  A well-formed dict holds every key once ([dict_wf]). *)
Definition dict (K V : Type) : Type := list (K * V).

Section PyDict.
Context {K V : Type} `{PyEq K}.

(** [d.get(k)] *)
Fixpoint dict_get (d : dict K V) (k : K) : option V :=
  match d with
  | [] => None
  | (k', v) :: d' => if eqb k' k then Some v else dict_get d' k
  end.

(** [k in d] *)
Definition dict_mem (d : dict K V) (k : K) : bool :=
  match dict_get d k with Some _ => true | None => false end.

(** [d[k] = v]: an existing key keeps its position, a new one goes last. *)
Fixpoint dict_set (d : dict K V) (k : K) (v : V) : dict K V :=
  match d with
  | [] => [(k, v)]
  | (k', v') :: d' => if eqb k' k then (k', v) :: d' else (k', v') :: dict_set d' k v
  end.

(** [del d[k]] *)
Fixpoint dict_del (d : dict K V) (k : K) : dict K V :=
  match d with
  | [] => []
  | (k', v') :: d' => if eqb k' k then d' else (k', v') :: dict_del d' k
  end.

Definition dict_keys (d : dict K V) : list K := map fst d.
Definition dict_values (d : dict K V) : list V := map snd d.
Definition dict_wf (d : dict K V) : Prop := NoDup (dict_keys d).

Lemma dict_get_set_eq (d : dict K V) (k : K) (v : V) :
  dict_get (dict_set d k v) k = Some v.
Proof.
  induction d as [|[k' v'] d IH]; simpl.
  - now rewrite eqb_refl.
  - destruct (eqb k' k) eqn:E; simpl; rewrite E; auto.
Qed.

Lemma dict_get_set_ne (d : dict K V) (k k0 : K) (v : V) :
  k <> k0 -> dict_get (dict_set d k v) k0 = dict_get d k0.
Proof.
  intros Hne. induction d as [|[k' v'] d IH]; simpl.
  - apply eqb_neq in Hne. now rewrite Hne.
  - destruct (eqb_spec k' k) as [->|Hk]; simpl.
    + apply eqb_neq in Hne. now rewrite Hne.
    + now rewrite IH.
Qed.

Lemma dict_get_In (d : dict K V) (k : K) (v : V) :
  dict_get d k = Some v -> In (k, v) d.
Proof.
  induction d as [|[k' v'] d IH]; simpl; [discriminate|].
  destruct (eqb_spec k' k) as [->|Hk].
  - intros [= ->]. now left.
  - intros Hg. right. auto.
Qed.

Lemma dict_get_None (d : dict K V) (k : K) :
  dict_get d k = None <-> ~ In k (dict_keys d).
Proof.
  induction d as [|[k' v'] d IH]; simpl; [tauto|].
  destruct (eqb_spec k' k) as [->|Hk].
  - split; [discriminate | intros Hn; exfalso; auto].
  - rewrite IH. tauto.
Qed.

Lemma dict_wf_In_get (d : dict K V) (k : K) (v : V) :
  dict_wf d -> In (k, v) d -> dict_get d k = Some v.
Proof.
  unfold dict_wf. induction d as [|[k' v'] d IH]; simpl; [tauto|].
  intros Hwf Hin. inversion Hwf as [|? ? Hnotin Hwf']; subst.
  destruct Hin as [[= -> ->]|Hin].
  - now rewrite eqb_refl.
  - destruct (eqb_spec k' k) as [->|Hk]; [|auto].
    exfalso. apply Hnotin. change k with (fst (k, v)). now apply in_map.
Qed.

Lemma dict_keys_set (d : dict K V) (k : K) (v : V) :
  dict_keys (dict_set d k v) =
  if dict_mem d k then dict_keys d else dict_keys d ++ [k].
Proof.
  unfold dict_mem. induction d as [|[k' v'] d IH]; simpl; [reflexivity|].
  destruct (eqb k' k) eqn:E; simpl; [reflexivity|].
  rewrite IH. now destruct (dict_get d k).
Qed.

Lemma dict_set_absent (d : dict K V) (k : K) (v : V) :
  dict_get d k = None -> dict_set d k v = d ++ [(k, v)].
Proof.
  induction d as [|[k' v'] d IH]; simpl; [reflexivity|].
  destruct (eqb k' k); [discriminate|]. intros Hg. now rewrite IH.
Qed.

Lemma dict_wf_set (d : dict K V) (k : K) (v : V) :
  dict_wf d -> dict_wf (dict_set d k v).
Proof.
  unfold dict_wf. intros Hwf. rewrite dict_keys_set.
  destruct (dict_mem d k) eqn:Hm; [exact Hwf|].
  unfold dict_mem in Hm. destruct (dict_get d k) eqn:Hg; [discriminate|].
  apply dict_get_None in Hg.
  apply NoDup_rev in Hwf. rewrite <- (rev_involutive (dict_keys d ++ [k])).
  apply NoDup_rev. rewrite rev_app_distr. simpl. constructor; [|exact Hwf].
  now rewrite <- in_rev.
Qed.

Lemma dict_get_del_eq (d : dict K V) (k : K) :
  dict_wf d -> dict_get (dict_del d k) k = None.
Proof.
  unfold dict_wf. induction d as [|[k' v'] d IH]; simpl; [reflexivity|].
  intros Hwf. inversion Hwf as [|? ? Hnotin Hwf']; subst.
  destruct (eqb_spec k' k) as [->|Hk]; simpl.
  - now apply dict_get_None.
  - apply eqb_neq in Hk. rewrite Hk. auto.
Qed.

Lemma dict_get_del_ne (d : dict K V) (k k0 : K) :
  k <> k0 -> dict_get (dict_del d k) k0 = dict_get d k0.
Proof.
  intros Hne. induction d as [|[k' v'] d IH]; simpl; [reflexivity|].
  destruct (eqb_spec k' k) as [->|Hk]; simpl.
  - apply eqb_neq in Hne. now rewrite Hne.
  - now rewrite IH.
Qed.

End PyDict.

(* ------------------------------------------------------------------ *)
(** ** sorted(): a stable sort                                          *)
(* ------------------------------------------------------------------ *)

Section PySorted.
Context {A : Type} (leb : A -> A -> bool).

(** [x] goes before the first element it is not greater than, so it stays
    ahead of the equal elements that followed it in the input. *)
Fixpoint insert_sorted (x : A) (l : list A) : list A :=
  match l with
  | [] => [x]
  | y :: l' => if leb x y then x :: y :: l' else y :: insert_sorted x l'
  end.

(** [sorted(l)] under the order [leb]. *)
Fixpoint sorted_with (l : list A) : list A :=
  match l with
  | [] => []
  | x :: l' => insert_sorted x (sorted_with l')
  end.

End PySorted.

(** [sorted(l)] on strings (service ids). *)
Definition sorted_strings (l : list string) : list string :=
  sorted_with String.leb l.

(** [sorted(l, key=key)] with an integer key. *)
Definition sorted_by {A : Type} (key : A -> Z) (l : list A) : list A :=
  sorted_with (fun a b => (key a <=? key b)%Z) l.

(* ------------------------------------------------------------------ *)
(** ** datetime.date                                                   *)
(* ------------------------------------------------------------------ *)

Record date : Type := mkdate { year : Z; month : Z; day : Z }.

Definition date_eqb (a b : date) : bool :=
  (year a =? year b)%Z && (month a =? month b)%Z && (day a =? day b)%Z.

Lemma date_eqb_spec (a b : date) : reflect (a = b) (date_eqb a b).
Proof.
  destruct a as [y m d], b as [y' m' d']. unfold date_eqb; simpl.
  destruct (Z.eqb_spec y y'), (Z.eqb_spec m m'), (Z.eqb_spec d d'); simpl;
    constructor; congruence.
Qed.

#[export] Instance PyEq_date : PyEq date := {| eqb := date_eqb; eqb_spec := date_eqb_spec |}.

Definition is_leap (y : Z) : bool :=
  ((y mod 4 =? 0) && (negb (y mod 100 =? 0) || (y mod 400 =? 0)))%Z.

Definition days_in_month (y m : Z) : Z :=
  if (m =? 2)%Z then (if is_leap y then 29 else 28)%Z
  else if ((m =? 4) || (m =? 6) || (m =? 9) || (m =? 11))%Z then 30%Z
  else 31%Z.

(** The dates the [date] type can hold: years 1 to 9999. *)
Definition valid_date (d : date) : Prop :=
  (1 <= year d <= 9999 /\ 1 <= month d <= 12 /\ 1 <= day d <= days_in_month (year d) (month d))%Z.

Definition days_before_year (y : Z) : Z :=
  ((y - 1) * 365 + (y - 1) / 4 - (y - 1) / 100 + (y - 1) / 400)%Z.

Fixpoint days_before_month_aux (y : Z) (m : nat) : Z :=
  match m with
  | O => 0%Z
  | S m' => (days_before_month_aux y m' + days_in_month y (Z.of_nat m))%Z
  end.

Definition days_before_month (y m : Z) : Z :=
  days_before_month_aux y (Z.to_nat (m - 1)).

(** [d.toordinal()]: 1 for 0001-01-01. *)
Definition toordinal (d : date) : Z :=
  (days_before_year (year d) + days_before_month (year d) (month d) + day d)%Z.

(** [d.weekday()]: Monday is 0, Sunday is 6. *)
Definition weekday (d : date) : Z := ((toordinal d + 6) mod 7)%Z.

(** [d + timedelta(days=1)] *)
Definition next_day (d : date) : date :=
  if (day d <? days_in_month (year d) (month d))%Z then mkdate (year d) (month d) (day d + 1)
  else if (month d <? 12)%Z then mkdate (year d) (month d + 1) 1
  else mkdate (year d + 1) 1 1.

Definition digit (n : Z) : ascii := ascii_of_nat (48 + Z.to_nat (n mod 10)).

(** [str(d)]: the ISO form YYYY-MM-DD, zero padded. *)
Definition str_date (d : date) : string :=
  String (digit (year d / 1000)) (String (digit (year d / 100))
  (String (digit (year d / 10)) (String (digit (year d))
  (String "-"%char
  (String (digit (month d / 10)) (String (digit (month d))
  (String "-"%char
  (String (digit (day d / 10)) (String (digit (day d)) EmptyString))))))))).

Lemma digit_inj (a b : Z) : digit a = digit b -> (a mod 10 = b mod 10)%Z.
Proof.
  unfold digit. intros Hd.
  assert (Ha : (0 <= a mod 10 < 10)%Z) by (apply Z.mod_pos_bound; lia).
  assert (Hb : (0 <= b mod 10 < 10)%Z) by (apply Z.mod_pos_bound; lia).
  apply (f_equal nat_of_ascii) in Hd.
  rewrite !nat_ascii_embedding in Hd by lia. lia.
Qed.

Lemma days_in_month_le (y m : Z) : (days_in_month y m <= 31)%Z.
Proof.
  unfold days_in_month.
  destruct (m =? 2)%Z; [destruct (is_leap y); lia|].
  destruct ((m =? 4) || (m =? 6) || (m =? 9) || (m =? 11))%Z; lia.
Qed.

Lemma decimal_2 (a b : Z) :
  (0 <= a < 100 -> 0 <= b < 100 ->
   (a / 10) mod 10 = (b / 10) mod 10 -> a mod 10 = b mod 10 -> a = b)%Z.
Proof. intros Ha Hb H1 H0. Z.to_euclidean_division_equations. lia. Qed.

Lemma decimal_4 (a b : Z) :
  (0 <= a < 10000 -> 0 <= b < 10000 ->
   (a / 1000) mod 10 = (b / 1000) mod 10 -> (a / 100) mod 10 = (b / 100) mod 10 ->
   (a / 10) mod 10 = (b / 10) mod 10 -> a mod 10 = b mod 10 -> a = b)%Z.
Proof. intros Ha Hb H3 H2 H1 H0. Z.to_euclidean_division_equations. lia. Qed.

Lemma str_date_inj (a b : date) :
  valid_date a -> valid_date b -> str_date a = str_date b -> a = b.
Proof.
  destruct a as [y m d], b as [y' m' d']. unfold valid_date, str_date; simpl.
  intros (Hy & Hm & Hd) (Hy' & Hm' & Hd') Hs.
  pose proof (days_in_month_le y m). pose proof (days_in_month_le y' m').
  injection Hs as Y3 Y2 Y1 Y0 M1 M0 D1 D0.
  apply digit_inj in Y3, Y2, Y1, Y0, M1, M0, D1, D0.
  f_equal; [apply decimal_4 | apply decimal_2 | apply decimal_2]; auto; lia.
Qed.


Section PyDictItem.
Context {K V : Type} `{PyEq K}.

(** [d[k]], raising [KeyError] for a missing key. *)
Definition dict_getitem (d : dict K V) (k : K) : result V :=
  match dict_get d k with
  | Some v => Ok v
  | None => Raise KeyError
  end.

End PyDictItem.

(* ------------------------------------------------------------------ *)
(** ** Service calendar: get_services_by_date (gtfs.py, lines 133-184) *)
(* ------------------------------------------------------------------ *)

(** A row of calendar.txt. *)
Record calendar_row : Type := {
  cal_service_id : string;
  monday : Z; tuesday : Z; wednesday : Z; thursday : Z;
  friday : Z; saturday : Z; sunday : Z;
  start_date : date;
  end_date : date
}.

(** A row of calendar_dates.txt. *)
Record calendar_date_row : Type := {
  cd_date : date;
  cd_service_id : string;
  exception_type : Z
}.

Fixpoint dates_from (n : nat) (d : date) (weekdays : list Z) : list date :=
  match n with
  | O => []
  | S n' =>
      (if contains weekdays (weekday d) then [d] else [])
        ++ dates_from n' (next_day d) weekdays
  end.

(** Modelled from the spec: [util.get_dates_in_range], which is not among
    the sources.  Section 4.1 has it enumerate every calendar date in
    [[start_date, end_date]] whose weekday is in [weekdays]. *)
Definition get_dates_in_range (start_date end_date : date) (weekdays : list Z) : list date :=
  dates_from (Z.to_nat (toordinal end_date - toordinal start_date + 1)) start_date weekdays.

(** Lines 144-158: the weekday numbers a calendar row turns on.  The last
    test reads the [saturday] column, as the source does. *)
Definition row_weekdays (calendar_row : calendar_row) : list Z :=
  let weekdays := [] in
  let weekdays := if (monday calendar_row =? 1)%Z then weekdays ++ [0%Z] else weekdays in
  let weekdays := if (tuesday calendar_row =? 1)%Z then weekdays ++ [1%Z] else weekdays in
  let weekdays := if (wednesday calendar_row =? 1)%Z then weekdays ++ [2%Z] else weekdays in
  let weekdays := if (thursday calendar_row =? 1)%Z then weekdays ++ [3%Z] else weekdays in
  let weekdays := if (friday calendar_row =? 1)%Z then weekdays ++ [4%Z] else weekdays in
  let weekdays := if (saturday calendar_row =? 1)%Z then weekdays ++ [5%Z] else weekdays in
  let weekdays := if (saturday calendar_row =? 1)%Z then weekdays ++ [6%Z] else weekdays in
  weekdays.

(** Lines 163-165: [dates_map[d].append(service_id)], creating the list. *)
Definition add_service (dates_map : dict date (list string)) (d : date) (service_id : string)
  : dict date (list string) :=
  let dates_map := if dict_mem dates_map d then dates_map else dict_set dates_map d [] in
  match dict_get dates_map d with
  | Some l => dict_set dates_map d (l ++ [service_id])
  | None => dates_map
  end.

Definition add_calendar_row (dates_map : dict date (list string)) (calendar_row : calendar_row)
  : dict date (list string) :=
  let weekdays := row_weekdays calendar_row in
  let service_id := cal_service_id calendar_row in
  fold_left (fun dates_map d => add_service dates_map d service_id)
    (get_dates_in_range (start_date calendar_row) (end_date calendar_row) weekdays)
    dates_map.

(** Lines 167-182: one exception row. *)
Definition add_calendar_date_row (dates_map : dict date (list string)) (row : calendar_date_row)
  : dict date (list string) :=
  let d := cd_date row in
  let service_id := cd_service_id row in
  let dates_map :=
    if (exception_type row =? 1)%Z then add_service dates_map d service_id else dates_map in
  if (exception_type row =? 2)%Z then
    match dict_get dates_map d with
    | Some l =>
        if contains l service_id then dict_set dates_map d (remove_first l service_id)
        else dates_map
    | None => dates_map
    end
  else dates_map.

Definition get_services_by_date (calendar_df : list calendar_row)
    (calendar_dates_df : list calendar_date_row) : dict date (list string) :=
  let dates_map := fold_left add_calendar_row calendar_df [] in
  fold_left add_calendar_date_row calendar_dates_df dates_map.

(* ------------------------------------------------------------------ *)
(** ** Date keys: save_timetables (gtfs.py, lines 201-214)             *)
(* ------------------------------------------------------------------ *)

Section DateKeys.

(** [json.dumps] and [json.loads] on lists of service ids.  The JSON text
    is kept abstract: all that the scraper relies on is that loading a
    dumped list gives the list back. *)
Context {json : Type} `{PyEq json}.
Variable json_dumps : list string -> json.
Variable json_loads : json -> list string.
Hypothesis json_roundtrip : forall l : list string, json_loads (json_dumps l) = l.

(** The state of the loop: [first_date_for_service_ids_map] and
    [date_keys]. *)
Definition date_keys_state : Type := (dict json date * dict date string)%type.

(** One iteration of the loop of lines 208-214. *)
Definition date_keys_step (st : date_keys_state) (item : date * list string)
  : result date_keys_state :=
  let '(first_date_for_service_ids_map, date_keys) := st in
  let '(d, service_ids) := item in
  let service_ids := sorted_strings service_ids in
  let service_ids_key := json_dumps service_ids in
  let first_date_for_service_ids_map :=
    if negb (dict_mem first_date_for_service_ids_map service_ids_key)
    then dict_set first_date_for_service_ids_map service_ids_key d
    else first_date_for_service_ids_map in
  first_date <- dict_getitem first_date_for_service_ids_map service_ids_key ;;
  Ok (first_date_for_service_ids_map, dict_set date_keys d (str_date first_date)).

Fixpoint date_keys_loop (items : list (date * list string)) (st : date_keys_state)
  : result date_keys_state :=
  match items with
  | [] => Ok st
  | item :: items' => st' <- date_keys_step st item ;; date_keys_loop items' st'
  end.

(** Lines 201-214.  [date_keys] is what [timetables.get_date_keys] loaded
    from an earlier run, or the empty dict. *)
Definition save_timetables_date_keys (dates_map : dict date (list string))
    (date_keys : dict date string) : result date_keys_state :=
  date_keys_loop dates_map ([], date_keys).

(** The first date of [items] whose sorted service ids dump to [k]. *)
Fixpoint first_date_with (items : list (date * list string)) (k : json) : option date :=
  match items with
  | [] => None
  | (d, service_ids) :: items' =>
      if eqb (json_dumps (sorted_strings service_ids)) k then Some d
      else first_date_with items' k
  end.

Lemma first_date_with_app (l1 l2 : list (date * list string)) (k : json) :
  first_date_with (l1 ++ l2) k =
  match first_date_with l1 k with
  | Some d => Some d
  | None => first_date_with l2 k
  end.
Proof.
  induction l1 as [|[d s] l1 IH]; simpl; [reflexivity|].
  destruct (eqb (json_dumps (sorted_strings s)) k); auto.
Qed.

Lemma first_date_with_In (items : list (date * list string)) (k : json) (d : date) :
  first_date_with items k = Some d ->
  exists pre s post,
    items = pre ++ (d, s) :: post /\ json_dumps (sorted_strings s) = k /\
    forall d' s', In (d', s') pre -> json_dumps (sorted_strings s') <> k.
Proof.
  induction items as [|[d0 s0] items IH]; simpl; [discriminate|].
  destruct (eqb_spec (json_dumps (sorted_strings s0)) k) as [Hk|Hk].
  - intros [= ->]. exists [], s0, items. simpl. repeat split; auto.
  - intros Hf. destruct (IH Hf) as (pre & s & post & -> & Hs & Hpre).
    exists ((d0, s0) :: pre), s, post. repeat split; auto.
    intros d' s' [[= <- <-]|Hin]; eauto.
Qed.

Lemma json_dumps_inj (l1 l2 : list string) : json_dumps l1 = json_dumps l2 -> l1 = l2.
Proof.
  intros Hd. rewrite <- (json_roundtrip l1), <- (json_roundtrip l2). now rewrite Hd.
Qed.

(** The loop never raises, it agrees with [first_date_with] on the dates
    seen so far, and it only writes the date keys of the dates it visits. *)
Lemma date_keys_loop_spec (rest processed : list (date * list string))
    (first : dict json date) (date_keys : dict date string) :
  (forall k, dict_get first k = first_date_with processed k) ->
  exists first' date_keys',
    date_keys_loop rest (first, date_keys) = Ok (first', date_keys') /\
    (forall k, dict_get first' k = first_date_with (processed ++ rest) k) /\
    (forall d, ~ In d (dict_keys rest) -> dict_get date_keys' d = dict_get date_keys d) /\
    (dict_wf rest ->
     forall d s, In (d, s) rest ->
       exists d0, first_date_with (processed ++ rest) (json_dumps (sorted_strings s)) = Some d0 /\
                  dict_get date_keys' d = Some (str_date d0)).
Proof.
  revert processed first date_keys.
  induction rest as [|[d s] rest IH]; intros processed first date_keys Hinv.
  - exists first, date_keys. rewrite app_nil_r. simpl. repeat split; auto. tauto.
  - cbn [date_keys_loop date_keys_step].
    set (k := json_dumps (sorted_strings s)).
    set (first1 := if negb (dict_mem first k) then dict_set first k d else first).
    assert (Hinv1 : forall k0, dict_get first1 k0 = first_date_with (processed ++ [(d, s)]) k0).
    { intros k0. rewrite first_date_with_app. simpl. fold k. subst first1.
      unfold dict_mem. rewrite <- Hinv.
      destruct (eqb_spec k k0) as [<-|Hk].
      - destruct (dict_get first k) eqn:Hg; simpl; [exact Hg | apply dict_get_set_eq].
      - destruct (dict_get first k) eqn:Hg; simpl.
        + now destruct (dict_get first k0).
        + rewrite dict_get_set_ne by exact Hk. now destruct (dict_get first k0). }
    assert (Hk1 : exists d0, dict_get first1 k = Some d0).
    { rewrite Hinv1, first_date_with_app. simpl. fold k. rewrite eqb_refl.
      destruct (first_date_with processed k); eauto. }
    destruct Hk1 as [d0 Hd0]. unfold dict_getitem. rewrite Hd0. cbn [bind].
    destruct (IH (processed ++ [(d, s)]) first1 (dict_set date_keys d (str_date d0)) Hinv1)
      as (first' & date_keys' & Hrun & Hfirst & Hframe & Hkeys).
    rewrite <- app_assoc in Hfirst, Hkeys. simpl in Hfirst, Hkeys.
    exists first', date_keys'. split; [exact Hrun|]. split; [exact Hfirst|]. split.
    + intros d' Hnotin. simpl in Hnotin.
      rewrite Hframe by tauto. apply dict_get_set_ne. intros ->. tauto.
    + intros Hwf d' s' Hin. unfold dict_wf in Hwf. simpl in Hwf.
      inversion Hwf as [|? ? Hnotin Hwf']; subst.
      destruct Hin as [[= <- <-]|Hin].
      * exists d0. split.
        -- rewrite first_date_with_app. rewrite Hinv1 in Hd0. fold k.
           rewrite first_date_with_app in Hd0. simpl in Hd0. fold k in Hd0.
           rewrite eqb_refl in Hd0. simpl. fold k. rewrite eqb_refl.
           destruct (first_date_with processed k); congruence.
        -- rewrite Hframe by exact Hnotin. apply dict_get_set_eq.
      * apply Hkeys; assumption.
Qed.

End DateKeys.


#[export] Instance PyEq_list {A : Type} `{PyEq A} : PyEq (list A) :=
  {| eqb := list_eqb; eqb_spec := list_eqb_spec |}.


Section SortedBy.
Context {A : Type} (key : A -> Z).

Definition key_le (a b : A) : Prop := (key a <= key b)%Z.

(** The elements of [l] whose key is [k], in the order they have in [l]. *)
Definition with_key (k : Z) (l : list A) : list A :=
  filter (fun a => (key a =? k)%Z) l.

Lemma with_key_app (k : Z) (l1 l2 : list A) :
  with_key k (l1 ++ l2) = with_key k l1 ++ with_key k l2.
Proof. apply filter_app. Qed.

Lemma insert_sorted_perm (x : A) (l : list A) :
  Permutation (insert_sorted (fun a b => (key a <=? key b)%Z) x l) (x :: l).
Proof.
  induction l as [|y l IH]; simpl; [reflexivity|].
  destruct (key x <=? key y)%Z; [reflexivity|].
  rewrite IH. apply perm_swap.
Qed.

Lemma sorted_by_perm (l : list A) : Permutation (sorted_by key l) l.
Proof.
  unfold sorted_by. induction l as [|x l IH]; simpl; [reflexivity|].
  rewrite insert_sorted_perm. now constructor.
Qed.

Lemma insert_sorted_sorted (x : A) (l : list A) :
  StronglySorted key_le l ->
  StronglySorted key_le (insert_sorted (fun a b => (key a <=? key b)%Z) x l).
Proof.
  induction 1 as [|y l Hs IH Hall]; simpl.
  - repeat constructor.
  - destruct (Z.leb_spec (key x) (key y)) as [Hle|Hgt].
    + constructor; [now constructor|].
      constructor; [exact Hle|].
      eapply Forall_impl; [|exact Hall]. unfold key_le. intros a Ha. lia.
    + constructor; [exact IH|].
      apply (Permutation_Forall (Permutation_sym (insert_sorted_perm x l))).
      constructor; [unfold key_le; lia | exact Hall].
Qed.

Lemma sorted_by_sorted (l : list A) : StronglySorted key_le (sorted_by key l).
Proof.
  unfold sorted_by. induction l as [|x l IH]; simpl; [constructor|].
  now apply insert_sorted_sorted.
Qed.

Lemma insert_sorted_with_key (k : Z) (x : A) (l : list A) :
  with_key k (insert_sorted (fun a b => (key a <=? key b)%Z) x l) = with_key k (x :: l).
Proof.
  induction l as [|y l IH]; [reflexivity|]. cbn [insert_sorted].
  destruct (Z.leb_spec (key x) (key y)) as [Hle|Hgt]; [reflexivity|].
  unfold with_key in *. cbn [filter] in *. rewrite IH.
  destruct (Z.eqb_spec (key x) k) as [Hx|Hx]; [|reflexivity].
  destruct (Z.eqb_spec (key y) k) as [Hy|Hy]; [lia | reflexivity].
Qed.

(** Stability: elements with equal keys keep the order of the input. *)
Lemma sorted_by_stable (k : Z) (l : list A) :
  with_key k (sorted_by key l) = with_key k l.
Proof.
  unfold sorted_by. induction l as [|x l IH]; [reflexivity|]. cbn [sorted_with].
  rewrite insert_sorted_with_key. unfold with_key in *. cbn [filter]. now rewrite IH.
Qed.

(** A list sorted by key is determined by its runs of equal keys. *)
Lemma sorted_runs_unique (l1 l2 : list A) :
  StronglySorted key_le l1 -> StronglySorted key_le l2 ->
  (forall k, with_key k l1 = with_key k l2) -> l1 = l2.
Proof.
  intros Hs1. revert l2.
  induction Hs1 as [|a l1 Hs1 IH Hall1]; intros l2 Hs2 Hruns.
  - destruct l2 as [|b l2]; [reflexivity|].
    specialize (Hruns (key b)). unfold with_key in Hruns. simpl in Hruns.
    rewrite Z.eqb_refl in Hruns. discriminate.
  - destruct Hs2 as [|b l2 Hs2 Hall2].
    + specialize (Hruns (key a)). unfold with_key in Hruns. simpl in Hruns.
      rewrite Z.eqb_refl in Hruns. discriminate.
    + assert (Hab : (key b <= key a)%Z).
      { assert (Hin : In a (with_key (key a) (b :: l2))).
        { rewrite <- Hruns. unfold with_key. simpl. rewrite Z.eqb_refl. now left. }
        apply filter_In in Hin. destruct Hin as [[->|Hin] _]; [lia|].
        rewrite Forall_forall in Hall2. now apply Hall2. }
      assert (Hba : (key a <= key b)%Z).
      { assert (Hin : In b (with_key (key b) (a :: l1))).
        { rewrite Hruns. unfold with_key. simpl. rewrite Z.eqb_refl. now left. }
        apply filter_In in Hin. destruct Hin as [[->|Hin] _]; [lia|].
        rewrite Forall_forall in Hall1. now apply Hall1. }
      assert (Hk : key a = key b) by lia.
      assert (Heq : a = b).
      { specialize (Hruns (key a)). unfold with_key in Hruns. simpl in Hruns.
        rewrite Z.eqb_refl in Hruns. rewrite <- Hk, Z.eqb_refl in Hruns. congruence. }
      subst b. f_equal. apply IH; [exact Hs2|].
      intros k. specialize (Hruns k). unfold with_key in *. simpl in Hruns.
      destruct (key a =? k)%Z; congruence.
Qed.

(** Sorting again after appending to a sorted list is sorting the whole. *)
Lemma sorted_by_app_sorted (l1 l2 : list A) :
  sorted_by key (sorted_by key l1 ++ l2) = sorted_by key (l1 ++ l2).
Proof.
  apply sorted_runs_unique; try apply sorted_by_sorted.
  intros k. rewrite !sorted_by_stable, !with_key_app. now rewrite sorted_by_stable.
Qed.

End SortedBy.


(* ------------------------------------------------------------------ *)
(** ** The feed and the scraper object                                  *)
(* ------------------------------------------------------------------ *)

(** A row of trips.txt. *)
Record trip : Type := {
  trip_id : string;
  route_id : string;
  service_id : string;
  direction_id : string;
  shape_id : string
}.

(** A row of stop_times.txt; partridge gives the times in seconds after
    midnight.  Every row is taken to have both times, [int(...)] of which is
    then the integer itself; a row with an empty time, on which [int]
    raises [ValueError], is outside the model. *)
Record stop_time : Type := {
  st_trip_id : string;
  arrival_time : Z;
  departure_time : Z;
  st_stop_id : string;
  stop_sequence : Z
}.

(** A row of stops.txt: its columns, and the coordinates of its geometry. *)
Record stop : Type := {
  stop_columns : dict string string;
  stop_x : Q;
  stop_y : Q
}.

(** [getattr(stop, field)] *)
Definition getattr (s : stop) (field : string) : result string :=
  match dict_get (stop_columns s) field with
  | Some v => Ok v
  | None => Raise AttributeError
  end.

Definition point : Type := (Q * Q)%type.

(** A shapely [LineString] of two coordinates. *)
Definition line : Type := (point * point)%type.

(** What lines 571-609 of [get_direction_data] derive from the geometry of
    one shape with shapely, numpy and [util.haver_distance]: the projection
    to metres, the line segments of the projected path and the cumulative
    distance at each coordinate. *)
Record shape_geometry : Type := {
  project_xy : Q -> Q -> point;
  shape_lines_xy : list line;
  shape_cumulative_dist : list Q
}.

(** An ArrivalEvent: [{'t': ..., 'i': ..., 'e': ...}], ['e'] optional. *)
Record arrival : Type := {
  arr_t : Z;
  arr_i : Z;
  arr_e : option Z
}.

(** A direction of a route config ([dir_info]). *)
Record dir_info : Type := {
  dir_id : string;
  gtfs_direction_id : string
}.

Record route_config : Type := {
  rc_id : string;
  get_direction_infos : list dir_info
}.

(** The scraper after [__init__]. *)
Record GtfsScraper : Type := {
  stop_id_gtfs_field : string;
  gtfs_stop_ids_map : dict string stop;
  stops_map : dict string stop;
  feed_stop_times : list stop_time;
  feed_shapes : dict string shape_geometry
}.

(** [np.unique(values)]: the distinct values, sorted. *)
Fixpoint dedup_adjacent (l : list string) : list string :=
  match l with
  | [] => []
  | x :: l' =>
      match l' with
      | [] => [x]
      | y :: _ => if eqb x y then dedup_adjacent l' else x :: dedup_adjacent l'
      end
  end.

Definition np_unique (values : list string) : list string :=
  dedup_adjacent (sorted_strings values).

(** [df.groupby(column)]: the groups in the sorted order of their keys, the
    rows of each group in the order of the frame. *)
Definition groupby {A : Type} (column : A -> string) (df : list A) : dict string (list A) :=
  map (fun k => (k, filter (fun row => eqb (column row) k) df)) (np_unique (map column df)).

(** [max(l)] *)
Definition py_max (l : list Z) : result Z :=
  match l with
  | [] => Raise ValueError
  | x :: l' => Ok (fold_left Z.max l' x)
  end.

(** Lines 369-373.  The cache [stop_times_by_trip] holds the grouping of
    the stop times by trip; filling it on first use does not change what
    is returned. *)
Definition get_stop_times_for_trip (self : GtfsScraper) (trip_id : string)
  : result (list stop_time) :=
  let stop_times_by_trip := groupby st_trip_id (feed_stop_times self) in
  dict_getitem stop_times_by_trip trip_id.

(** Lines 376-381. *)
Definition normalize_gtfs_stop_id (self : GtfsScraper) (gtfs_stop_id : string) : result string :=
  let stop_id_gtfs_field := stop_id_gtfs_field self in
  if negb (eqb stop_id_gtfs_field "stop_id"%string) then
    s <- dict_getitem (gtfs_stop_ids_map self) gtfs_stop_id ;;
    getattr s stop_id_gtfs_field
  else Ok gtfs_stop_id.

(* ------------------------------------------------------------------ *)
(** ** get_scheduled_arrivals_by_service_id (gtfs.py, lines 316-367)    *)
(* ------------------------------------------------------------------ *)

(** Lines 353-365: the stop times of one trip. *)
Fixpoint stop_times_loop (self : GtfsScraper) (trip_stop_times : list stop_time)
    (trip_int : Z) (direction_arrivals : dict string (list arrival))
  : result (dict string (list arrival)) :=
  match trip_stop_times with
  | [] => Ok direction_arrivals
  | stop_time :: rest =>
      stop_id <- normalize_gtfs_stop_id self (st_stop_id stop_time) ;;
      let arrival_time := arrival_time stop_time in
      let departure_time := departure_time stop_time in
      let arrival_data :=
        {| arr_t := arrival_time; arr_i := trip_int;
           arr_e := if negb (departure_time =? arrival_time)%Z
                    then Some departure_time else None |} in
      let direction_arrivals :=
        if negb (dict_mem direction_arrivals stop_id)
        then dict_set direction_arrivals stop_id []
        else direction_arrivals in
      l <- dict_getitem direction_arrivals stop_id ;;
      stop_times_loop self rest trip_int
        (dict_set direction_arrivals stop_id (l ++ [arrival_data]))
  end.

(** The variables the loop over the trips updates: [arrivals_by_direction],
    the shared [trip_ids_map] and [next_trip_int]. *)
Definition trips_state : Type :=
  (dict string (dict string (list arrival)) * dict string Z * Z)%type.

(** Lines 338-365: one trip. *)
Definition trips_step (self : GtfsScraper) (gtfs_direction_id_map : dict string dir_info)
    (st : trips_state) (route_trip : trip) : result trips_state :=
  let '(arrivals_by_direction, trip_ids_map, next_trip_int) := st in
  let trip_id := trip_id route_trip in
  trip_stop_times <- get_stop_times_for_trip self trip_id ;;
  let '(trip_ids_map, next_trip_int) :=
    if negb (dict_mem trip_ids_map trip_id)
    then (dict_set trip_ids_map trip_id next_trip_int, (next_trip_int + 1)%Z)
    else (trip_ids_map, next_trip_int) in
  trip_int <- dict_getitem trip_ids_map trip_id ;;
  dir_info <- dict_getitem gtfs_direction_id_map (direction_id route_trip) ;;
  direction_arrivals <- dict_getitem arrivals_by_direction (dir_id dir_info) ;;
  direction_arrivals <- stop_times_loop self trip_stop_times trip_int direction_arrivals ;;
  Ok (dict_set arrivals_by_direction (dir_id dir_info) direction_arrivals,
      trip_ids_map, next_trip_int).

Fixpoint trips_loop (self : GtfsScraper) (gtfs_direction_id_map : dict string dir_info)
    (service_route_trips : list trip) (st : trips_state) : result trips_state :=
  match service_route_trips with
  | [] => Ok st
  | route_trip :: rest =>
      st' <- trips_step self gtfs_direction_id_map st route_trip ;;
      trips_loop self gtfs_direction_id_map rest st'
  end.

(** Lines 325-327. *)
Definition initial_next_trip_int (trip_ids_map : dict string Z) : result Z :=
  let next_trip_int := 1%Z in
  if 0 <? length trip_ids_map
  then (m <- py_max (dict_values trip_ids_map) ;; Ok (m + 1)%Z)
  else Ok next_trip_int.

(** Lines 333-336: one direction of the route config. *)
Definition direction_maps_step
    (maps : dict string dir_info * dict string (dict string (list arrival)))
    (info : dir_info)
  : dict string dir_info * dict string (dict string (list arrival)) :=
  let '(gtfs_direction_id_map, arrivals_by_direction) := maps in
  (dict_set gtfs_direction_id_map (gtfs_direction_id info) info,
   dict_set arrivals_by_direction (dir_id info) []).

(** The function returns [arrivals_by_direction]; the [trip_ids_map] it was
    handed is updated in place, so the updated map is returned with it. *)
Definition get_scheduled_arrivals_by_service_id (self : GtfsScraper) (service_id : string)
    (route_config : route_config) (service_route_trips : list trip)
    (trip_ids_map : dict string Z)
  : result (dict string (dict string (list arrival)) * dict string Z) :=
  next_trip_int <- initial_next_trip_int trip_ids_map ;;
  let '(gtfs_direction_id_map, arrivals_by_direction) :=
    fold_left direction_maps_step (get_direction_infos route_config) ([], []) in
  '(arrivals_by_direction, trip_ids_map, _) <-
    trips_loop self gtfs_direction_id_map service_route_trips
      (arrivals_by_direction, trip_ids_map, next_trip_int) ;;
  Ok (arrivals_by_direction, trip_ids_map).

(* ------------------------------------------------------------------ *)
(** ** Per-route timetables: save_timetables (gtfs.py, lines 253-282)  *)
(* ------------------------------------------------------------------ *)

(** Lines 253-257: the arrivals of every service id of one route, with one
    [trip_ids_map] shared by the calls. *)
Fixpoint service_groups_loop (self : GtfsScraper) (route_config : route_config)
    (groups : list (string * list trip))
    (arrivals_by_service_id : dict string (dict string (dict string (list arrival))))
    (trip_ids_map : dict string Z)
  : result (dict string (dict string (dict string (list arrival))) * dict string Z) :=
  match groups with
  | [] => Ok (arrivals_by_service_id, trip_ids_map)
  | (service_id, service_route_trips) :: rest =>
      '(arrivals, trip_ids_map) <-
        get_scheduled_arrivals_by_service_id self service_id route_config
          service_route_trips trip_ids_map ;;
      service_groups_loop self route_config rest
        (dict_set arrivals_by_service_id service_id arrivals) trip_ids_map
  end.

Definition save_timetables_route_arrivals (self : GtfsScraper) (route_config : route_config)
    (route_trips : list trip)
  : result (dict string (dict string (dict string (list arrival))) * dict string Z) :=
  let arrivals_by_service_id := [] in
  let trip_ids_map := [] in
  service_groups_loop self route_config (groupby service_id route_trips)
    arrivals_by_service_id trip_ids_map.

(** Lines 277-282: the stops of one direction of one service. *)
Fixpoint merge_stops (direction_arrivals : list (string * list arrival))
    (direction_merged_arrivals : dict string (list arrival))
  : result (dict string (list arrival)) :=
  match direction_arrivals with
  | [] => Ok direction_merged_arrivals
  | (stop_id, stop_arrivals) :: rest =>
      let direction_merged_arrivals :=
        if negb (dict_mem direction_merged_arrivals stop_id)
        then dict_set direction_merged_arrivals stop_id []
        else direction_merged_arrivals in
      cur <- dict_getitem direction_merged_arrivals stop_id ;;
      merge_stops rest
        (dict_set direction_merged_arrivals stop_id (sorted_by arr_t (cur ++ stop_arrivals)))
  end.

(** Lines 271-282: the directions of one service. *)
Fixpoint merge_directions (service_id_arrivals : list (string * dict string (list arrival)))
    (merged_arrivals : dict string (dict string (list arrival)))
  : result (dict string (dict string (list arrival))) :=
  match service_id_arrivals with
  | [] => Ok merged_arrivals
  | (dir_id, direction_arrivals) :: rest =>
      let merged_arrivals :=
        if negb (dict_mem merged_arrivals dir_id)
        then dict_set merged_arrivals dir_id []
        else merged_arrivals in
      direction_merged_arrivals <- dict_getitem merged_arrivals dir_id ;;
      direction_merged_arrivals <- merge_stops direction_arrivals direction_merged_arrivals ;;
      merge_directions rest (dict_set merged_arrivals dir_id direction_merged_arrivals)
  end.

(** Lines 265-282: the service ids of one date key. *)
Fixpoint merge_services (service_ids : list string)
    (arrivals_by_service_id : dict string (dict string (dict string (list arrival))))
    (merged_arrivals : dict string (dict string (list arrival)))
  : result (dict string (dict string (list arrival))) :=
  match service_ids with
  | [] => Ok merged_arrivals
  | service_id :: rest =>
      if negb (dict_mem arrivals_by_service_id service_id)
      then merge_services rest arrivals_by_service_id merged_arrivals
      else
        service_id_arrivals <- dict_getitem arrivals_by_service_id service_id ;;
        merged_arrivals <- merge_directions service_id_arrivals merged_arrivals ;;
        merge_services rest arrivals_by_service_id merged_arrivals
  end.

(** Lines 260-282: [merged_arrivals] for the service ids of one date key. *)
Definition save_timetables_merge (service_ids : list string)
    (arrivals_by_service_id : dict string (dict string (dict string (list arrival))))
  : result (dict string (dict string (list arrival))) :=
  let merged_arrivals := [] in
  merge_services service_ids arrivals_by_service_id merged_arrivals.


(** *** What the merge computes, per (direction, stop) *)

(** [d[dir][stop]] when both keys are present. *)
Definition dict_get2 {V : Type} (d : dict string (dict string V)) (dir stop : string)
  : option V :=
  match dict_get d dir with
  | Some stops => dict_get stops stop
  | None => None
  end.

Definition or_nil {V : Type} (o : option (list V)) : list V :=
  match o with Some l => l | None => [] end.

Definition is_some {V : Type} (o : option V) : bool :=
  match o with Some _ => true | None => false end.

(** The arrival list of one service id at one (direction, stop). *)
Definition arrivals_of (arrivals_by_service_id : dict string (dict string (dict string (list arrival))))
    (service_id dir stop : string) : option (list arrival) :=
  match dict_get arrivals_by_service_id service_id with
  | Some dirs => dict_get2 dirs dir stop
  | None => None
  end.

(** Every dict of arrivals holds each of its keys once. *)
Definition wf_arrivals
    (arrivals_by_service_id : dict string (dict string (dict string (list arrival)))) : Prop :=
  forall service_id dirs, In (service_id, dirs) arrivals_by_service_id ->
    dict_wf dirs /\ forall dir stops, In (dir, stops) dirs -> dict_wf stops.

(** One more list merged into what a (direction, stop) holds so far. *)
Definition merge_into (acc : option (list arrival)) (new : option (list arrival))
  : option (list arrival) :=
  match new with
  | Some arrs => Some (sorted_by arr_t (or_nil acc ++ arrs))
  | None => acc
  end.

Lemma merge_stops_spec (direction_arrivals : dict string (list arrival))
    (dm : dict string (list arrival)) :
  dict_wf direction_arrivals ->
  exists dm',
    merge_stops direction_arrivals dm = Ok dm' /\
    forall stop, dict_get dm' stop = merge_into (dict_get dm stop) (dict_get direction_arrivals stop).
Proof.
  revert dm. induction direction_arrivals as [|[stop_id arrs] rest IH]; intros dm Hwf.
  - exists dm. split; [reflexivity|]. intros stop. reflexivity.
  - unfold dict_wf in Hwf. simpl in Hwf. inversion Hwf as [|? ? Hnotin Hwf']; subst.
    cbn [merge_stops].
    set (dm0 := if negb (dict_mem dm stop_id) then dict_set dm stop_id [] else dm).
    assert (Hcur : dict_get dm0 stop_id = Some (or_nil (dict_get dm stop_id))).
    { subst dm0. unfold dict_mem. destruct (dict_get dm stop_id) eqn:Hg; simpl.
      - exact Hg.
      - apply dict_get_set_eq. }
    unfold dict_getitem. rewrite Hcur. cbn [bind].
    destruct (IH (dict_set dm0 stop_id (sorted_by arr_t (or_nil (dict_get dm stop_id) ++ arrs))) Hwf')
      as (dm' & Hrun & Hget).
    exists dm'. split; [exact Hrun|].
    intros stop. rewrite Hget. cbn [dict_get].
    destruct (eqb_spec stop_id stop) as [<-|Hne].
    + apply dict_get_None in Hnotin. rewrite Hnotin. simpl.
      now rewrite dict_get_set_eq.
    + rewrite dict_get_set_ne by exact Hne.
      assert (Hdm0 : dict_get dm0 stop = dict_get dm stop).
      { subst dm0. destruct (negb (dict_mem dm stop_id)); [|reflexivity].
        now apply dict_get_set_ne. }
      now rewrite Hdm0.
Qed.

Lemma merge_directions_spec (service_id_arrivals : dict string (dict string (list arrival)))
    (merged : dict string (dict string (list arrival))) :
  dict_wf service_id_arrivals ->
  (forall dir stops, In (dir, stops) service_id_arrivals -> dict_wf stops) ->
  exists merged',
    merge_directions service_id_arrivals merged = Ok merged' /\
    forall dir stop,
      dict_get2 merged' dir stop =
      merge_into (dict_get2 merged dir stop) (dict_get2 service_id_arrivals dir stop).
Proof.
  revert merged. induction service_id_arrivals as [|[dir_id stops] rest IH];
    intros merged Hwf Hinner.
  - exists merged. split; [reflexivity|]. intros dir stop. reflexivity.
  - unfold dict_wf in Hwf. simpl in Hwf. inversion Hwf as [|? ? Hnotin Hwf']; subst.
    cbn [merge_directions].
    set (merged0 := if negb (dict_mem merged dir_id) then dict_set merged dir_id [] else merged).
    assert (Hcur : dict_get merged0 dir_id = Some (or_nil (dict_get merged dir_id))).
    { subst merged0. unfold dict_mem. destruct (dict_get merged dir_id) eqn:Hg; simpl.
      - exact Hg.
      - apply dict_get_set_eq. }
    unfold dict_getitem. rewrite Hcur. cbn [bind].
    destruct (merge_stops_spec stops (or_nil (dict_get merged dir_id)))
      as (dm' & Hstops & Hdm'); [apply (Hinner dir_id); now left|].
    rewrite Hstops. cbn [bind].
    destruct (IH (dict_set merged0 dir_id dm') Hwf') as (merged' & Hrun & Hget).
    { intros dir stops' Hin. apply (Hinner dir). now right. }
    exists merged'. split; [exact Hrun|].
    intros dir stop. rewrite Hget. unfold dict_get2 at 1 3 4. cbn [dict_get].
    destruct (eqb_spec dir_id dir) as [<-|Hne].
    + apply dict_get_None in Hnotin. unfold dict_get2 at 1. rewrite Hnotin.
      rewrite dict_get_set_eq. cbn [merge_into]. rewrite Hdm'.
      destruct (dict_get merged dir_id); reflexivity.
    + rewrite dict_get_set_ne by exact Hne.
      assert (Hm0 : dict_get merged0 dir = dict_get merged dir).
      { subst merged0. destruct (negb (dict_mem merged dir_id)); [|reflexivity].
        now apply dict_get_set_ne. }
      now rewrite Hm0.
Qed.

(** The merge of the service ids one after the other, at one
    (direction, stop). *)
Fixpoint merged_at (arrivals_by_service_id : dict string (dict string (dict string (list arrival))))
    (dir stop : string) (service_ids : list string) (acc : option (list arrival))
  : option (list arrival) :=
  match service_ids with
  | [] => acc
  | service_id :: rest =>
      merged_at arrivals_by_service_id dir stop rest
        (merge_into acc (arrivals_of arrivals_by_service_id service_id dir stop))
  end.

Lemma merge_services_spec (service_ids : list string)
    (arrivals_by_service_id : dict string (dict string (dict string (list arrival))))
    (merged : dict string (dict string (list arrival))) :
  wf_arrivals arrivals_by_service_id ->
  exists merged',
    merge_services service_ids arrivals_by_service_id merged = Ok merged' /\
    forall dir stop,
      dict_get2 merged' dir stop =
      merged_at arrivals_by_service_id dir stop service_ids (dict_get2 merged dir stop).
Proof.
  intros Hwf. revert merged.
  induction service_ids as [|service_id rest IH]; intros merged.
  - exists merged. split; reflexivity.
  - cbn [merge_services merged_at]. unfold dict_mem, dict_getitem, arrivals_of.
    destruct (dict_get arrivals_by_service_id service_id) as [dirs|] eqn:Hg; cbn [negb bind].
    + destruct (Hwf service_id dirs (dict_get_In _ _ _ Hg)) as [Hdirs Hstops].
      destruct (merge_directions_spec dirs merged Hdirs Hstops) as (merged1 & Hrun1 & Hget1).
      rewrite Hrun1. cbn [bind].
      destruct (IH merged1) as (merged' & Hrun & Hget).
      exists merged'. split; [exact Hrun|].
      intros dir stop. now rewrite Hget, Hget1.
    + destruct (IH merged) as (merged' & Hrun & Hget).
      exists merged'. split; [exact Hrun|]. intros dir stop. now rewrite Hget.
Qed.

Lemma merged_at_sorted (arrivals_by_service_id : dict string (dict string (dict string (list arrival))))
    (dir stop : string) (service_ids : list string) (l : list arrival) :
  merged_at arrivals_by_service_id dir stop service_ids (Some (sorted_by arr_t l)) =
  Some (sorted_by arr_t
          (l ++ concat (map (fun s => or_nil (arrivals_of arrivals_by_service_id s dir stop))
                          service_ids))).
Proof.
  revert l. induction service_ids as [|s rest IH]; intros l; cbn [merged_at map concat].
  - now rewrite app_nil_r.
  - destruct (arrivals_of arrivals_by_service_id s dir stop) as [arrs|]; cbn [merge_into or_nil].
    + rewrite sorted_by_app_sorted, IH. now rewrite app_assoc.
    + now rewrite IH.
Qed.

Lemma merged_at_None (arrivals_by_service_id : dict string (dict string (dict string (list arrival))))
    (dir stop : string) (service_ids : list string) :
  merged_at arrivals_by_service_id dir stop service_ids None =
  if existsb (fun s => is_some (arrivals_of arrivals_by_service_id s dir stop)) service_ids
  then Some (sorted_by arr_t
               (concat (map (fun s => or_nil (arrivals_of arrivals_by_service_id s dir stop))
                          service_ids)))
  else None.
Proof.
  induction service_ids as [|s rest IH]; cbn [merged_at map concat existsb]; [reflexivity|].
  destruct (arrivals_of arrivals_by_service_id s dir stop) as [arrs|];
    cbn [merge_into or_nil is_some orb app].
  - apply merged_at_sorted.
  - exact IH.
Qed.


(** *** Trip integers *)

(** The shared [trip_ids_map] holds each trip id once and numbers the trip
    ids 1, 2, 3, ... in the order in which they were first seen. *)
Definition dense (trip_ids_map : dict string Z) : Prop :=
  dict_wf trip_ids_map /\
  dict_values trip_ids_map = map Z.of_nat (seq 1 (length trip_ids_map)).

Lemma fold_max_seq (n x : nat) :
  fold_left Z.max (map Z.of_nat (seq (S x) n)) (Z.of_nat x) = Z.of_nat (x + n).
Proof.
  revert x. induction n as [|n IH]; intros x; simpl.
  - f_equal. lia.
  - replace (Z.max (Z.of_nat x) (Z.pos (Pos.of_succ_nat x))) with (Z.of_nat (S x)) by lia.
    rewrite IH. f_equal. lia.
Qed.

Lemma initial_next_trip_int_dense (m : dict string Z) :
  dense m -> initial_next_trip_int m = Ok (Z.of_nat (length m) + 1)%Z.
Proof.
  intros [_ Hvals]. unfold initial_next_trip_int. rewrite Hvals.
  destruct m as [|kv m]; [reflexivity|].
  cbn [length Nat.ltb Nat.leb seq map py_max bind].
  rewrite (fold_max_seq (length m) 1). reflexivity.
Qed.

Lemma dense_set_new (m : dict string Z) (k : string) :
  dense m -> dict_get m k = None ->
  dense (dict_set m k (Z.of_nat (length m) + 1)%Z).
Proof.
  intros [Hwf Hvals] Hk. split; [now apply dict_wf_set|].
  rewrite (dict_set_absent _ _ _ Hk). unfold dict_values in *.
  rewrite map_app, length_app, Hvals. simpl.
  rewrite Nat.add_1_r, seq_S, map_app. simpl. do 3 f_equal. lia.
Qed.

Lemma dict_get_app_l {K V : Type} `{PyEq K} (m new : dict K V) (k : K) (v : V) :
  dict_get m k = Some v -> dict_get (m ++ new) k = Some v.
Proof.
  induction m as [|[k' v'] m IH]; simpl; [discriminate|].
  destruct (eqb k' k); auto.
Qed.

(** One trip keeps the map dense and only appends to it. *)
Lemma trips_step_dense (self : GtfsScraper) (gmap : dict string dir_info)
    (abd abd' : dict string (dict string (list arrival)))
    (m m' : dict string Z) (next next' : Z) (route_trip : trip) :
  dense m -> next = (Z.of_nat (length m) + 1)%Z ->
  trips_step self gmap (abd, m, next) route_trip = Ok (abd', m', next') ->
  dense m' /\ next' = (Z.of_nat (length m') + 1)%Z /\
  (exists new, m' = m ++ new) /\
  dict_mem m' (trip_id route_trip) = true.
Proof.
  intros Hdense Hnext. unfold trips_step.
  destruct (get_stop_times_for_trip self (trip_id route_trip)) as [sts|]; [|discriminate].
  cbn [bind].
  destruct (dict_get m (trip_id route_trip)) as [n|] eqn:Hg.
  - unfold dict_mem at 1. rewrite Hg. cbn [negb]. unfold dict_getitem at 1. rewrite Hg.
    cbn [bind].
    destruct (dict_getitem gmap (direction_id route_trip)); [|discriminate]. cbn [bind].
    destruct (dict_getitem abd (dir_id a)); [|discriminate]. cbn [bind].
    destruct (stop_times_loop self sts n a0); [|discriminate]. cbn [bind].
    intros [= <- <- <-]. repeat split; try tauto.
    + apply Hdense.
    + apply Hdense.
    + exists []. now rewrite app_nil_r.
    + unfold dict_mem. now rewrite Hg.
  - unfold dict_mem at 1. rewrite Hg. cbn [negb]. unfold dict_getitem at 1.
    rewrite dict_get_set_eq. cbn [bind].
    destruct (dict_getitem gmap (direction_id route_trip)); [|discriminate]. cbn [bind].
    destruct (dict_getitem abd (dir_id a)); [|discriminate]. cbn [bind].
    destruct (stop_times_loop self sts next a0); [|discriminate]. cbn [bind].
    intros [= <- <- <-]. subst next.
    pose proof (dense_set_new m (trip_id route_trip) Hdense Hg) as Hd.
    rewrite (dict_set_absent _ _ _ Hg) in *.
    repeat split; try apply Hd.
    + rewrite length_app. simpl. lia.
    + eexists; reflexivity.
    + unfold dict_mem. rewrite <- (dict_set_absent _ _ _ Hg), dict_get_set_eq. reflexivity.
Qed.

Lemma dict_mem_app_l {K V : Type} `{PyEq K} (m new : dict K V) (k : K) :
  dict_mem m k = true -> dict_mem (m ++ new) k = true.
Proof.
  unfold dict_mem. destruct (dict_get m k) eqn:Hg; [|discriminate].
  now rewrite (dict_get_app_l _ new _ _ Hg).
Qed.

Lemma trips_loop_dense (self : GtfsScraper) (gmap : dict string dir_info)
    (service_route_trips : list trip)
    (abd abd' : dict string (dict string (list arrival)))
    (m m' : dict string Z) (next next' : Z) :
  dense m -> next = (Z.of_nat (length m) + 1)%Z ->
  trips_loop self gmap service_route_trips (abd, m, next) = Ok (abd', m', next') ->
  dense m' /\ (exists new, m' = m ++ new) /\
  forall tr, In tr service_route_trips -> dict_mem m' (trip_id tr) = true.
Proof.
  revert abd m next.
  induction service_route_trips as [|tr rest IH]; intros abd m next Hdense Hnext;
    cbn [trips_loop].
  - intros [= <- <- <-]. repeat split; [apply Hdense .. | |].
    + exists []. now rewrite app_nil_r.
    + intros tr [].
  - destruct (trips_step self gmap (abd, m, next) tr) as [[[abd1 m1] next1]|] eqn:Hstep;
      [|discriminate].
    cbn [bind]. intros Hrun.
    destruct (trips_step_dense _ _ _ _ _ _ _ _ _ Hdense Hnext Hstep)
      as (Hd1 & Hn1 & [new1 Hnew1] & Hmem1).
    destruct (IH _ _ _ Hd1 Hn1 Hrun) as (Hd' & [new' Hnew'] & Hmem').
    split; [exact Hd'|]. split.
    + exists (new1 ++ new'). subst. now rewrite app_assoc.
    + intros tr' [<-|Hin]; [|now apply Hmem'].
      rewrite Hnew'. now apply dict_mem_app_l.
Qed.

Lemma get_scheduled_arrivals_dense (self : GtfsScraper) (service_id : string)
    (route_config : route_config) (service_route_trips : list trip)
    (m m' : dict string Z) (arrivals : dict string (dict string (list arrival))) :
  dense m ->
  get_scheduled_arrivals_by_service_id self service_id route_config service_route_trips m
    = Ok (arrivals, m') ->
  dense m' /\ (exists new, m' = m ++ new) /\
  forall tr, In tr service_route_trips -> dict_mem m' (trip_id tr) = true.
Proof.
  intros Hdense. unfold get_scheduled_arrivals_by_service_id.
  rewrite (initial_next_trip_int_dense m Hdense). cbn [bind].
  destruct (fold_left direction_maps_step (get_direction_infos route_config) ([], []))
    as [gmap abd].
  destruct (trips_loop self gmap service_route_trips (abd, m, (Z.of_nat (length m) + 1)%Z))
    as [[[abd1 m1] next1]|] eqn:Hloop; [|discriminate].
  cbn [bind]. intros [= <- <-].
  eapply trips_loop_dense; eauto.
Qed.

Lemma service_groups_loop_dense (self : GtfsScraper) (route_config : route_config)
    (groups : list (string * list trip))
    (abs abs' : dict string (dict string (dict string (list arrival))))
    (m m' : dict string Z) :
  dense m ->
  service_groups_loop self route_config groups abs m = Ok (abs', m') ->
  dense m' /\ (exists new, m' = m ++ new) /\
  forall service_id trips tr,
    In (service_id, trips) groups -> In tr trips -> dict_mem m' (trip_id tr) = true.
Proof.
  revert abs m. induction groups as [|[sid trips] rest IH]; intros abs m Hdense;
    cbn [service_groups_loop].
  - intros [= <- <-]. split; [exact Hdense|]. split.
    + exists []. now rewrite app_nil_r.
    + intros ? ? ? [].
  - destruct (get_scheduled_arrivals_by_service_id self sid route_config trips m)
      as [[arr m1]|] eqn:Hcall; [|discriminate].
    cbn [bind]. intros Hrun.
    destruct (get_scheduled_arrivals_dense _ _ _ _ _ _ _ Hdense Hcall)
      as (Hd1 & [new1 Hnew1] & Hmem1).
    destruct (IH _ _ Hd1 Hrun) as (Hd' & [new' Hnew'] & Hmem').
    split; [exact Hd'|]. split.
    + exists (new1 ++ new'). subst. now rewrite app_assoc.
    + intros sid' trips' tr [[= <- <-]|Hin] Htr.
      * rewrite Hnew'. apply dict_mem_app_l. now apply Hmem1.
      * eapply Hmem'; eauto.
Qed.

Lemma dense_nil : dense [].
Proof. split; [constructor | reflexivity]. Qed.

(** A dense map gives different trips different integers. *)
Lemma dense_injective (m : dict string Z) (t1 t2 : string) (n : Z) :
  dense m -> dict_get m t1 = Some n -> dict_get m t2 = Some n -> t1 = t2.
Proof.
  intros [Hwf Hvals] H1 H2.
  assert (Hnd : NoDup (dict_values m)).
  { rewrite Hvals. apply Finite.Injective_map_NoDup; [|apply seq_NoDup].
    intros a b Hab. lia. }
  clear Hvals. unfold dict_wf, dict_keys, dict_values in *.
  induction m as [|[k v] m IH]; cbn [dict_get map fst snd] in *; [discriminate|].
  apply NoDup_cons_iff in Hwf. destruct Hwf as [Hk Hwf'].
  apply NoDup_cons_iff in Hnd. destruct Hnd as [Hv Hnd'].
  destruct (eqb_spec k t1) as [E1|Hne1], (eqb_spec k t2) as [E2|Hne2].
  - congruence.
  - exfalso. injection H1 as ->. apply Hv. apply dict_get_In in H2.
    change n with (snd (t2, n)). now apply in_map.
  - exfalso. injection H2 as ->. apply Hv. apply dict_get_In in H1.
    change n with (snd (t1, n)). now apply in_map.
  - now apply IH.
Qed.


(** *** The calls return *)

Lemma insert_sorted_permutation {A : Type} (leb : A -> A -> bool) (x : A) (l : list A) :
  Permutation (insert_sorted leb x l) (x :: l).
Proof.
  induction l as [|y l IH]; simpl; [reflexivity|].
  destruct (leb x y); [reflexivity|].
  rewrite IH. apply perm_swap.
Qed.

Lemma sorted_with_perm {A : Type} (leb : A -> A -> bool) (l : list A) :
  Permutation (sorted_with leb l) l.
Proof.
  induction l as [|x l IH]; simpl; [reflexivity|].
  rewrite insert_sorted_permutation. now constructor.
Qed.

Lemma dedup_adjacent_In (x : string) (l : list string) :
  In x (dedup_adjacent l) <-> In x l.
Proof.
  induction l as [|a l IH]; [reflexivity|].
  cbn [dedup_adjacent]. destruct l as [|b l]; [reflexivity|].
  destruct (eqb_spec a b) as [->|Hne].
  - rewrite IH. simpl. tauto.
  - change (In x (a :: dedup_adjacent (b :: l))) with (a = x \/ In x (dedup_adjacent (b :: l))).
    rewrite IH. simpl. tauto.
Qed.

Lemma np_unique_In (x : string) (values : list string) :
  In x (np_unique values) <-> In x values.
Proof.
  unfold np_unique, sorted_strings. rewrite dedup_adjacent_In.
  split; apply Permutation_in; [|symmetry]; apply sorted_with_perm.
Qed.

Lemma dict_get_map_keys {K V : Type} `{PyEq K} (f : K -> V) (keys : list K) (k : K) :
  In k keys -> dict_get (map (fun k => (k, f k)) keys) k = Some (f k).
Proof.
  induction keys as [|a keys IH]; simpl; [tauto|].
  destruct (eqb_spec a k) as [->|Hne]; [reflexivity|].
  intros [Ha|Hin]; [congruence | auto].
Qed.

Lemma groupby_get {A : Type} (column : A -> string) (df : list A) (row : A) :
  In row df ->
  dict_get (groupby column df) (column row) =
  Some (filter (fun r => eqb (column r) (column row)) df).
Proof.
  intros Hin. unfold groupby.
  apply (dict_get_map_keys (fun k => filter (fun r => eqb (column r) k) df)).
  apply np_unique_In. now apply in_map.
Qed.

Lemma groupby_rows {A : Type} (column : A -> string) (df : list A) (k : string) (rows : list A) :
  In (k, rows) (groupby column df) -> forall row, In row rows -> In row df.
Proof.
  unfold groupby. intros Hin row Hrow. apply in_map_iff in Hin.
  destruct Hin as (k' & [= <- <-] & _). apply filter_In in Hrow. tauto.
Qed.

Lemma groupby_covers {A : Type} (column : A -> string) (df : list A) (row : A) :
  In row df -> exists rows, In (column row, rows) (groupby column df) /\ In row rows.
Proof.
  intros Hin. exists (filter (fun r => eqb (column r) (column row)) df). split.
  - apply dict_get_In. now apply groupby_get.
  - apply filter_In. split; [exact Hin | apply eqb_refl].
Qed.

Lemma dict_mem_set {K V : Type} `{PyEq K} (d : dict K V) (k k0 : K) (v : V) :
  dict_mem d k0 = true -> dict_mem (dict_set d k v) k0 = true.
Proof.
  unfold dict_mem. destruct (eqb_spec k k0) as [->|Hne].
  - now rewrite dict_get_set_eq.
  - now rewrite dict_get_set_ne.
Qed.

Lemma stop_times_loop_returns (self : GtfsScraper) (trip_stop_times : list stop_time)
    (trip_int : Z) (direction_arrivals : dict string (list arrival)) :
  stop_id_gtfs_field self = "stop_id"%string ->
  exists direction_arrivals',
    stop_times_loop self trip_stop_times trip_int direction_arrivals = Ok direction_arrivals'.
Proof.
  intros Hfield. revert direction_arrivals.
  induction trip_stop_times as [|st rest IH]; intros da; cbn [stop_times_loop]; [eauto|].
  unfold normalize_gtfs_stop_id. rewrite Hfield. cbn [eqb PyEq_string].
  rewrite String.eqb_refl. cbn [negb bind].
  set (da0 := if negb (dict_mem da (st_stop_id st)) then dict_set da (st_stop_id st) [] else da).
  assert (Hin : exists l, dict_get da0 (st_stop_id st) = Some l).
  { subst da0. unfold dict_mem. destruct (dict_get da (st_stop_id st)) eqn:Hg; simpl.
    - eauto.
    - rewrite dict_get_set_eq. eauto. }
  destruct Hin as [l Hl]. unfold dict_getitem. rewrite Hl. cbn [bind]. apply IH.
Qed.

(** Every direction of the route config has its (possibly empty) dict of
    arrivals. *)
Definition dirs_ready (gmap : dict string dir_info)
    (abd : dict string (dict string (list arrival))) : Prop :=
  forall d di, dict_get gmap d = Some di -> dict_mem abd (dir_id di) = true.

Lemma trips_step_returns (self : GtfsScraper) (gmap : dict string dir_info)
    (abd : dict string (dict string (list arrival))) (m : dict string Z) (next : Z)
    (route_trip : trip) :
  stop_id_gtfs_field self = "stop_id"%string ->
  (exists st, In st (feed_stop_times self) /\ st_trip_id st = trip_id route_trip) ->
  dict_mem gmap (direction_id route_trip) = true ->
  dirs_ready gmap abd ->
  exists abd' m' next',
    trips_step self gmap (abd, m, next) route_trip = Ok (abd', m', next') /\
    dirs_ready gmap abd'.
Proof.
  intros Hfield (st & Hst & Htid) Hdir Hready. unfold trips_step.
  unfold get_stop_times_for_trip, dict_getitem at 1.
  rewrite <- Htid, (groupby_get st_trip_id _ st Hst). cbn [bind]. rewrite Htid.
  set (upd := if negb (dict_mem m (trip_id route_trip))
              then (dict_set m (trip_id route_trip) next, (next + 1)%Z) else (m, next)).
  assert (Hint : exists n, dict_get (fst upd) (trip_id route_trip) = Some n).
  { subst upd. unfold dict_mem. destruct (dict_get m (trip_id route_trip)) eqn:Hg; simpl.
    - eauto.
    - rewrite dict_get_set_eq. eauto. }
  destruct upd as [m1 next1]. destruct Hint as [n Hn]. simpl in Hn.
  unfold dict_getitem at 1. rewrite Hn. cbn [bind].
  unfold dict_mem in Hdir. unfold dict_getitem at 1.
  destruct (dict_get gmap (direction_id route_trip)) as [di|] eqn:Hdi; [|discriminate].
  cbn [bind]. pose proof (Hready _ _ Hdi) as Hmem. unfold dict_mem in Hmem.
  unfold dict_getitem. destruct (dict_get abd (dir_id di)) as [da|] eqn:Hda; [|discriminate].
  cbn [bind].
  destruct (stop_times_loop_returns self
              (filter (fun r => eqb (st_trip_id r) (st_trip_id st)) (feed_stop_times self))
              n da Hfield) as [da' Hloop].
  rewrite Htid in Hloop. rewrite Hloop. cbn [bind].
  eexists _, _, _. split; [reflexivity|].
  intros d di' Hd. apply dict_mem_set. eapply Hready; eauto.
Qed.

Lemma trips_loop_returns (self : GtfsScraper) (gmap : dict string dir_info)
    (service_route_trips : list trip)
    (abd : dict string (dict string (list arrival))) (m : dict string Z) (next : Z) :
  stop_id_gtfs_field self = "stop_id"%string ->
  (forall tr, In tr service_route_trips ->
     (exists st, In st (feed_stop_times self) /\ st_trip_id st = trip_id tr) /\
     dict_mem gmap (direction_id tr) = true) ->
  dirs_ready gmap abd ->
  exists st', trips_loop self gmap service_route_trips (abd, m, next) = Ok st'.
Proof.
  intros Hfield. revert abd m next.
  induction service_route_trips as [|tr rest IH]; intros abd m next Htrips Hready;
    cbn [trips_loop]; [eauto|].
  destruct (Htrips tr (or_introl eq_refl)) as [Hst Hdir].
  destruct (trips_step_returns self gmap abd m next tr Hfield Hst Hdir Hready)
    as (abd' & m' & next' & Hstep & Hready').
  rewrite Hstep. cbn [bind]. apply IH; [|exact Hready'].
  intros tr' Hin. apply Htrips. now right.
Qed.

Lemma direction_maps_ready (infos : list dir_info)
    (gmap : dict string dir_info) (abd : dict string (dict string (list arrival))) :
  dirs_ready gmap abd ->
  forall gmap' abd',
    fold_left direction_maps_step infos (gmap, abd) = (gmap', abd') ->
    dirs_ready gmap' abd' /\
    (forall d, dict_mem gmap d = true -> dict_mem gmap' d = true) /\
    (forall di, In di infos -> dict_mem gmap' (gtfs_direction_id di) = true).
Proof.
  revert gmap abd. induction infos as [|di infos IH]; intros gmap abd Hready gmap' abd';
    cbn [fold_left direction_maps_step].
  - intros [= <- <-]. split; [exact Hready|]. split; [auto|]. intros di [].
  - intros Hfold.
    assert (Hready1 : dirs_ready (dict_set gmap (gtfs_direction_id di) di)
                        (dict_set abd (dir_id di) [])).
    { intros d di' Hd. destruct (eqb_spec (gtfs_direction_id di) d) as [<-|Hne].
      - rewrite dict_get_set_eq in Hd. injection Hd as <-.
        unfold dict_mem. now rewrite dict_get_set_eq.
      - rewrite dict_get_set_ne in Hd by exact Hne. apply dict_mem_set. eapply Hready; eauto. }
    destruct (IH _ _ Hready1 _ _ Hfold) as (Hr & Hmono & Hall).
    split; [exact Hr|]. split.
    + intros d Hd. apply Hmono. now apply dict_mem_set.
    + intros di' [<-|Hin]; [|now apply Hall].
      apply Hmono. unfold dict_mem. now rewrite dict_get_set_eq.
Qed.

Lemma get_scheduled_arrivals_returns (self : GtfsScraper) (service_id : string)
    (route_config : route_config) (service_route_trips : list trip) (m : dict string Z) :
  dense m ->
  stop_id_gtfs_field self = "stop_id"%string ->
  (forall tr, In tr service_route_trips ->
     (exists st, In st (feed_stop_times self) /\ st_trip_id st = trip_id tr) /\
     (exists di, In di (get_direction_infos route_config) /\
                 gtfs_direction_id di = direction_id tr)) ->
  exists r,
    get_scheduled_arrivals_by_service_id self service_id route_config service_route_trips m
      = Ok r.
Proof.
  intros Hdense Hfield Htrips. unfold get_scheduled_arrivals_by_service_id.
  rewrite (initial_next_trip_int_dense m Hdense). cbn [bind].
  assert (Hempty : dirs_ready [] []) by (intros d di; discriminate).
  destruct (fold_left direction_maps_step (get_direction_infos route_config) ([], []))
    as [gmap abd] eqn:Hfold.
  destruct (direction_maps_ready _ _ _ Hempty _ _ Hfold) as (Hready & _ & Hall).
  destruct (trips_loop_returns self gmap service_route_trips abd m
              (Z.of_nat (length m) + 1)%Z Hfield) as [[[abd' m'] next'] Hloop];
    [|exact Hready|].
  - intros tr Hin. destruct (Htrips tr Hin) as [Hst (di & Hdi & Hgd)].
    split; [exact Hst|]. rewrite <- Hgd. now apply Hall.
  - rewrite Hloop. cbn [bind]. eauto.
Qed.

Lemma service_groups_loop_returns (self : GtfsScraper) (route_config : route_config)
    (groups : list (string * list trip))
    (abs : dict string (dict string (dict string (list arrival)))) (m : dict string Z) :
  dense m ->
  stop_id_gtfs_field self = "stop_id"%string ->
  (forall service_id trips tr, In (service_id, trips) groups -> In tr trips ->
     (exists st, In st (feed_stop_times self) /\ st_trip_id st = trip_id tr) /\
     (exists di, In di (get_direction_infos route_config) /\
                 gtfs_direction_id di = direction_id tr)) ->
  exists r, service_groups_loop self route_config groups abs m = Ok r.
Proof.
  intros Hdense Hfield. revert abs m Hdense.
  induction groups as [|[sid trips] rest IH]; intros abs m Hdense Hgroups;
    cbn [service_groups_loop]; [eauto|].
  destruct (get_scheduled_arrivals_returns self sid route_config trips m Hdense Hfield)
    as [[arr m1] Hcall].
  { intros tr Hin. apply (Hgroups sid trips tr); [now left | exact Hin]. }
  rewrite Hcall. cbn [bind].
  destruct (get_scheduled_arrivals_dense _ _ _ _ _ _ _ Hdense Hcall) as (Hd1 & _ & _).
  apply IH; [exact Hd1|].
  intros sid' trips' tr Hin Htr. apply (Hgroups sid' trips' tr); [now right | exact Htr].
Qed.


(* ------------------------------------------------------------------ *)
(** ** Stop projection: get_stop_geometry (gtfs.py, lines 15-52)       *)
(* ------------------------------------------------------------------ *)

(** [a < b] on distances. *)
Definition Qltb (a b : Q) : bool := negb (Qle_bool b a).

(** [int(x)]: truncation towards zero. *)
Definition py_int (x : Q) : Z := Z.quot (Qnum x) (Z.pos (Qden x)).

(** The dict [get_stop_geometry] returns. *)
Record stop_geometry : Type := {
  distance : Z;
  after_index : nat;
  offset : Z
}.

(** What [get_direction_data] returns, without the title and the rounded
    coordinates, which play no part below. *)
Record dir_data : Type := {
  dd_id : string;
  dd_gtfs_shape_id : string;
  dd_gtfs_direction_id : string;
  dd_stops : list string;
  dd_stop_geometry : dict string stop_geometry;
  dd_distance : Z
}.

Section Geometry.

(** shapely's [distance] between a line segment and a point, and between
    two points. *)
Variable line_distance : line -> point -> Q.
Variable point_distance : point -> point -> Q.

(** Lines 27-37: the while loop, over the segments from [shape_index] on. *)
Fixpoint scan_lines (lines : list line) (stop_xy : point) (shape_index : nat)
    (best_offset : Q) (best_index : nat) : Q * nat :=
  match lines with
  | [] => (best_offset, best_index)
  | shape_line :: rest =>
      let shape_line_offset := line_distance shape_line stop_xy in
      let '(best_offset, best_index) :=
        if Qltb shape_line_offset best_offset
        then (shape_line_offset, shape_index)
        else (best_offset, best_index) in
      if Qltb best_offset 50 && Qltb best_offset shape_line_offset
      then (best_offset, best_index)
      else scan_lines rest stop_xy (S shape_index) best_offset best_index
  end.

Definition get_stop_geometry (stop_xy : point) (shape_lines_xy : list line)
    (shape_cumulative_dist : list Q) (start_index : nat) : result stop_geometry :=
  let best_offset := 99999999%Q in
  let best_index := 0 in
  let '(best_offset, best_index) :=
    scan_lines (skipn start_index shape_lines_xy) stop_xy start_index best_offset best_index in
  shape_line <- getitem shape_lines_xy best_index ;;
  let shape_point := fst shape_line in
  let distance_after_shape_point := point_distance stop_xy shape_point in
  distance_to_shape_point <- getitem shape_cumulative_dist best_index ;;
  let stop_dist := (distance_to_shape_point + distance_after_shape_point)%Q in
  Ok {| distance := py_int stop_dist;
        after_index := best_index;
        offset := py_int best_offset |}.

(* ------------------------------------------------------------------ *)
(** ** get_direction_data (gtfs.py, lines 544-637)                     *)
(* ------------------------------------------------------------------ *)

(** Lines 618-635: the walk over the stops.  The state is the
    [stop_geometry] dict of the direction and [start_index]. *)
Fixpoint stops_loop (self : GtfsScraper) (shape : shape_geometry) (stop_ids : list string)
    (stop_geometries : dict string stop_geometry) (start_index : nat)
  : result (dict string stop_geometry * nat) :=
  match stop_ids with
  | [] => Ok (stop_geometries, start_index)
  | stop_id :: rest =>
      stop <- dict_getitem (stops_map self) stop_id ;;
      let stop_xy := project_xy shape (stop_x stop) (stop_y stop) in
      geometry <- get_stop_geometry stop_xy (shape_lines_xy shape)
                    (shape_cumulative_dist shape) start_index ;;
      if (offset geometry >? 100)%Z
      then stops_loop self shape rest stop_geometries start_index
      else stops_loop self shape rest (dict_set stop_geometries stop_id geometry)
             (after_index geometry)
  end.

(** [l[-1]] *)
Definition getitem_last {A : Type} (l : list A) : result A :=
  match rev l with
  | x :: _ => Ok x
  | [] => Raise IndexError
  end.

Definition get_direction_data (self : GtfsScraper) (id gtfs_shape_id gtfs_direction_id : string)
    (stop_ids : list string) (title : option string) : result dir_data :=
  _ <- match title with
       | Some t => Ok t
       | None =>
           last_stop_id <- getitem_last stop_ids ;;
           last_stop <- dict_getitem (stops_map self) last_stop_id ;;
           getattr last_stop "stop_name"
       end ;;
  shape <- match dict_get (feed_shapes self) gtfs_shape_id with
           | Some shape => Ok shape
           | None => Raise IndexError
           end ;;
  total <- getitem_last (shape_cumulative_dist shape) ;;
  let start_index := 0 in
  '(stop_geometries, _) <- stops_loop self shape stop_ids [] start_index ;;
  Ok {| dd_id := id;
        dd_gtfs_shape_id := gtfs_shape_id;
        dd_gtfs_direction_id := gtfs_direction_id;
        dd_stops := stop_ids;
        dd_stop_geometry := stop_geometries;
        dd_distance := py_int total |}.

End Geometry.


Section GeometryFacts.

Variable line_distance : line -> point -> Q.
Variable point_distance : point -> point -> Q.

(** The scan either keeps the best candidate it was given or ends on a
    segment it visited. *)
Lemma scan_lines_result (lines : list line) (stop_xy : point) (shape_index : nat)
    (best_offset : Q) (best_index : nat) (best_offset' : Q) (best_index' : nat) :
  scan_lines line_distance lines stop_xy shape_index best_offset best_index
    = (best_offset', best_index') ->
  (best_offset' = best_offset /\ best_index' = best_index) \/
  (shape_index <= best_index' < shape_index + length lines).
Proof.
  revert shape_index best_offset best_index.
  induction lines as [|shape_line rest IH]; intros idx bo bi; cbn [scan_lines].
  - intros [= <- <-]. now left.
  - destruct (Qltb (line_distance shape_line stop_xy) bo).
    + destruct (_ && _).
      * intros [= <- <-]. right. simpl. lia.
      * intros Hscan. apply IH in Hscan. simpl. destruct Hscan as [[-> ->]|Hr]; right; lia.
    + destruct (_ && _).
      * intros [= <- <-]. now left.
      * intros Hscan. apply IH in Hscan. simpl. destruct Hscan as [[-> ->]|Hr]; [now left|].
        right; lia.
Qed.

(** A geometry that passes the 100 metre test is anchored at or after the
    segment the scan started from. *)
Lemma get_stop_geometry_after_index (stop_xy : point) (shape_lines_xy : list line)
    (shape_cumulative_dist : list Q) (start_index : nat) (g : stop_geometry) :
  get_stop_geometry line_distance point_distance stop_xy shape_lines_xy
    shape_cumulative_dist start_index = Ok g ->
  (offset g <= 100)%Z ->
  start_index <= after_index g.
Proof.
  unfold get_stop_geometry.
  destruct (scan_lines line_distance (skipn start_index shape_lines_xy) stop_xy start_index
              99999999 0) as [bo bi] eqn:Hscan.
  destruct (getitem shape_lines_xy bi) as [shape_line|]; [|discriminate]. cbn [bind].
  destruct (getitem shape_cumulative_dist bi) as [d|]; [|discriminate]. cbn [bind].
  intros [= <-]. cbn [offset after_index]. intros Hoff.
  apply scan_lines_result in Hscan. destruct Hscan as [[-> ->]|Hr]; [|lia].
  exfalso. vm_compute in Hoff. now apply Hoff.
Qed.

(** The distance recorded for a stop: the cumulative distance at its anchor
    plus the distance from the stop to the start of the anchor segment. *)
Lemma get_stop_geometry_distance (stop_xy : point) (shape_lines_xy : list line)
    (shape_cumulative_dist : list Q) (start_index : nat) (g : stop_geometry) :
  get_stop_geometry line_distance point_distance stop_xy shape_lines_xy
    shape_cumulative_dist start_index = Ok g ->
  exists shape_line distance_to_shape_point,
    nth_error shape_lines_xy (after_index g) = Some shape_line /\
    nth_error shape_cumulative_dist (after_index g) = Some distance_to_shape_point /\
    distance g = py_int (distance_to_shape_point + point_distance stop_xy (fst shape_line))%Q.
Proof.
  unfold get_stop_geometry.
  destruct (scan_lines line_distance (skipn start_index shape_lines_xy) stop_xy start_index
              99999999 0) as [bo bi] eqn:Hscan.
  unfold getitem.
  destruct (nth_error shape_lines_xy bi) as [shape_line|] eqn:Hl; [|discriminate]. cbn [bind].
  destruct (nth_error shape_cumulative_dist bi) as [d|] eqn:Hd; [|discriminate]. cbn [bind].
  intros [= <-]. cbn [distance after_index]. eauto.
Qed.

Lemma get_stop_geometry_returns (stop_xy : point) (shape_lines_xy : list line)
    (shape_cumulative_dist : list Q) (start_index : nat) :
  shape_lines_xy <> [] ->
  length shape_lines_xy <= length shape_cumulative_dist ->
  exists g,
    get_stop_geometry line_distance point_distance stop_xy shape_lines_xy
      shape_cumulative_dist start_index = Ok g.
Proof.
  intros Hne Hlen. unfold get_stop_geometry.
  destruct (scan_lines line_distance (skipn start_index shape_lines_xy) stop_xy start_index
              99999999 0) as [bo bi] eqn:Hscan.
  assert (Hbi : bi < length shape_lines_xy).
  { apply scan_lines_result in Hscan. rewrite length_skipn in Hscan.
    destruct Hscan as [[_ ->]|Hr]; [|lia].
    destruct shape_lines_xy; [congruence | simpl; lia]. }
  unfold getitem.
  destruct (nth_error shape_lines_xy bi) as [shape_line|] eqn:Hl;
    [|apply nth_error_None in Hl; lia].
  destruct (nth_error shape_cumulative_dist bi) as [d|] eqn:Hd;
    [|apply nth_error_None in Hd; lia].
  cbn [bind]. eauto.
Qed.

Lemma stops_loop_app (self : GtfsScraper) (shape : shape_geometry) (l1 l2 : list string)
    (sgm : dict string stop_geometry) (si : nat) :
  stops_loop line_distance point_distance self shape (l1 ++ l2) sgm si =
  ('(sgm1, si1) <- stops_loop line_distance point_distance self shape l1 sgm si ;;
   stops_loop line_distance point_distance self shape l2 sgm1 si1).
Proof.
  revert sgm si. induction l1 as [|s l1 IH]; intros sgm si; [reflexivity|].
  cbn [app stops_loop].
  destruct (dict_getitem (stops_map self) s) as [st|]; [|reflexivity]. cbn [bind].
  destruct (get_stop_geometry _ _ _ _ _ _) as [g|]; [|reflexivity]. cbn [bind].
  destruct (offset g >? 100)%Z; apply IH.
Qed.

(** The walk never moves its starting index back. *)
Lemma stops_loop_start_mono (self : GtfsScraper) (shape : shape_geometry) (l : list string)
    (sgm sgm' : dict string stop_geometry) (si si' : nat) :
  stops_loop line_distance point_distance self shape l sgm si = Ok (sgm', si') ->
  si <= si'.
Proof.
  revert sgm si. induction l as [|s l IH]; intros sgm si; cbn [stops_loop].
  - intros [= <- <-]. lia.
  - destruct (dict_getitem (stops_map self) s) as [st|]; [|discriminate]. cbn [bind].
    destruct (get_stop_geometry _ _ _ _ _ _) as [g|] eqn:Hg; [|discriminate]. cbn [bind].
    destruct (Z.gtb_spec (offset g) 100) as [Hbad|Hok].
    + apply IH.
    + intros Hrun. apply IH in Hrun.
      pose proof (get_stop_geometry_after_index _ _ _ _ _ Hg Hok). lia.
Qed.

(** The walk writes only the entries of the stops it visits. *)
Lemma stops_loop_frame (self : GtfsScraper) (shape : shape_geometry) (l : list string)
    (sgm sgm' : dict string stop_geometry) (si si' : nat) (k : string) :
  stops_loop line_distance point_distance self shape l sgm si = Ok (sgm', si') ->
  ~ In k l -> dict_get sgm' k = dict_get sgm k.
Proof.
  revert sgm si. induction l as [|s l IH]; intros sgm si; cbn [stops_loop].
  - intros [= <- <-]. reflexivity.
  - destruct (dict_getitem (stops_map self) s) as [st|]; [|discriminate]. cbn [bind].
    destruct (get_stop_geometry _ _ _ _ _ _) as [g|] eqn:Hg; [|discriminate]. cbn [bind].
    intros Hrun Hnotin. simpl in Hnotin.
    destruct (offset g >? 100)%Z.
    + eapply IH; eauto.
    + rewrite (IH _ _ Hrun) by tauto. apply dict_get_set_ne. tauto.
Qed.

Lemma stops_loop_returns (self : GtfsScraper) (shape : shape_geometry) (l : list string)
    (sgm : dict string stop_geometry) (si : nat) :
  shape_lines_xy shape <> [] ->
  length (shape_lines_xy shape) <= length (shape_cumulative_dist shape) ->
  (forall s, In s l -> dict_mem (stops_map self) s = true) ->
  exists r, stops_loop line_distance point_distance self shape l sgm si = Ok r.
Proof.
  intros Hne Hlen. revert sgm si.
  induction l as [|s l IH]; intros sgm si Hstops; cbn [stops_loop]; [eauto|].
  pose proof (Hstops s (or_introl eq_refl)) as Hs. unfold dict_mem in Hs.
  unfold dict_getitem. destruct (dict_get (stops_map self) s) as [st|]; [|discriminate].
  cbn [bind].
  destruct (get_stop_geometry_returns (project_xy shape (stop_x st) (stop_y st))
              (shape_lines_xy shape) (shape_cumulative_dist shape) si Hne Hlen) as [g Hg].
  rewrite Hg. cbn [bind].
  destruct (offset g >? 100)%Z; apply IH; intros s' Hin; apply Hstops; now right.
Qed.

(** The visit of [stop_id], reached after the stops [pre] with the dict
    [sgm] and the starting index [si], computes the geometry [g]. *)
Definition visit (self : GtfsScraper) (shape : shape_geometry) (pre : list string)
    (stop_id : string) (sgm : dict string stop_geometry) (si : nat) (g : stop_geometry)
  : Prop :=
  exists st,
    stops_loop line_distance point_distance self shape pre [] 0 = Ok (sgm, si) /\
    dict_get (stops_map self) stop_id = Some st /\
    get_stop_geometry line_distance point_distance
      (project_xy shape (stop_x st) (stop_y st))
      (shape_lines_xy shape) (shape_cumulative_dist shape) si = Ok g.

(** Every stop of a walk that returns is visited, and the walk goes on from
    the state the visit leaves. *)
Lemma stops_loop_visit (self : GtfsScraper) (shape : shape_geometry)
    (pre : list string) (stop_id : string) (post : list string)
    (sgm' : dict string stop_geometry) (si' : nat) :
  stops_loop line_distance point_distance self shape (pre ++ stop_id :: post) [] 0
    = Ok (sgm', si') ->
  exists sgm si g,
    visit self shape pre stop_id sgm si g /\
    stops_loop line_distance point_distance self shape post
      (if (offset g >? 100)%Z then sgm else dict_set sgm stop_id g)
      (if (offset g >? 100)%Z then si else after_index g) = Ok (sgm', si').
Proof.
  rewrite stops_loop_app.
  destruct (stops_loop line_distance point_distance self shape pre [] 0) as [[sgm si]|] eqn:Hpre;
    [|discriminate].
  cbn [bind stops_loop]. unfold dict_getitem.
  destruct (dict_get (stops_map self) stop_id) as [st|] eqn:Hst; [|discriminate]. cbn [bind].
  destruct (get_stop_geometry _ _ _ _ _ _) as [g|] eqn:Hg; [|discriminate]. cbn [bind].
  intros Hrun. exists sgm, si, g. split.
  - exists st. auto.
  - now destruct (offset g >? 100)%Z.
Qed.

(** What one visit does to the state of the walk. *)
Lemma visit_step (self : GtfsScraper) (shape : shape_geometry) (pre : list string)
    (stop_id : string) (sgm : dict string stop_geometry) (si : nat) (g : stop_geometry) :
  visit self shape pre stop_id sgm si g ->
  stops_loop line_distance point_distance self shape (pre ++ [stop_id]) [] 0 =
  Ok (if (offset g >? 100)%Z then sgm else dict_set sgm stop_id g,
      if (offset g >? 100)%Z then si else after_index g).
Proof.
  intros (st & Hpre & Hst & Hg). rewrite stops_loop_app, Hpre. cbn [bind stops_loop].
  unfold dict_getitem. rewrite Hst. cbn [bind]. rewrite Hg. cbn [bind].
  now destruct (offset g >? 100)%Z.
Qed.

(** Two visits that record a geometry: the later one is anchored at or
    after the earlier one. *)
Lemma visit_order (self : GtfsScraper) (shape : shape_geometry)
    (pre : list string) (s1 : string) (mid : list string) (s2 : string)
    (sgm1 sgm2 : dict string stop_geometry) (si1 si2 : nat) (g1 g2 : stop_geometry) :
  visit self shape pre s1 sgm1 si1 g1 -> (offset g1 <= 100)%Z ->
  visit self shape (pre ++ s1 :: mid) s2 sgm2 si2 g2 -> (offset g2 <= 100)%Z ->
  after_index g1 <= after_index g2.
Proof.
  intros Hv1 Hok1 (st2 & Hpre2 & Hst2 & Hg2) Hok2.
  pose proof (visit_step _ _ _ _ _ _ _ Hv1) as Hstep.
  replace (pre ++ s1 :: mid) with ((pre ++ [s1]) ++ mid) in Hpre2
    by (now rewrite <- app_assoc).
  rewrite stops_loop_app, Hstep in Hpre2. cbn [bind] in Hpre2.
  destruct (Z.gtb_spec (offset g1) 100) as [Hbad|_]; [lia|].
  apply stops_loop_start_mono in Hpre2.
  pose proof (get_stop_geometry_after_index _ _ _ _ _ Hg2 Hok2). lia.
Qed.

(** With no stop id repeated, an entry of the final dict is the geometry
    its stop's visit computed, and that geometry passed the 100 metre test. *)
Lemma stops_loop_entry (self : GtfsScraper) (shape : shape_geometry)
    (pre : list string) (stop_id : string) (post : list string)
    (sgm' : dict string stop_geometry) (si' : nat) (g : stop_geometry) :
  stops_loop line_distance point_distance self shape (pre ++ stop_id :: post) [] 0
    = Ok (sgm', si') ->
  ~ In stop_id pre -> ~ In stop_id post ->
  dict_get sgm' stop_id = Some g ->
  exists sgm si, visit self shape pre stop_id sgm si g /\ (offset g <= 100)%Z.
Proof.
  intros Hrun Hpre Hpost Hget.
  destruct (stops_loop_visit _ _ _ _ _ _ _ Hrun) as (sgm & si & g0 & Hv & Hrest).
  pose proof Hv as (st & Hrunpre & _ & _).
  rewrite (stops_loop_frame _ _ _ _ _ _ _ _ Hrest Hpost) in Hget.
  pose proof (stops_loop_frame _ _ _ _ _ _ _ stop_id Hrunpre Hpre) as Hnone.
  simpl in Hnone.
  destruct (Z.gtb_spec (offset g0) 100) as [Hbad|Hok].
  - congruence.
  - rewrite dict_get_set_eq in Hget. injection Hget as <-. eauto.
Qed.

End GeometryFacts.


(* ------------------------------------------------------------------ *)
(** ** Euclidean distances for the worked examples                     *)
(* ------------------------------------------------------------------ *)

(** The square root of a rational, exact whenever the root is rational. *)
Definition qsqrt (x : Q) : Q :=
  Qred (Z.sqrt (Qnum x * Z.pos (Qden x)) # Qden x).

Definition euclid_point_distance (p q : point) : Q :=
  let dx := (fst p - fst q)%Q in
  let dy := (snd p - snd q)%Q in
  qsqrt (Qred (dx * dx + dy * dy)).

(** The distance from [p] to the segment from [a] to [b]: the distance to
    the nearest point of the segment. *)
Definition euclid_line_distance (l : line) (p : point) : Q :=
  let '(a, b) := l in
  let ux := (fst b - fst a)%Q in
  let uy := (snd b - snd a)%Q in
  let len2 := (ux * ux + uy * uy)%Q in
  let t := (((fst p - fst a) * ux + (snd p - snd a) * uy) / len2)%Q in
  let t := if Qle_bool t 0 then 0%Q else if Qle_bool 1 t then 1%Q else t in
  euclid_point_distance p (Qred (fst a + t * ux), Qred (snd a + t * uy))%Q.


(* ------------------------------------------------------------------ *)
(** ** Shape clustering: get_unique_shapes (gtfs.py, lines 383-452)    *)
(* ------------------------------------------------------------------ *)

(** A cluster: [{'count': ..., 'shape_id': ..., 'stop_ids': ...}]. *)
Record shape_info : Type := {
  count : Z;
  info_shape_id : string;
  info_stop_ids : list string
}.

(** [[f(x) for x in l]] with an [f] that may raise. *)
Fixpoint mapM {A B : Type} (f : A -> result B) (l : list A) : result (list B) :=
  match l with
  | [] => Ok []
  | x :: l' => y <- f x ;; ys <- mapM f l' ;; Ok (y :: ys)
  end.

(** [np.unique(values, return_counts=True)], zipped. *)
Definition np_unique_counts (values : list string) : list (string * Z) :=
  map (fun v => (v, Z.of_nat (length (filter (fun x => eqb x v) values))))
    (np_unique values).

(** Lines 396-400: the shape ids of the direction with their trip counts,
    by descending count.  numpy's default [argsort] is not a stable sort:
    the order of shapes with equal counts is the one its sorting routine
    produces.  The stable order is taken here, which is the order of the
    code for two shapes; with three or more shapes of equal count the code
    may visit them in another order. *)
Definition shape_order (direction_trips_df : list trip) : list (string * Z) :=
  sorted_by (fun p => (-1 * snd p)%Z) (np_unique_counts (map shape_id direction_trips_df)).

(** Lines 403-410: the stop ids of the first trip of a shape, in the order
    of [stop_sequence]. *)
Definition shape_trip_stop_ids (self : GtfsScraper) (direction_trips_df : list trip)
    (the_shape_id : string) : result (list string) :=
  shape_trip <- getitem (filter (fun tr => eqb (shape_id tr) the_shape_id) direction_trips_df) 0 ;;
  let shape_trip_id := trip_id shape_trip in
  let shape_trip_stop_times :=
    sorted_by stop_sequence
      (filter (fun st => eqb (st_trip_id st) shape_trip_id) (feed_stop_times self)) in
  mapM (normalize_gtfs_stop_id self) (map st_stop_id shape_trip_stop_times).

(** What the loop of lines 417-427 decides for a new stop sequence. *)
Inductive match_decision : Type :=
| ReuseKey (other_shape_key : string)
| Supersede (other_shape_key : string) (other_count : Z)
| NoMatch.

(** Lines 417-427: the first existing cluster that contains the new stop
    sequence, or is contained in it. *)
Fixpoint match_existing (the_stop_ids : list string) (items : list (string * shape_info))
  : result match_decision :=
  match items with
  | [] => Ok NoMatch
  | (other_shape_key, other_shape_info) :: rest =>
      b <- is_subsequence the_stop_ids (info_stop_ids other_shape_info) ;;
      if b then Ok (ReuseKey other_shape_key)
      else
        b' <- is_subsequence (info_stop_ids other_shape_info) the_stop_ids ;;
        if b' then Ok (Supersede other_shape_key (count other_shape_info))
        else match_existing the_stop_ids rest
  end.

(** Lines 412-436 for a stop sequence already read from the feed. *)
Definition add_shape (unique_shape_key : string) (unique_shapes_map : dict string shape_info)
    (the_shape_id : string) (shape_id_count : Z) (the_stop_ids : list string)
  : result (dict string shape_info) :=
  '(unique_shape_key, shape_id_count, unique_shapes_map) <-
    (if negb (dict_mem unique_shapes_map unique_shape_key) then
       decision <- match_existing the_stop_ids unique_shapes_map ;;
       match decision with
       | ReuseKey other_shape_key => Ok (other_shape_key, shape_id_count, unique_shapes_map)
       | Supersede other_shape_key other_count =>
           Ok (unique_shape_key, (shape_id_count + other_count)%Z,
               dict_del unique_shapes_map other_shape_key)
       | NoMatch => Ok (unique_shape_key, shape_id_count, unique_shapes_map)
       end
     else Ok (unique_shape_key, shape_id_count, unique_shapes_map)) ;;
  let unique_shapes_map :=
    if negb (dict_mem unique_shapes_map unique_shape_key)
    then dict_set unique_shapes_map unique_shape_key
           {| count := 0; info_shape_id := the_shape_id; info_stop_ids := the_stop_ids |}
    else unique_shapes_map in
  info <- dict_getitem unique_shapes_map unique_shape_key ;;
  Ok (dict_set unique_shapes_map unique_shape_key
        {| count := (count info + shape_id_count)%Z;
           info_shape_id := info_shape_id info;
           info_stop_ids := info_stop_ids info |}).

(** Lines 440-450: the loop that prints the clusters reads the first and
    the last stop of each. *)
Fixpoint print_shapes (self : GtfsScraper) (sorted_shapes : list shape_info) : result unit :=
  match sorted_shapes with
  | [] => Ok tt
  | info :: rest =>
      first_stop_id <- getitem (info_stop_ids info) 0 ;;
      last_stop_id <- getitem_last (info_stop_ids info) ;;
      first_stop <- dict_getitem (stops_map self) first_stop_id ;;
      last_stop <- dict_getitem (stops_map self) last_stop_id ;;
      _ <- getattr first_stop "stop_name" ;;
      _ <- getattr last_stop "stop_name" ;;
      print_shapes self rest
  end.

Section ShapeClusters.

(** shapely's distances, and the 12 hex digits of the SHA-256 of the JSON
    text of a stop sequence. *)
Variable line_distance : line -> point -> Q.
Variable point_distance : point -> point -> Q.
Variable shape_hash : list string -> string.

(** Lines 402-436: one shape of the direction. *)
Definition unique_shapes_step (self : GtfsScraper) (direction_trips_df : list trip)
    (unique_shapes_map : dict string shape_info) (shape : string * Z)
  : result (dict string shape_info) :=
  let '(the_shape_id, shape_id_count) := shape in
  the_stop_ids <- shape_trip_stop_ids self direction_trips_df the_shape_id ;;
  let unique_shape_key := shape_hash the_stop_ids in
  add_shape unique_shape_key unique_shapes_map the_shape_id shape_id_count the_stop_ids.

Fixpoint unique_shapes_loop (self : GtfsScraper) (direction_trips_df : list trip)
    (shapes : list (string * Z)) (unique_shapes_map : dict string shape_info)
  : result (dict string shape_info) :=
  match shapes with
  | [] => Ok unique_shapes_map
  | shape :: rest =>
      unique_shapes_map <- unique_shapes_step self direction_trips_df unique_shapes_map shape ;;
      unique_shapes_loop self direction_trips_df rest unique_shapes_map
  end.

Definition get_unique_shapes (self : GtfsScraper) (direction_trips_df : list trip)
  : result (list shape_info) :=
  let unique_shapes_map := [] in
  unique_shapes_map <-
    unique_shapes_loop self direction_trips_df (shape_order direction_trips_df)
      unique_shapes_map ;;
  let sorted_shapes := sorted_by (fun shape => (-1 * count shape)%Z) (dict_values unique_shapes_map) in
  _ <- print_shapes self sorted_shapes ;;
  Ok sorted_shapes.

(* ------------------------------------------------------------------ *)
(** ** get_custom_direction_data (gtfs.py, lines 454-520)              *)
(* ------------------------------------------------------------------ *)

(** An entry of [agency.custom_directions]. *)
Record custom_direction_info : Type := {
  cdi_id : string;
  cdi_gtfs_direction_id : string;
  cdi_included_stop_ids : option (list string);
  cdi_excluded_stop_ids : option (list string);
  cdi_title : option string
}.

(** Lines 469-477, from the search position [min_index]. *)
Fixpoint contains_included_stops_from (included_stop_ids shape_stop_ids : list string)
    (min_index : nat) : bool :=
  match included_stop_ids with
  | [] => true
  | stop_id :: rest =>
      match index_from shape_stop_ids stop_id min_index with
      | Ok index => contains_included_stops_from rest shape_stop_ids (index + 1)
      | Raise _ => false
      end
  end.

Definition contains_included_stops (included_stop_ids shape_stop_ids : list string) : bool :=
  let min_index := 0 in
  contains_included_stops_from included_stop_ids shape_stop_ids min_index.

(** Lines 479-486. *)
Fixpoint contains_excluded_stop (excluded_stop_ids shape_stop_ids : list string) : bool :=
  match excluded_stop_ids with
  | [] => false
  | stop_id :: rest =>
      match index shape_stop_ids stop_id with
      | Ok _ => true
      | Raise _ => contains_excluded_stop rest shape_stop_ids
      end
  end.

(** [str(n)] *)
Definition str_nat (n : nat) : string := NilEmpty.string_of_uint (Nat.to_uint n).

(** Lines 496-504: the message the function builds, for a given value of
    the name [route_id]. *)
Definition error_message (route_id : string) (matching_shapes : list shape_info)
    (gtfs_direction_id : string) (included_stop_ids excluded_stop_ids : list string) : string :=
  let matching_shape_ids := map info_shape_id matching_shapes in
  let error_message :=
    (str_nat (length matching_shapes) ++ " shapes found for route " ++ route_id
       ++ " with GTFS direction ID " ++ gtfs_direction_id)%string in
  let error_message :=
    if 0 <? length included_stop_ids
    then (error_message ++ " including " ++ String.concat "," included_stop_ids)%string
    else error_message in
  let error_message :=
    if 0 <? length excluded_stop_ids
    then (error_message ++ " excluding " ++ String.concat "," excluded_stop_ids)%string
    else error_message in
  if 0 <? length matching_shape_ids
  then (error_message ++ ": " ++ String.concat "," matching_shape_ids)%string
  else error_message.

(** The names bound when line 496 runs: the parameters and local variables
    of [get_custom_direction_data], and the names of the module. *)
Definition custom_direction_locals : list string :=
  [ "self"; "custom_direction_info"; "route_trips_df"; "direction_id"; "gtfs_direction_id";
    "route_direction_id_values"; "direction_trips_df"; "included_stop_ids";
    "excluded_stop_ids"; "shapes"; "contains_included_stops"; "contains_excluded_stop";
    "matching_shapes"; "shape"; "shape_stop_ids"; "matching_shape_ids" ]%string.

Definition module_names : list string :=
  [ "date"; "shapely"; "ptg"; "np"; "Path"; "requests"; "json"; "boto3"; "gzip"; "hashlib";
    "zipfile"; "config"; "util"; "nextbus"; "routeconfig"; "timetables";
    "get_stop_geometry"; "download_gtfs_data"; "is_subsequence"; "GtfsScraper" ]%string.

(** Reading a name: [NameError] when it is bound in neither scope.  A bound
    name yields the value [value] it holds. *)
Definition load_name (name : string) (value : string) : result string :=
  if contains custom_direction_locals name || contains module_names name
  then Ok value
  else Raise (NameError name).

Definition get_custom_direction_data (self : GtfsScraper)
    (custom_direction_info : custom_direction_info) (route_trips_df : list trip)
  : result dir_data :=
  let gtfs_direction_id := cdi_gtfs_direction_id custom_direction_info in
  let direction_trips_df :=
    filter (fun tr => eqb (direction_id tr) gtfs_direction_id) route_trips_df in
  let included_stop_ids :=
    match cdi_included_stop_ids custom_direction_info with Some l => l | None => [] end in
  let excluded_stop_ids :=
    match cdi_excluded_stop_ids custom_direction_info with Some l => l | None => [] end in
  shapes <- get_unique_shapes self direction_trips_df ;;
  let matching_shapes :=
    filter (fun shape =>
              contains_included_stops included_stop_ids (info_stop_ids shape)
              && negb (contains_excluded_stop excluded_stop_ids (info_stop_ids shape)))
      shapes in
  if negb (length matching_shapes =? 1) then
    route_id <- load_name "route_id" "" ;;
    Raise (Exception (error_message route_id matching_shapes gtfs_direction_id
                        included_stop_ids excluded_stop_ids))
  else
    matching_shape <- getitem matching_shapes 0 ;;
    get_direction_data line_distance point_distance self
      (cdi_id custom_direction_info) (info_shape_id matching_shape) gtfs_direction_id
      (info_stop_ids matching_shape) (cdi_title custom_direction_info).

End ShapeClusters.


(* ------------------------------------------------------------------ *)
(** ** get_default_direction_data (gtfs.py, lines 522-542)             *)
(* ------------------------------------------------------------------ *)

Section RouteDirections.

Variable line_distance : line -> point -> Q.
Variable point_distance : point -> point -> Q.
Variable shape_hash : list string -> string.

Definition get_default_direction_data (self : GtfsScraper) (the_direction_id : string)
    (route_trips_df : list trip) : result dir_data :=
  let direction_trips_df :=
    filter (fun tr => eqb (direction_id tr) the_direction_id) route_trips_df in
  shapes <- get_unique_shapes shape_hash self direction_trips_df ;;
  best_shape <- getitem shapes 0 ;;
  let best_shape_id := info_shape_id best_shape in
  get_direction_data line_distance point_distance self
    the_direction_id best_shape_id the_direction_id (info_stop_ids best_shape) None.

(** Lines 687-698 of [get_route_data]: the directions of a route, from the
    custom directions the agency configures for the route id, or else one
    per GTFS direction id of the trips of the route. *)
Definition get_route_data_directions (self : GtfsScraper)
    (custom_directions : dict string (list custom_direction_info))
    (trips_df : list trip) (the_route_id gtfs_route_id : string)
  : result (list dir_data) :=
  let route_trips_df := filter (fun tr => eqb (route_id tr) gtfs_route_id) trips_df in
  if dict_mem custom_directions the_route_id then
    infos <- dict_getitem custom_directions the_route_id ;;
    mapM (fun custom_direction_info =>
            get_custom_direction_data line_distance point_distance shape_hash self
              custom_direction_info route_trips_df)
         infos
  else
    mapM (fun the_direction_id =>
            get_default_direction_data self the_direction_id route_trips_df)
         (np_unique (map direction_id route_trips_df)).

End RouteDirections.

(* ------------------------------------------------------------------ *)
(** ** GtfsScraper.__init__: the stop maps (gtfs.py, lines 121-129)    *)
(* ------------------------------------------------------------------ *)

(** [{key(stop): stop for stop in stops_df.itertuples()}], added to [acc]. *)
Fixpoint stop_dict (key : stop -> result string) (stops_df : list stop)
    (acc : dict string stop) : result (dict string stop) :=
  match stops_df with
  | [] => Ok acc
  | s :: rest =>
      k <- key s ;;
      stop_dict key rest (dict_set acc k s)
  end.

Definition init_stop_maps (stop_id_gtfs_field : string) (stops_df : list stop)
  : result (dict string stop * dict string stop) :=
  gtfs_stop_ids_map <- stop_dict (fun s => getattr s "stop_id") stops_df [] ;;
  stops_map <-
    (if negb (eqb stop_id_gtfs_field "stop_id"%string)
     then stop_dict (fun s => getattr s stop_id_gtfs_field) stops_df []
     else Ok gtfs_stop_ids_map) ;;
  Ok (gtfs_stop_ids_map, stops_map).


(* ================================================================== *)
(** * Properties                                                       *)
(* ================================================================== *)

(** ** is_subsequence *)

Lemma slice_run {A : Type} (l : list A) (i n : nat) :
  slice l i (i + n) = firstn n (skipn i l).
Proof. unfold slice. f_equal. lia. Qed.

Lemma run_length_le {A : Type} (smaller bigger : list A) (i : nat) :
  firstn (length smaller) (skipn i bigger) = smaller ->
  i + length smaller <= length bigger \/ (length smaller = 0 /\ length bigger < i).
Proof.
  intros Hrun.
  assert (Hlen : length (firstn (length smaller) (skipn i bigger)) = length smaller)
    by now rewrite Hrun.
  rewrite length_firstn, length_skipn in Hlen. lia.
Qed.

(** C2. [is_subsequence smaller bigger] returns [True] exactly when [bigger]
    contains [smaller[0]] and the contiguous run of [bigger] that starts at
    the first occurrence of [smaller[0]] and has the length of [smaller] is
    [smaller] itself; [is_subsequence([2,3],[1,2,3,4])] is [True] and
    [is_subsequence([2,4],[1,2,3,4])] is [False]. *)
Theorem is_subsequence_contract :
  (forall (A : Type) (E : PyEq A) (smaller bigger : list A),
      is_subsequence smaller bigger = Ok true <->
      exists x0 i,
        nth_error smaller 0 = Some x0 /\
        first_occurrence bigger x0 i /\
        firstn (length smaller) (skipn i bigger) = smaller)
  /\ is_subsequence [2; 3]%Z [1; 2; 3; 4]%Z = Ok true
  /\ is_subsequence [2; 4]%Z [1; 2; 3; 4]%Z = Ok false.
Proof.
  split; [|split; reflexivity].
  intros A E smaller bigger. unfold is_subsequence, getitem.
  destruct smaller as [|x0 smaller'] eqn:Hs.
  - (* smaller = []: the lookup smaller[0] raises *)
    simpl. split; [discriminate|]. intros (x & i & Hx & _). discriminate.
  - rewrite <- Hs. assert (Hhd : nth_error smaller 0 = Some x0) by now subst.
    rewrite Hhd. clear Hs. simpl bind.
    destruct (Nat.ltb_spec (length bigger) (length smaller)) as [Hlt|Hge].
    + split; [discriminate|].
      intros (x & i & Hx & _ & Hrun).
      apply run_length_le in Hrun. destruct smaller; [discriminate|]. simpl in *. lia.
    + destruct (index_result bigger x0) as [[start_pos Hix]|Hix]; rewrite Hix.
      * destruct (Nat.ltb_spec (length bigger) (start_pos + length smaller)) as [Hlt|Hfit].
        -- split; [discriminate|].
           intros (x & i & Hx & Hfirst & Hrun).
           assert (x = x0) by congruence; subst x.
           apply index_Ok_first in Hfirst.
           assert (i = start_pos) by congruence; subst i.
           apply run_length_le in Hrun. destruct smaller; [discriminate|]. simpl in *. lia.
        -- rewrite slice_run.
           destruct (list_eqb_spec smaller (firstn (length smaller) (skipn start_pos bigger)))
             as [Heq|Hne].
           ++ split; [|reflexivity]. intros _. exists x0, start_pos.
              split; [reflexivity|]. split; [now apply index_Ok_first | now symmetry].
           ++ split; [discriminate|].
              intros (x & i & Hx & Hfirst & Hrun).
              assert (x = x0) by congruence; subst x.
              apply index_Ok_first in Hfirst.
              assert (i = start_pos) by congruence; subst i.
              exfalso; apply Hne; now symmetry.
      * split; [discriminate|].
        intros (x & i & Hx & Hfirst & _).
        assert (x = x0) by congruence; subst x.
        apply index_Ok_first in Hfirst. congruence.
Qed.

(** With a non-empty first argument every path of [is_subsequence] ends
    in a [return]. *)
Lemma is_subsequence_returns {A : Type} `{PyEq A} (smaller bigger : list A) :
  smaller <> [] -> exists b : bool, is_subsequence smaller bigger = Ok b.
Proof.
  intros Hne. unfold is_subsequence, getitem.
  destruct (length bigger <? length smaller); [eauto|].
  destruct smaller as [|x0 smaller']; [congruence|]. simpl bind. simpl nth_error.
  cbv iota beta.
  destruct (index_result bigger x0) as [[start_pos Hix]|Hix]; rewrite Hix.
  + match goal with |- context [if ?c then _ else _] => destruct c end; eauto.
  + eauto.
Qed.

(** C10. [is_subsequence] returns a boolean, without raising, whenever its
    first argument is a non-empty list; with an empty first argument the
    lookup [smaller[0]] raises [IndexError], which the handler for
    [ValueError] does not catch. *)
Theorem is_subsequence_total_nonempty :
  forall (A : Type) (E : PyEq A) (smaller bigger : list A),
    (smaller <> [] -> exists b : bool, is_subsequence smaller bigger = Ok b)
    /\ (bigger <> [] -> is_subsequence [] bigger = Raise IndexError).
Proof.
  intros A E smaller bigger. split.
  - apply is_subsequence_returns.
  - intros _. reflexivity.
Qed.

Lemma is_subsequence_total_nonempty_witness :
  (exists b : bool, is_subsequence [2; 4]%Z [1; 2; 3; 4]%Z = Ok b)
  /\ is_subsequence ([] : list Z) [1; 2; 3; 4]%Z = Raise IndexError.
Proof.
  split.
  - apply (proj1 (is_subsequence_total_nonempty Z PyEq_Z [2; 4]%Z [1; 2; 3; 4]%Z)).
    discriminate.
  - apply (proj2 (is_subsequence_total_nonempty Z PyEq_Z [2; 4]%Z [1; 2; 3; 4]%Z)).
    discriminate.
Defined.

(** ** Date keys *)

(** C1. In one run of the date-key loop of [save_timetables] over a
    DateActivation mapping, every date of the mapping gets a key; two dates
    get the same key exactly when their sorted lists of service ids are
    equal; and the key of a date is the string form of the first date of the
    mapping that has the same sorted list of service ids. *)
Theorem date_key_iff_same_services :
  forall (json : Type) (E : PyEq json)
         (json_dumps : list string -> json) (json_loads : json -> list string),
    (forall l : list string, json_loads (json_dumps l) = l) ->
    forall (dates_map : dict date (list string)) (date_keys0 : dict date string),
      dict_wf dates_map ->
      Forall valid_date (dict_keys dates_map) ->
      exists first date_keys,
        save_timetables_date_keys json_dumps dates_map date_keys0 = Ok (first, date_keys) /\
        forall d1 s1 d2 s2,
          In (d1, s1) dates_map -> In (d2, s2) dates_map ->
          exists k1 k2,
            dict_get date_keys d1 = Some k1 /\
            dict_get date_keys d2 = Some k2 /\
            (k1 = k2 <-> sorted_strings s1 = sorted_strings s2) /\
            exists pre d0 s0 post,
              dates_map = pre ++ (d0, s0) :: post /\
              sorted_strings s0 = sorted_strings s1 /\
              (forall d' s', In (d', s') pre -> sorted_strings s' <> sorted_strings s1) /\
              k1 = str_date d0.
Proof.
  intros json E json_dumps json_loads Hrt dates_map date_keys0 Hwf Hvalid.
  destruct (date_keys_loop_spec json_dumps dates_map [] [] date_keys0)
    as (first & date_keys & Hrun & _ & _ & Hkeys); [reflexivity|].
  simpl in Hkeys. specialize (Hkeys Hwf).
  exists first, date_keys. split; [exact Hrun|].
  intros d1 s1 d2 s2 Hin1 Hin2.
  destruct (Hkeys d1 s1 Hin1) as (a1 & Hf1 & Hg1).
  destruct (Hkeys d2 s2 Hin2) as (a2 & Hf2 & Hg2).
  destruct (first_date_with_In json_dumps _ _ _ Hf1) as (pre1 & t1 & post1 & Hsplit1 & Hk1 & Hpre1).
  destruct (first_date_with_In json_dumps _ _ _ Hf2) as (pre2 & t2 & post2 & Hsplit2 & Hk2 & Hpre2).
  pose proof (json_dumps_inj json_dumps json_loads Hrt) as Hinj.
  exists (str_date a1), (str_date a2). split; [exact Hg1|]. split; [exact Hg2|]. split.
  - split.
    + intros Hstr.
      assert (Hin_a1 : In (a1, t1) dates_map) by (rewrite Hsplit1; apply in_elt).
      assert (Hin_a2 : In (a2, t2) dates_map) by (rewrite Hsplit2; apply in_elt).
      rewrite Forall_forall in Hvalid.
      assert (a1 = a2).
      { apply str_date_inj; auto; apply Hvalid.
        - change a1 with (fst (a1, t1)). now apply in_map.
        - change a2 with (fst (a2, t2)). now apply in_map. }
      subst a2.
      pose proof (dict_wf_In_get _ _ _ Hwf Hin_a1) as G1.
      pose proof (dict_wf_In_get _ _ _ Hwf Hin_a2) as G2.
      assert (t1 = t2) by congruence. subst t2.
      apply Hinj. congruence.
    + intros Hs. rewrite Hs in Hf1. congruence.
  - exists pre1, a1, t1, post1. split; [exact Hsplit1|]. split; [now apply Hinj|].
    split; [|reflexivity].
    intros d' s' Hin' Heq. apply (Hpre1 d' s' Hin'). now rewrite Heq.
Qed.

Lemma date_key_iff_same_services_witness :
  let dates_map : dict date (list string) :=
    [ (mkdate 2020 1 6, ["B"; "A"]%string);
      (mkdate 2020 1 7, ["A"; "B"]%string);
      (mkdate 2020 1 11, ["S"]%string) ] in
  exists first date_keys,
    save_timetables_date_keys (fun l : list string => l) dates_map [] = Ok (first, date_keys) /\
    forall d1 s1 d2 s2,
      In (d1, s1) dates_map -> In (d2, s2) dates_map ->
      exists k1 k2,
        dict_get date_keys d1 = Some k1 /\
        dict_get date_keys d2 = Some k2 /\
        (k1 = k2 <-> sorted_strings s1 = sorted_strings s2) /\
        exists pre d0 s0 post,
          dates_map = pre ++ (d0, s0) :: post /\
          sorted_strings s0 = sorted_strings s1 /\
          (forall d' s', In (d', s') pre -> sorted_strings s' <> sorted_strings s1) /\
          k1 = str_date d0.
Proof.
  intros dates_map.
  apply (date_key_iff_same_services (list string) PyEq_list
           (fun l : list string => l) (fun l : list string => l)).
  - reflexivity.
  - unfold dict_wf, dates_map. simpl.
    repeat (constructor; [simpl; intuition discriminate|]). constructor.
  - unfold dates_map. simpl. repeat constructor; vm_compute; intuition discriminate.
Defined.

(** ** Service calendar *)

Definition sunday_only_row : calendar_row :=
  {| cal_service_id := "SUN"; monday := 0; tuesday := 0; wednesday := 0; thursday := 0;
     friday := 0; saturday := 0; sunday := 1;
     start_date := mkdate 2020 1 5; end_date := mkdate 2020 1 11 |}.

Definition saturday_only_row : calendar_row :=
  {| cal_service_id := "SAT"; monday := 0; tuesday := 0; wednesday := 0; thursday := 0;
     friday := 0; saturday := 1; sunday := 0;
     start_date := mkdate 2020 1 5; end_date := mkdate 2020 1 11 |}.

(** C3 (the code departs from the claim).  Sunday, weekday 6, is enabled by
    the row's [saturday] column and the [sunday] column is never read: over
    the week from Sunday 2020-01-05 to Saturday 2020-01-11 a service whose
    mask enables only Sunday is added to no date, and a service whose mask
    enables only Saturday is added to the Sunday as well. *)
Theorem sunday_follows_saturday_column :
  (forall r : calendar_row,
      contains (row_weekdays r) 6%Z = (saturday r =? 1)%Z)
  /\ weekday (mkdate 2020 1 5) = 6%Z
  /\ get_services_by_date [sunday_only_row] [] = []
  /\ get_services_by_date [saturday_only_row] [] =
       [ (mkdate 2020 1 5, ["SAT"%string]); (mkdate 2020 1 11, ["SAT"%string]) ].
Proof.
  split; [|repeat split; vm_compute; reflexivity].
  intros r. unfold row_weekdays.
  destruct (monday r =? 1)%Z, (tuesday r =? 1)%Z, (wednesday r =? 1)%Z,
    (thursday r =? 1)%Z, (friday r =? 1)%Z, (saturday r =? 1)%Z; reflexivity.
Qed.

(** ** Merged timetables *)

Definition example_arrivals : dict string (dict string (dict string (list arrival))) :=
  [ ("A"%string,
      [ ("1"%string,
          [ ("stop"%string,
              [ {| arr_t := 28800; arr_i := 1; arr_e := None |};
                {| arr_t := 32400; arr_i := 2; arr_e := None |} ]);
            ("tie"%string, [ {| arr_t := 30600; arr_i := 1; arr_e := None |} ]) ]) ]);
    ("B"%string,
      [ ("1"%string,
          [ ("stop"%string, [ {| arr_t := 30600; arr_i := 3; arr_e := None |} ]);
            ("tie"%string, [ {| arr_t := 30600; arr_i := 3; arr_e := None |} ]) ]) ]) ].

(** C4. For the service ids of one date key, the merged list of a
    (direction, stop) is the concatenation, in the order of the service
    ids, of the lists of the services that have that (direction, stop),
    sorted by arrival time ['t']; the sort is stable (the result is ordered
    by ['t'], is a permutation of its input, and keeps events of equal ['t']
    in their input order).  Service A's arrivals at 28800 and 32400 merged
    with service B's at 30600 come out as 28800, 30600, 32400. *)
Theorem merged_arrivals_stable_sorted :
  (forall (service_ids : list string)
          (arrivals_by_service_id : dict string (dict string (dict string (list arrival)))),
      wf_arrivals arrivals_by_service_id ->
      exists merged,
        save_timetables_merge service_ids arrivals_by_service_id = Ok merged /\
        forall dir stop,
          dict_get2 merged dir stop =
          if existsb (fun s => is_some (arrivals_of arrivals_by_service_id s dir stop)) service_ids
          then Some (sorted_by arr_t
                       (concat (map (fun s => or_nil (arrivals_of arrivals_by_service_id s dir stop))
                                  service_ids)))
          else None)
  /\ (forall l : list arrival,
         StronglySorted (key_le arr_t) (sorted_by arr_t l) /\
         Permutation (sorted_by arr_t l) l /\
         forall k, with_key arr_t k (sorted_by arr_t l) = with_key arr_t k l)
  /\ (exists merged,
         save_timetables_merge ["A"; "B"]%string example_arrivals = Ok merged /\
         option_map (map arr_t) (dict_get2 merged "1" "stop") = Some [28800; 30600; 32400]%Z /\
         option_map (map arr_i) (dict_get2 merged "1" "tie") = Some [1; 3]%Z).
Proof.
  split; [|split].
  - intros service_ids abs Hwf. unfold save_timetables_merge.
    destruct (merge_services_spec service_ids abs [] Hwf) as (merged & Hrun & Hget).
    exists merged. split; [exact Hrun|].
    intros dir stop. rewrite Hget. apply merged_at_None.
  - intros l. split; [apply sorted_by_sorted|]. split; [apply sorted_by_perm|].
    intros k. apply sorted_by_stable.
  - eexists. split; [vm_compute; reflexivity|]. split; reflexivity.
Qed.

Lemma example_arrivals_wf : wf_arrivals example_arrivals.
Proof.
  intros sid dirs Hin. unfold example_arrivals in Hin. simpl in Hin.
  destruct Hin as [[= <- <-]|[[= <- <-]|[]]].
  - split.
    + unfold dict_wf; simpl. repeat constructor; simpl; tauto.
    + intros dir stops [[= <- <-]|[]]. unfold dict_wf; simpl.
      repeat constructor; simpl; intuition discriminate.
  - split.
    + unfold dict_wf; simpl. repeat constructor; simpl; tauto.
    + intros dir stops [[= <- <-]|[]]. unfold dict_wf; simpl.
      repeat constructor; simpl; intuition discriminate.
Qed.

Lemma merged_arrivals_stable_sorted_witness :
  exists merged,
    save_timetables_merge ["B"; "A"]%string example_arrivals = Ok merged /\
    forall dir stop,
      dict_get2 merged dir stop =
      if existsb (fun s => is_some (arrivals_of example_arrivals s dir stop)) ["B"; "A"]%string
      then Some (sorted_by arr_t
                   (concat (map (fun s => or_nil (arrivals_of example_arrivals s dir stop))
                              ["B"; "A"]%string)))
      else None.
Proof.
  apply (proj1 merged_arrivals_stable_sorted ["B"; "A"]%string example_arrivals).
  exact example_arrivals_wf.
Defined.

(** ** Trip integers *)

Definition example_scraper : GtfsScraper :=
  {| stop_id_gtfs_field := "stop_id";
     gtfs_stop_ids_map := [];
     stops_map := [];
     feed_stop_times :=
       [ {| st_trip_id := "T1"; arrival_time := 28800; departure_time := 28800;
            st_stop_id := "s1"; stop_sequence := 1 |};
         {| st_trip_id := "T1"; arrival_time := 29100; departure_time := 29160;
            st_stop_id := "s2"; stop_sequence := 2 |};
         {| st_trip_id := "T2"; arrival_time := 30600; departure_time := 30600;
            st_stop_id := "s2"; stop_sequence := 1 |};
         {| st_trip_id := "T3"; arrival_time := 32400; departure_time := 32400;
            st_stop_id := "s1"; stop_sequence := 1 |} ];
     feed_shapes := [] |}.

Definition example_route_config : route_config :=
  {| rc_id := "R";
     get_direction_infos :=
       [ {| dir_id := "0"; gtfs_direction_id := "0" |};
         {| dir_id := "1"; gtfs_direction_id := "1" |} ] |}.

Definition example_route_trips : list trip :=
  [ {| trip_id := "T3"; route_id := "R"; service_id := "WKD"; direction_id := "0";
       shape_id := "a" |};
    {| trip_id := "T1"; route_id := "R"; service_id := "SAT"; direction_id := "0";
       shape_id := "a" |};
    {| trip_id := "T2"; route_id := "R"; service_id := "SAT"; direction_id := "1";
       shape_id := "b" |};
    {| trip_id := "T1"; route_id := "R"; service_id := "WKD"; direction_id := "0";
       shape_id := "a" |} ].

(** C9. Within one route the shared [trip_ids_map] numbers the trip ids
    1, 2, 3, ... in the order in which they are first seen: a call keeps
    every integer already assigned, gives the trip ids it sees for the
    first time the integers after the previous maximum, and gives every
    trip it processes an integer; the map of a whole route, built by the
    calls for its service ids from the empty map, is numbered in the same
    way, so that its first integer is 1 and no integer belongs to two trip
    ids.  The calls return when the stop ids need no translation, every
    trip has stop times and every trip's direction is in the route config
    (every stop time row having both of its times, as the model takes it). *)
Theorem trip_ints_dense :
  (forall self service_id route_config service_route_trips m arrivals m',
      dense m ->
      get_scheduled_arrivals_by_service_id self service_id route_config
        service_route_trips m = Ok (arrivals, m') ->
      dense m' /\
      (exists new,
          m' = m ++ new /\
          dict_values new = map Z.of_nat (seq (length m + 1) (length new))) /\
      (forall t n, dict_get m t = Some n -> dict_get m' t = Some n) /\
      (forall tr, In tr service_route_trips -> dict_mem m' (trip_id tr) = true))
  /\ (forall self route_config route_trips arrivals_by_service_id m,
         save_timetables_route_arrivals self route_config route_trips
           = Ok (arrivals_by_service_id, m) ->
         dense m /\ forall tr, In tr route_trips -> dict_mem m (trip_id tr) = true)
  /\ (forall m,
         dense m ->
         dict_values m = map Z.of_nat (seq 1 (length m)) /\
         (forall k v rest, m = (k, v) :: rest -> v = 1%Z) /\
         (forall t1 t2 n, dict_get m t1 = Some n -> dict_get m t2 = Some n -> t1 = t2))
  /\ (forall self route_config route_trips,
         stop_id_gtfs_field self = "stop_id"%string ->
         (forall tr, In tr route_trips ->
            (exists st, In st (feed_stop_times self) /\ st_trip_id st = trip_id tr) /\
            (exists di, In di (get_direction_infos route_config) /\
                        gtfs_direction_id di = direction_id tr)) ->
         exists r, save_timetables_route_arrivals self route_config route_trips = Ok r).
Proof.
  split; [|split; [|split]].
  - intros self sid rc trips m arrivals m' Hdense Hcall.
    destruct (get_scheduled_arrivals_dense _ _ _ _ _ _ _ Hdense Hcall)
      as (Hd' & [new Hnew] & Hmem).
    split; [exact Hd'|]. split; [|split; [|exact Hmem]].
    + exists new. split; [exact Hnew|].
      destruct Hdense as [_ Hv]. destruct Hd' as [_ Hv'].
      subst m'. unfold dict_values in *.
      rewrite map_app, length_app, seq_app, map_app, Hv in Hv'.
      apply app_inv_head in Hv'. rewrite Hv'. do 2 f_equal. lia.
    + intros t n Hg. subst m'. now apply dict_get_app_l.
  - intros self rc route_trips abs m Hrun. unfold save_timetables_route_arrivals in Hrun.
    destruct (service_groups_loop_dense _ _ _ _ _ _ _ dense_nil Hrun) as (Hd & _ & Hmem).
    split; [exact Hd|]. intros tr Hin.
    destruct (groupby_covers service_id route_trips tr Hin) as (rows & Hgroup & Hrow).
    eapply Hmem; eauto.
  - intros m Hdense. split; [apply Hdense|]. split.
    + intros k v rest ->. destruct Hdense as [_ Hv]. simpl in Hv. congruence.
    + intros t1 t2 n. now apply dense_injective.
  - intros self rc route_trips Hfield Htrips. unfold save_timetables_route_arrivals.
    apply service_groups_loop_returns; [apply dense_nil | exact Hfield |].
    intros sid trips tr Hin Htr. apply Htrips.
    eapply groupby_rows; eauto.
Qed.

Lemma trip_ints_dense_witness :
  exists arrivals_by_service_id m,
    save_timetables_route_arrivals example_scraper example_route_config example_route_trips
      = Ok (arrivals_by_service_id, m) /\
    m = [ ("T1", 1); ("T2", 2); ("T3", 3) ]%string%Z /\
    dense m /\
    forall tr, In tr example_route_trips -> dict_mem m (trip_id tr) = true.
Proof.
  eexists. eexists. split; [vm_compute; reflexivity|]. split; [reflexivity|].
  eapply (proj1 (proj2 trip_ints_dense) example_scraper example_route_config).
  vm_compute. reflexivity.
Defined.

(** ** Stop projection *)

(** A straight path of 200 metres along the x axis in two segments.  Stop
    A lies 40 m along the path and 30 m to its side, stop B lies on the
    path 45 m along it, and stop C lies 150 m away from the path. *)
Definition example_shape : shape_geometry :=
  {| project_xy := fun x y => (x, y);
     shape_lines_xy := [ ((0, 0), (100, 0)); ((100, 0), (200, 0)) ]%Q;
     shape_cumulative_dist := [ 0; 100; 200 ]%Q |}.

Definition example_stop (name : string) (x y : Q) : stop :=
  {| stop_columns := [ ("stop_id", name); ("stop_name", name) ]%string;
     stop_x := x; stop_y := y |}.

Definition example_direction_scraper : GtfsScraper :=
  {| stop_id_gtfs_field := "stop_id";
     gtfs_stop_ids_map := [];
     stops_map :=
       [ ("A", example_stop "A" 40 30);
         ("B", example_stop "B" 45 0);
         ("C", example_stop "C" 150 150) ]%string%Q;
     feed_stop_times := [];
     feed_shapes := [ ("shape"%string, example_shape) ] |}.

(** [int(x) > 100] holds exactly from 101 on: a distance strictly between
    100 and 101 passes the test of line 629. *)
Lemma py_int_gt_100 (x : Q) : (py_int x > 100)%Z <-> (101 <= x)%Q.
Proof.
  destruct x as [n d]. unfold py_int, Qle. cbn [Qnum Qden].
  pose proof (Z.quot_rem' n (Z.pos d)) as Hqr.
  destruct (Z.le_gt_cases 0 n) as [Hn|Hn].
  - pose proof (Z.rem_bound_pos n (Z.pos d) Hn ltac:(lia)) as Hr. nia.
  - pose proof (Z.rem_bound_pos_neg n (Z.pos d) ltac:(lia) ltac:(lia)) as Hr. nia.
Qed.

(** The scan keeps the candidate it was given or ends on a segment it
    visited, with the distance from the stop to that segment. *)
Lemma scan_lines_offset (line_distance : line -> point -> Q) (lines : list line)
    (stop_xy : point) (shape_index : nat) (best_offset : Q) (best_index : nat)
    (best_offset' : Q) (best_index' : nat) :
  scan_lines line_distance lines stop_xy shape_index best_offset best_index
    = (best_offset', best_index') ->
  (best_offset' = best_offset /\ best_index' = best_index) \/
  (exists i shape_line,
     best_index' = shape_index + i /\
     nth_error lines i = Some shape_line /\
     best_offset' = line_distance shape_line stop_xy).
Proof.
  revert shape_index best_offset best_index.
  induction lines as [|shape_line rest IH]; intros idx bo bi; cbn [scan_lines].
  - intros [= <- <-]. now left.
  - assert (Hrest : forall bo0 bi0,
              scan_lines line_distance rest stop_xy (S idx) bo0 bi0
                = (best_offset', best_index') ->
              (best_offset' = bo0 /\ best_index' = bi0) \/
              (exists i ln, best_index' = idx + i /\
                            nth_error (shape_line :: rest) i = Some ln /\
                            best_offset' = line_distance ln stop_xy)).
    { intros bo0 bi0 Hscan.
      destruct (IH _ _ _ Hscan) as [H|(i & ln & -> & Hnth & ->)]; [now left|].
      right. exists (S i), ln. split; [lia|]. split; [exact Hnth | reflexivity]. }
    assert (Hhere : exists i ln, idx = idx + i /\
                      nth_error (shape_line :: rest) i = Some ln /\
                      line_distance shape_line stop_xy = line_distance ln stop_xy).
    { exists 0, shape_line. split; [lia|]. split; reflexivity. }
    destruct (Qltb (line_distance shape_line stop_xy) bo).
    + destruct (_ && _).
      * intros [= <- <-]. now right.
      * intros Hscan. destruct (Hrest _ _ Hscan) as [[-> ->]|H]; now right.
    + destruct (_ && _).
      * intros [= <- <-]. now left.
      * intros Hscan. exact (Hrest _ _ Hscan).
Qed.

(** The distance in metres that [get_stop_geometry] found for a stop, of
    which the ['offset'] it returns is the integer part: the distance from
    the stop to the anchor segment, or the initial 99999999 when no segment
    was scanned. *)
Definition projected_offset (line_distance : line -> point -> Q)
    (stop_xy : point) (shape_lines_xy : list line) (g : stop_geometry) (best_offset : Q)
  : Prop :=
  offset g = py_int best_offset /\
  (best_offset = 99999999%Q \/
   exists shape_line,
     nth_error shape_lines_xy (after_index g) = Some shape_line /\
     best_offset = line_distance shape_line stop_xy).

Lemma get_stop_geometry_offset (line_distance : line -> point -> Q)
    (point_distance : point -> point -> Q) (stop_xy : point) (shape_lines_xy : list line)
    (shape_cumulative_dist : list Q) (start_index : nat) (g : stop_geometry) :
  get_stop_geometry line_distance point_distance stop_xy shape_lines_xy
    shape_cumulative_dist start_index = Ok g ->
  exists best_offset, projected_offset line_distance stop_xy shape_lines_xy g best_offset.
Proof.
  unfold get_stop_geometry.
  destruct (scan_lines line_distance (skipn start_index shape_lines_xy) stop_xy start_index
              99999999 0) as [bo bi] eqn:Hscan.
  destruct (getitem shape_lines_xy bi) as [shape_line0|]; [|discriminate]. cbn [bind].
  destruct (getitem shape_cumulative_dist bi) as [d|]; [|discriminate]. cbn [bind].
  intros [= <-]. exists bo. split; [reflexivity|]. cbn [after_index].
  destruct (scan_lines_offset _ _ _ _ _ _ _ _ Hscan) as [[-> _]|(i & ln & -> & Hnth & ->)];
    [now left|].
  right. exists ln. rewrite nth_error_skipn in Hnth. split; [exact Hnth | reflexivity].
Qed.

(** C7, as amended.  When [get_direction_data] returns, the stops list of
    the direction is the stop list it was given.  At the visit of a stop,
    reached with the dict [sgm] and the starting index [si], the walk finds
    a geometry [g] whose offset is the integer part of the distance
    [best_offset] in metres from the stop to its anchor segment, and line
    629 compares that integer with 100.  If [best_offset] is 101 or more the
    visit leaves the dict and the starting index as they were, and the stop
    is absent from the final [stop_geometry] when the stop list names it
    only once.  If [best_offset] is below 101, which includes the distances
    strictly between 100 and 101, the visit records [g] for the stop and
    moves the starting index to the anchor of [g], and [g] is the stop's
    final entry when the stop list does not name the stop again. *)
Theorem offset_threshold_gates_geometry :
  forall (line_distance : line -> point -> Q) (point_distance : point -> point -> Q)
         (self : GtfsScraper) (id gtfs_shape_id gtfs_direction_id : string)
         (stop_ids : list string) (title : option string) (dd : dir_data),
    get_direction_data line_distance point_distance self id gtfs_shape_id
      gtfs_direction_id stop_ids title = Ok dd ->
    dd_stops dd = stop_ids /\
    exists shape,
      dict_get (feed_shapes self) gtfs_shape_id = Some shape /\
      forall pre stop_id post,
        stop_ids = pre ++ stop_id :: post ->
        exists sgm si g st best_offset,
          visit line_distance point_distance self shape pre stop_id sgm si g /\
          dict_get (stops_map self) stop_id = Some st /\
          projected_offset line_distance (project_xy shape (stop_x st) (stop_y st))
            (shape_lines_xy shape) g best_offset /\
          ((101 <= best_offset)%Q ->
             (offset g > 100)%Z /\
             stops_loop line_distance point_distance self shape (pre ++ [stop_id]) [] 0
               = Ok (sgm, si) /\
             (~ In stop_id pre -> ~ In stop_id post ->
              dict_get (dd_stop_geometry dd) stop_id = None)) /\
          ((best_offset < 101)%Q ->
             (offset g <= 100)%Z /\
             stops_loop line_distance point_distance self shape (pre ++ [stop_id]) [] 0
               = Ok (dict_set sgm stop_id g, after_index g) /\
             (~ In stop_id post -> dict_get (dd_stop_geometry dd) stop_id = Some g)).
Proof.
  intros ld pd self id gtfs_shape_id gtfs_direction_id stop_ids title dd.
  unfold get_direction_data.
  destruct (match title with Some t => Ok t | None => _ end) as [t|]; [|discriminate].
  cbn [bind].
  destruct (dict_get (feed_shapes self) gtfs_shape_id) as [shape|]; [|discriminate].
  cbn [bind].
  destruct (getitem_last (shape_cumulative_dist shape)) as [total|]; [|discriminate].
  cbn [bind].
  destruct (stops_loop ld pd self shape stop_ids [] 0) as [[sgm' si']|] eqn:Hrun;
    [|discriminate].
  cbn [bind]. intros [= <-]. cbn [dd_stops dd_stop_geometry].
  split; [reflexivity|]. exists shape. split; [reflexivity|].
  intros pre stop_id post ->.
  destruct (stops_loop_visit ld pd _ _ _ _ _ _ _ Hrun) as (sgm & si & g & Hv & Hrest).
  pose proof (visit_step ld pd _ _ _ _ _ _ _ Hv) as Hstep.
  pose proof Hv as (st & Hrunpre & Hst & Hg).
  destruct (get_stop_geometry_offset _ _ _ _ _ _ _ Hg) as [best_offset Hbest].
  exists sgm, si, g, st, best_offset.
  split; [exact Hv|]. split; [exact Hst|]. split; [exact Hbest|].
  destruct Hbest as [Hoff _].
  split.
  - intros Hfar.
    assert (Hbad : (offset g > 100)%Z) by (rewrite Hoff; now apply py_int_gt_100).
    split; [exact Hbad|].
    destruct (Z.gtb_spec (offset g) 100) as [_|Hok]; [|lia].
    split; [exact Hstep|]. intros Hpre Hpost.
    rewrite (stops_loop_frame ld pd _ _ _ _ _ _ _ _ Hrest Hpost).
    now rewrite (stops_loop_frame ld pd _ _ _ _ _ _ _ _ Hrunpre Hpre).
  - intros Hnear.
    assert (Hok : (offset g <= 100)%Z).
    { rewrite Hoff. destruct (Z.le_gt_cases (py_int best_offset) 100) as [H|H]; [exact H|].
      exfalso. apply (Qlt_not_le _ _ Hnear). apply py_int_gt_100. lia. }
    split; [exact Hok|].
    destruct (Z.gtb_spec (offset g) 100) as [Hbad|_]; [lia|].
    split; [exact Hstep|]. intros Hpost.
    rewrite (stops_loop_frame ld pd _ _ _ _ _ _ _ _ Hrest Hpost).
    apply dict_get_set_eq.
Qed.

(** Stop E lies 100.9 m to the side of the second segment of
    [example_shape]; stop W lies on the line of the path, 10 m before its
    start, so 110 m from the second segment; stop M lies on the second
    segment. *)
Definition example_threshold_scraper : GtfsScraper :=
  {| stop_id_gtfs_field := "stop_id";
     gtfs_stop_ids_map := [];
     stops_map :=
       [ ("A", example_stop "A" 40 30);
         ("C", example_stop "C" 150 150);
         ("B", example_stop "B" 45 0);
         ("E", example_stop "E" 150 (1009 # 10));
         ("W", example_stop "W" (-10) 0);
         ("M", example_stop "M" 150 0) ]%string%Q;
     feed_stop_times := [];
     feed_shapes := [ ("shape"%string, example_shape) ] |}.

Definition example_threshold_direction : dir_data :=
  {| dd_id := "0"; dd_gtfs_shape_id := "shape"; dd_gtfs_direction_id := "0";
     dd_stops := ["A"; "C"; "B"]%string;
     dd_stop_geometry :=
       [ ("A"%string, {| distance := 50; after_index := 0; offset := 30 |});
         ("B"%string, {| distance := 45; after_index := 0; offset := 0 |}) ];
     dd_distance := 200 |}.

Lemma offset_threshold_gates_geometry_witness :
  let dd := example_threshold_direction in
  dd_stops dd = ["A"; "C"; "B"]%string /\
  exists shape,
    dict_get (feed_shapes example_threshold_scraper) "shape"%string = Some shape /\
    forall pre stop_id post,
      ["A"; "C"; "B"]%string = pre ++ stop_id :: post ->
      exists sgm si g st best_offset,
        visit euclid_line_distance euclid_point_distance example_threshold_scraper shape
          pre stop_id sgm si g /\
        dict_get (stops_map example_threshold_scraper) stop_id = Some st /\
        projected_offset euclid_line_distance (project_xy shape (stop_x st) (stop_y st))
          (shape_lines_xy shape) g best_offset /\
        ((101 <= best_offset)%Q ->
           (offset g > 100)%Z /\
           stops_loop euclid_line_distance euclid_point_distance example_threshold_scraper
             shape (pre ++ [stop_id]) [] 0 = Ok (sgm, si) /\
           (~ In stop_id pre -> ~ In stop_id post ->
            dict_get (dd_stop_geometry dd) stop_id = None)) /\
        ((best_offset < 101)%Q ->
           (offset g <= 100)%Z /\
           stops_loop euclid_line_distance euclid_point_distance example_threshold_scraper
             shape (pre ++ [stop_id]) [] 0 = Ok (dict_set sgm stop_id g, after_index g) /\
           (~ In stop_id post -> dict_get (dd_stop_geometry dd) stop_id = Some g)).
Proof.
  intros dd.
  apply (offset_threshold_gates_geometry euclid_line_distance euclid_point_distance
           example_threshold_scraper "0" "shape" "0" ["A"; "C"; "B"]%string
           (Some "To B"%string) dd).
  vm_compute. reflexivity.
Defined.

(** C7 (against the claim).  Stop E is 100.9 m from the path, more than
    100 m: its geometry is recorded, with the offset 100, and the walk goes
    on from its anchor segment 1, so stop B, which lies beside segment 0,
    is then measured against segment 1.  And in the stop list W, M, W the
    second visit of W finds an offset of 110 m, yet W stays in
    [stop_geometry] with the entry of its first visit. *)
Lemma offset_above_100_metres_recorded :
  (100 < euclid_line_distance ((100, 0), (200, 0))%Q (150, 1009 # 10)%Q)%Q /\
  get_stop_geometry euclid_line_distance euclid_point_distance (150, 1009 # 10)%Q
    (shape_lines_xy example_shape) (shape_cumulative_dist example_shape) 0
    = Ok {| distance := 212; after_index := 1; offset := 100 |} /\
  (exists dd,
     get_direction_data euclid_line_distance euclid_point_distance
       example_threshold_scraper "0" "shape" "0" ["E"; "B"]%string (Some "To B"%string)
       = Ok dd /\
     dict_get (dd_stop_geometry dd) "E"%string
       = Some {| distance := 212; after_index := 1; offset := 100 |} /\
     dict_get (dd_stop_geometry dd) "B"%string
       = Some {| distance := 155; after_index := 1; offset := 55 |}) /\
  get_stop_geometry euclid_line_distance euclid_point_distance (-10, 0)%Q
    (shape_lines_xy example_shape) (shape_cumulative_dist example_shape) 1
    = Ok {| distance := 210; after_index := 1; offset := 110 |} /\
  (exists dd,
     get_direction_data euclid_line_distance euclid_point_distance
       example_threshold_scraper "0" "shape" "0" ["W"; "M"; "W"]%string (Some "To W"%string)
       = Ok dd /\
     dict_get (dd_stop_geometry dd) "W"%string
       = Some {| distance := 10; after_index := 0; offset := 10 |}).
Proof.
  split; [vm_compute; reflexivity|].
  split; [vm_compute; reflexivity|].
  split; [eexists; split; [vm_compute; reflexivity|]; split; vm_compute; reflexivity|].
  split; [vm_compute; reflexivity|].
  eexists; split; [vm_compute; reflexivity|]. vm_compute. reflexivity.
Qed.

(** An entry [g] of the [stop_geometry] dict for the stop [k]: the result
    of projecting [k] from some starting index, with an offset of at most
    100. *)
Definition recorded (line_distance : line -> point -> Q)
    (point_distance : point -> point -> Q) (self : GtfsScraper) (shape : shape_geometry)
    (k : string) (g : stop_geometry) : Prop :=
  exists st si,
    dict_get (stops_map self) k = Some st /\
    get_stop_geometry line_distance point_distance
      (project_xy shape (stop_x st) (stop_y st))
      (shape_lines_xy shape) (shape_cumulative_dist shape) si = Ok g /\
    (offset g <= 100)%Z.

Lemma stops_loop_recorded (line_distance : line -> point -> Q)
    (point_distance : point -> point -> Q) (self : GtfsScraper) (shape : shape_geometry)
    (l : list string) (sgm sgm' : dict string stop_geometry) (si si' : nat) :
  (forall k g, dict_get sgm k = Some g ->
     recorded line_distance point_distance self shape k g) ->
  stops_loop line_distance point_distance self shape l sgm si = Ok (sgm', si') ->
  forall k g, dict_get sgm' k = Some g ->
    recorded line_distance point_distance self shape k g.
Proof.
  revert sgm si. induction l as [|s l IH]; intros sgm si Hinv; cbn [stops_loop].
  - intros [= <- <-]. exact Hinv.
  - unfold dict_getitem.
    destruct (dict_get (stops_map self) s) as [st|] eqn:Hst; [|discriminate]. cbn [bind].
    destruct (get_stop_geometry _ _ _ _ _ _) as [g0|] eqn:Hg; [|discriminate]. cbn [bind].
    destruct (Z.gtb_spec (offset g0) 100) as [Hbad|Hok].
    + now apply IH.
    + apply IH. intros k g Hget.
      destruct (eqb_spec s k) as [<-|Hne].
      * rewrite dict_get_set_eq in Hget. injection Hget as <-. exists st, si. auto.
      * rewrite dict_get_set_ne in Hget by exact Hne. now apply Hinv.
Qed.

(** C6 (against the claim).  On the straight path of [example_shape], stop
    A, 30 m to the side of the path, gets the distance 50; stop B, which
    follows it in stop order and lies on the path, gets 45.  Both are
    recorded, both are anchored at segment 0. *)
Lemma cumulative_distance_not_monotone :
  exists dd gA gB,
    get_direction_data euclid_line_distance euclid_point_distance example_direction_scraper
      "0" "shape" "0" ["A"; "B"]%string (Some "To B"%string) = Ok dd /\
    dict_get (dd_stop_geometry dd) "A"%string = Some gA /\
    dict_get (dd_stop_geometry dd) "B"%string = Some gB /\
    distance gA = 50%Z /\ distance gB = 45%Z /\
    ~ (distance gA <= distance gB)%Z.
Proof.
  eexists. eexists. eexists.
  split; [vm_compute; reflexivity|].
  split; [vm_compute; reflexivity|].
  split; [vm_compute; reflexivity|].
  split; [reflexivity|]. split; [reflexivity|].
  vm_compute. intros H. now apply H.
Qed.

(** C6, as amended.  When [get_direction_data] returns: of two visits of
    the walk that record a geometry, the later one has an anchor segment
    index at least that of the earlier one; when no stop id is repeated, the
    entries of [stop_geometry], read in stop order, therefore have
    non-decreasing anchor indices; and the distance of every entry is the
    integer part of the cumulative distance at its anchor plus the distance
    from the stop to the start of its anchor segment. *)
Theorem anchor_index_monotone :
  forall (line_distance : line -> point -> Q) (point_distance : point -> point -> Q)
         (self : GtfsScraper) (id gtfs_shape_id gtfs_direction_id : string)
         (stop_ids : list string) (title : option string) (dd : dir_data),
    get_direction_data line_distance point_distance self id gtfs_shape_id
      gtfs_direction_id stop_ids title = Ok dd ->
    exists shape,
      dict_get (feed_shapes self) gtfs_shape_id = Some shape /\
      (forall pre s1 mid s2 post sgm1 si1 g1 sgm2 si2 g2,
          stop_ids = pre ++ s1 :: mid ++ s2 :: post ->
          visit line_distance point_distance self shape pre s1 sgm1 si1 g1 ->
          (offset g1 <= 100)%Z ->
          visit line_distance point_distance self shape (pre ++ s1 :: mid) s2 sgm2 si2 g2 ->
          (offset g2 <= 100)%Z ->
          after_index g1 <= after_index g2) /\
      (NoDup stop_ids ->
       forall pre s1 mid s2 post g1 g2,
         stop_ids = pre ++ s1 :: mid ++ s2 :: post ->
         dict_get (dd_stop_geometry dd) s1 = Some g1 ->
         dict_get (dd_stop_geometry dd) s2 = Some g2 ->
         after_index g1 <= after_index g2) /\
      (forall s g,
          dict_get (dd_stop_geometry dd) s = Some g ->
          exists st shape_line distance_to_shape_point,
            dict_get (stops_map self) s = Some st /\
            nth_error (shape_lines_xy shape) (after_index g) = Some shape_line /\
            nth_error (shape_cumulative_dist shape) (after_index g)
              = Some distance_to_shape_point /\
            distance g =
              py_int (distance_to_shape_point +
                      point_distance (project_xy shape (stop_x st) (stop_y st))
                        (fst shape_line))%Q).
Proof.
  intros ld pd self id gtfs_shape_id gtfs_direction_id stop_ids title dd.
  unfold get_direction_data.
  destruct (match title with Some t => Ok t | None => _ end) as [t|]; [|discriminate].
  cbn [bind].
  destruct (dict_get (feed_shapes self) gtfs_shape_id) as [shape|]; [|discriminate].
  cbn [bind].
  destruct (getitem_last (shape_cumulative_dist shape)) as [total|]; [|discriminate].
  cbn [bind].
  destruct (stops_loop ld pd self shape stop_ids [] 0) as [[sgm' si']|] eqn:Hrun;
    [|discriminate].
  cbn [bind]. intros [= <-]. cbn [dd_stop_geometry].
  exists shape. split; [reflexivity|]. split; [|split].
  - intros pre s1 mid s2 post sgm1 si1 g1 sgm2 si2 g2 _. apply visit_order.
  - intros Hnodup pre s1 mid s2 post g1 g2 Hsplit Hget1 Hget2. subst stop_ids.
    assert (Hs1 : ~ In s1 pre /\ ~ In s1 (mid ++ s2 :: post)).
    { apply NoDup_remove_2 in Hnodup. rewrite in_app_iff in Hnodup. tauto. }
    assert (Hs2 : ~ In s2 (pre ++ s1 :: mid) /\ ~ In s2 post).
    { replace (pre ++ s1 :: mid ++ s2 :: post) with ((pre ++ s1 :: mid) ++ s2 :: post)
        in Hnodup by (rewrite <- app_assoc; reflexivity).
      apply NoDup_remove_2 in Hnodup. rewrite in_app_iff in Hnodup. tauto. }
    destruct (stops_loop_entry ld pd _ _ _ _ _ _ _ _ Hrun (proj1 Hs1) (proj2 Hs1) Hget1)
      as (sgm1 & si1 & Hv1 & Hok1).
    replace (pre ++ s1 :: mid ++ s2 :: post) with ((pre ++ s1 :: mid) ++ s2 :: post)
      in Hrun by (rewrite <- app_assoc; reflexivity).
    destruct (stops_loop_entry ld pd _ _ _ _ _ _ _ _ Hrun (proj1 Hs2) (proj2 Hs2) Hget2)
      as (sgm2 & si2 & Hv2 & Hok2).
    eapply visit_order; eauto.
  - intros s g Hget.
    destruct (stops_loop_recorded ld pd self shape stop_ids [] sgm' 0 si') with (k := s) (g := g)
      as (st & si & Hst & Hg & _); auto.
    { intros k g0; discriminate. }
    destruct (get_stop_geometry_distance ld pd _ _ _ _ _ Hg) as (shape_line & d & Hl & Hd & Hdist).
    exists st, shape_line, d. auto.
Qed.

Lemma anchor_index_monotone_witness :
  exists dd shape,
    get_direction_data euclid_line_distance euclid_point_distance example_direction_scraper
      "0" "shape" "0" ["A"; "C"; "B"]%string (Some "To B"%string) = Ok dd /\
    dict_get (feed_shapes example_direction_scraper) "shape"%string = Some shape /\
    (NoDup ["A"; "C"; "B"]%string ->
     forall pre s1 mid s2 post g1 g2,
       ["A"; "C"; "B"]%string = pre ++ s1 :: mid ++ s2 :: post ->
       dict_get (dd_stop_geometry dd) s1 = Some g1 ->
       dict_get (dd_stop_geometry dd) s2 = Some g2 ->
       after_index g1 <= after_index g2).
Proof.
  eexists.
  destruct (anchor_index_monotone euclid_line_distance euclid_point_distance
              example_direction_scraper "0" "shape" "0" ["A"; "C"; "B"]%string
              (Some "To B"%string) _ ltac:(vm_compute; reflexivity))
    as (shape & Hshape & _ & Hmap & _).
  exists shape. split; [reflexivity|]. split; [exact Hshape | exact Hmap].
Defined.

(** ** Shape clusters and custom directions *)

Definition example_stop_time (trip stop : string) (seq : Z) : stop_time :=
  {| st_trip_id := trip; arrival_time := 28800 + 60 * seq; departure_time := 28800 + 60 * seq;
     st_stop_id := stop; stop_sequence := seq |}.

Definition example_trip (id direction shape : string) : trip :=
  {| trip_id := id; route_id := "R"; service_id := "WKD"; direction_id := direction;
     shape_id := shape |}.

(** Direction 0 has the shape "long" (stops A, B, D; two trips) and the
    shape "short" (stops A, B; one trip).  Direction 1 has the shape
    "other" (stops D, A; two trips) and one trip of the shape "long". *)
Definition example_feed_scraper : GtfsScraper :=
  {| stop_id_gtfs_field := "stop_id";
     gtfs_stop_ids_map := [];
     stops_map :=
       [ ("A", example_stop "A" 40 30);
         ("B", example_stop "B" 45 0);
         ("C", example_stop "C" 150 150);
         ("D", example_stop "D" 190 0) ]%string%Q;
     feed_stop_times :=
       [ example_stop_time "L1" "A" 1; example_stop_time "L1" "B" 2;
         example_stop_time "L1" "D" 3;
         example_stop_time "L2" "A" 1; example_stop_time "L2" "B" 2;
         example_stop_time "L2" "D" 3;
         example_stop_time "L3" "A" 1; example_stop_time "L3" "B" 2;
         example_stop_time "L3" "D" 3;
         example_stop_time "S1" "A" 1; example_stop_time "S1" "B" 2;
         example_stop_time "O1" "D" 1; example_stop_time "O1" "A" 2;
         example_stop_time "O2" "D" 1; example_stop_time "O2" "A" 2 ]%string;
     feed_shapes :=
       [ ("long", example_shape); ("short", example_shape);
         ("other", example_shape) ]%string |}.

Definition example_feed_trips : list trip :=
  [ example_trip "L1" "0" "long"; example_trip "S1" "0" "short";
    example_trip "L2" "0" "long";
    example_trip "O1" "1" "other"; example_trip "L3" "1" "long";
    example_trip "O2" "1" "other" ]%string.

(** A stand-in for the hash in the worked examples: the JSON-like text of
    the stop sequence itself. *)
Definition example_hash (the_stop_ids : list string) : string :=
  String.concat "," the_stop_ids.

Lemma is_subsequence_Ok_nonempty {A : Type} `{PyEq A} (smaller bigger : list A) (b : bool) :
  is_subsequence smaller bigger = Ok b -> smaller <> [].
Proof.
  intros Hs ->. unfold is_subsequence in Hs. simpl in Hs. discriminate.
Qed.

Lemma is_subsequence_true_bigger_nonempty {A : Type} `{PyEq A} (smaller bigger : list A) :
  is_subsequence smaller bigger = Ok true -> bigger <> [].
Proof.
  intros Hs ->. pose proof (is_subsequence_Ok_nonempty _ _ _ Hs) as Hne.
  destruct smaller as [|x smaller]; [congruence|].
  unfold is_subsequence in Hs. simpl in Hs. discriminate.
Qed.

(** A stop whose row and name the scraper knows. *)
Definition known_stop (self : GtfsScraper) (s : string) : Prop :=
  exists st name, dict_get (stops_map self) s = Some st /\ getattr st "stop_name" = Ok name.

Lemma getitem_last_In {A : Type} (l : list A) :
  l <> [] -> exists x, getitem_last l = Ok x /\ In x l.
Proof.
  intros Hne. unfold getitem_last. destruct (rev l) as [|x r] eqn:Hrev.
  - apply (f_equal (@rev A)) in Hrev. rewrite rev_involutive in Hrev. simpl in Hrev. congruence.
  - exists x. split; [reflexivity|]. apply in_rev. rewrite Hrev. now left.
Qed.

Lemma print_shapes_returns (self : GtfsScraper) (sorted_shapes : list shape_info) :
  Forall (fun info => info_stop_ids info <> [] /\
                      forall s, In s (info_stop_ids info) -> known_stop self s)
         sorted_shapes ->
  print_shapes self sorted_shapes = Ok tt.
Proof.
  induction 1 as [|info rest [Hne Hknown] _ IH]; [reflexivity|].
  cbn [print_shapes]. unfold getitem.
  destruct (info_stop_ids info) as [|first_stop_id ids] eqn:Hids; [congruence|].
  cbn [nth_error bind].
  destruct (getitem_last_In (first_stop_id :: ids)) as (last_stop_id & Hlast & Hin);
    [discriminate|].
  rewrite Hlast. cbn [bind].
  destruct (Hknown first_stop_id (or_introl eq_refl)) as (st1 & n1 & Hst1 & Hn1).
  destruct (Hknown last_stop_id Hin) as (st2 & n2 & Hst2 & Hn2).
  unfold dict_getitem. rewrite Hst1, Hst2. cbn [bind]. rewrite Hn1, Hn2. cbn [bind].
  exact IH.
Qed.

(** Evaluation of the dict operations on the clusters. *)
Ltac run_dict :=
  repeat (progress
    (unfold dict_getitem, dict_mem;
     cbn [dict_get dict_set dict_del eqb PyEq_string negb bind match_existing
          info_stop_ids info_shape_id count];
     rewrite ?String.eqb_refl)).

(** The first shape of a direction opens a cluster of its own. *)
Lemma add_shape_first (k s : string) (c : Z) (ids : list string) :
  add_shape k [] s c ids =
  Ok [ (k, {| count := 0 + c; info_shape_id := s; info_stop_ids := ids |}) ].
Proof. unfold add_shape. run_dict. reflexivity. Qed.

(** The second shape, when the two stop sequences have the same key or one
    of them passes the is-subsequence test against the other. *)
Lemma add_shape_second_merges (k1 k2 s1 s2 : string) (c1 c2 : Z) (ids1 ids2 : list string) :
  (k1 = k2 \/ is_subsequence ids2 ids1 = Ok true \/ is_subsequence ids1 ids2 = Ok true) ->
  exists k info,
    add_shape k2 [ (k1, {| count := c1; info_shape_id := s1; info_stop_ids := ids1 |}) ]
      s2 c2 ids2 = Ok [ (k, info) ] /\
    count info = (c1 + c2)%Z /\
    (info_stop_ids info = ids1 \/ info_stop_ids info = ids2).
Proof.
  intros Hcase. unfold add_shape.
  destruct (String.eqb_spec k1 k2) as [->|Hne].
  - run_dict. eexists _, _. split; [reflexivity|]. cbn. split; [reflexivity | now left].
  - pose proof (proj2 (String.eqb_neq k1 k2) Hne) as Hneb.
    unfold dict_mem at 1. cbn [dict_get eqb PyEq_string]. rewrite Hneb.
    cbn [negb match_existing info_stop_ids count].
    destruct Hcase as [Heq|[H21|H12]]; [congruence| |].
    + rewrite H21. run_dict.
      eexists _, _. split; [reflexivity|]. cbn. split; [reflexivity | now left].
    + assert (Hne2 : ids2 <> []) by (eapply is_subsequence_true_bigger_nonempty; eauto).
      destruct (is_subsequence_returns ids2 ids1 Hne2) as [b Hb].
      rewrite Hb. destruct b.
      * run_dict.
        eexists _, _. split; [reflexivity|]. cbn. split; [reflexivity | now left].
      * cbn [bind]. rewrite H12. run_dict.
        eexists _, _. split; [reflexivity|]. cbn. split; [lia | now right].
Qed.

(** The second shape, when the keys differ and neither test passes. *)
Lemma add_shape_second_independent (k1 k2 s1 s2 : string) (c1 c2 : Z)
    (ids1 ids2 : list string) :
  k1 <> k2 ->
  is_subsequence ids2 ids1 = Ok false -> is_subsequence ids1 ids2 = Ok false ->
  add_shape k2 [ (k1, {| count := c1; info_shape_id := s1; info_stop_ids := ids1 |}) ]
    s2 c2 ids2 =
  Ok [ (k1, {| count := c1; info_shape_id := s1; info_stop_ids := ids1 |});
       (k2, {| count := 0 + c2; info_shape_id := s2; info_stop_ids := ids2 |}) ].
Proof.
  intros Hne H21 H12. apply String.eqb_neq in Hne.
  unfold add_shape.
  unfold dict_mem at 1. cbn [dict_get eqb PyEq_string]. rewrite Hne.
  cbn [negb match_existing info_stop_ids count]. rewrite H21. cbn [bind]. rewrite H12.
  cbn [bind].
  unfold dict_mem. cbn [dict_get eqb PyEq_string]. rewrite Hne. cbn [negb dict_set eqb PyEq_string].
  rewrite Hne. unfold dict_getitem. cbn [dict_get eqb PyEq_string]. rewrite Hne.
  rewrite String.eqb_refl. cbn [bind dict_set eqb PyEq_string]. rewrite Hne.
  rewrite String.eqb_refl. reflexivity.
Qed.

Lemma StronglySorted_weaken {A : Type} (R R' : A -> A -> Prop) (l : list A) :
  (forall a b, R a b -> R' a b) -> StronglySorted R l -> StronglySorted R' l.
Proof.
  intros Himp. induction 1 as [|a l Hs IH Hall]; constructor; [exact IH|].
  eapply Forall_impl; [|exact Hall]. auto.
Qed.

(** C5. For a direction with two shapes, taken in the order in which
    [get_unique_shapes] processes them: when the stop sequence of one
    passes the is-subsequence test against the other, the result is a
    single cluster whose count is the sum of the two trip counts; when
    neither test passes (and the two sequences have different keys), the
    result is the two clusters, each with its own count.  For every
    direction the clusters come back ordered by count, descending. *)
Theorem shape_clusters_merge_or_stay_apart :
  (forall (shape_hash : list string -> string) (self : GtfsScraper)
          (direction_trips_df : list trip)
          (s1 s2 : string) (c1 c2 : Z) (ids1 ids2 : list string),
      shape_order direction_trips_df = [ (s1, c1); (s2, c2) ] ->
      shape_trip_stop_ids self direction_trips_df s1 = Ok ids1 ->
      shape_trip_stop_ids self direction_trips_df s2 = Ok ids2 ->
      (forall s, In s (ids1 ++ ids2) -> known_stop self s) ->
      ((is_subsequence ids2 ids1 = Ok true \/ is_subsequence ids1 ids2 = Ok true) ->
       exists info,
         get_unique_shapes shape_hash self direction_trips_df = Ok [ info ] /\
         count info = (c1 + c2)%Z /\
         (info_stop_ids info = ids1 \/ info_stop_ids info = ids2))
      /\
      (is_subsequence ids2 ids1 = Ok false ->
       is_subsequence ids1 ids2 = Ok false ->
       shape_hash ids1 <> shape_hash ids2 ->
       get_unique_shapes shape_hash self direction_trips_df =
       Ok [ {| count := c1; info_shape_id := s1; info_stop_ids := ids1 |};
            {| count := c2; info_shape_id := s2; info_stop_ids := ids2 |} ]))
  /\
  (forall (shape_hash : list string -> string) (self : GtfsScraper)
          (direction_trips_df : list trip) (sorted_shapes : list shape_info),
      get_unique_shapes shape_hash self direction_trips_df = Ok sorted_shapes ->
      StronglySorted (fun a b => (count a >= count b)%Z) sorted_shapes).
Proof.
  split.
  - intros shape_hash self df s1 s2 c1 c2 ids1 ids2 Hord H1 H2 Hknown.
    assert (Hc : (c2 <= c1)%Z).
    { pose proof (sorted_by_sorted (fun p : string * Z => (-1 * snd p)%Z)
                    (np_unique_counts (map shape_id df))) as Hs.
      fold (shape_order df) in Hs. rewrite Hord in Hs.
      inversion Hs as [|? ? _ Hall]; subst. inversion Hall as [|? ? Hle _]; subst.
      unfold key_le in Hle. cbn [snd] in Hle. lia. }
    unfold get_unique_shapes. rewrite Hord.
    cbn [unique_shapes_loop unique_shapes_step]. rewrite H1. cbn [bind].
    rewrite add_shape_first. cbn [bind]. rewrite H2. cbn [bind]. rewrite Z.add_0_l.
    split.
    + intros Hcase.
      destruct (add_shape_second_merges (shape_hash ids1) (shape_hash ids2) s1 s2 c1 c2
                  ids1 ids2) as (k & info & Hadd & Hcount & Hids); [tauto|].
      rewrite Hadd. cbn [bind dict_values map snd].
      unfold sorted_by. cbn [sorted_with insert_sorted].
      rewrite print_shapes_returns.
      * cbn [bind]. exists info. auto.
      * constructor; [|constructor]. split.
        -- destruct Hcase as [H21|H12], Hids as [-> | ->];
             eauto using is_subsequence_Ok_nonempty, is_subsequence_true_bigger_nonempty.
        -- intros s Hin. apply Hknown. rewrite in_app_iff.
           destruct Hids as [Hi|Hi]; rewrite Hi in Hin; tauto.
    + intros H21 H12 Hkeys.
      rewrite (add_shape_second_independent _ _ s1 s2 c1 c2 ids1 ids2 Hkeys H21 H12).
      rewrite Z.add_0_l. cbn [bind dict_values map snd].
      unfold sorted_by. cbn [sorted_with insert_sorted count].
      destruct (Z.leb_spec (-1 * c1) (-1 * c2)) as [_|Hlt]; [|lia].
      rewrite print_shapes_returns; [reflexivity|].
      constructor; [|constructor; [|constructor]]; cbn [info_stop_ids]; split.
      * eapply is_subsequence_Ok_nonempty; eauto.
      * intros s Hin. apply Hknown. rewrite in_app_iff. tauto.
      * eapply is_subsequence_Ok_nonempty; eauto.
      * intros s Hin. apply Hknown. rewrite in_app_iff. tauto.
  - intros shape_hash self df sorted_shapes. unfold get_unique_shapes.
    destruct (unique_shapes_loop shape_hash self df (shape_order df) []) as [m|];
      [|discriminate].
    cbn [bind]. destruct (print_shapes self _) as [[]|]; [|discriminate].
    cbn [bind]. intros [= <-].
    apply (StronglySorted_weaken (key_le (fun shape => (-1 * count shape)%Z)));
      [|apply sorted_by_sorted].
    unfold key_le. intros a b Hab. cbv beta in Hab. lia.
Qed.

Definition example_direction_0 : list trip :=
  filter (fun tr => eqb (direction_id tr) "0"%string) example_feed_trips.

Definition example_direction_1 : list trip :=
  filter (fun tr => eqb (direction_id tr) "1"%string) example_feed_trips.

Lemma example_stops_known (s : string) :
  In s ["A"; "B"; "D"]%string -> known_stop example_feed_scraper s.
Proof.
  intros [<-|[<-|[<-|[]]]]; eexists; eexists; split; vm_compute; reflexivity.
Qed.

Lemma shape_clusters_merge_or_stay_apart_witness :
  (exists info,
      get_unique_shapes example_hash example_feed_scraper example_direction_0
        = Ok [ info ] /\
      count info = (2 + 1)%Z /\
      (info_stop_ids info = ["A"; "B"; "D"]%string \/
       info_stop_ids info = ["A"; "B"]%string))
  /\ get_unique_shapes example_hash example_feed_scraper example_direction_1 =
     Ok [ {| count := 2; info_shape_id := "other"; info_stop_ids := ["D"; "A"]%string |};
          {| count := 1; info_shape_id := "long";
             info_stop_ids := ["A"; "B"; "D"]%string |} ].
Proof.
  split.
  - apply (proj1 (proj1 shape_clusters_merge_or_stay_apart example_hash example_feed_scraper
                    example_direction_0 "long"%string "short"%string 2%Z 1%Z
                    ["A"; "B"; "D"]%string ["A"; "B"]%string
                    eq_refl eq_refl eq_refl
                    (fun s Hin => example_stops_known s
                       ltac:(simpl in Hin; simpl; tauto)))).
    left. reflexivity.
  - apply (proj2 (proj1 shape_clusters_merge_or_stay_apart example_hash example_feed_scraper
                    example_direction_1 "other"%string "long"%string 2%Z 1%Z
                    ["D"; "A"]%string ["A"; "B"; "D"]%string
                    eq_refl eq_refl eq_refl
                    (fun s Hin => example_stops_known s
                       ltac:(simpl in Hin; simpl; tauto)))).
    + reflexivity.
    + reflexivity.
    + vm_compute. discriminate.
Defined.

Definition example_custom_direction (included excluded : option (list string))
  : custom_direction_info :=
  {| cdi_id := "X"; cdi_gtfs_direction_id := "1";
     cdi_included_stop_ids := included; cdi_excluded_stop_ids := excluded;
     cdi_title := None |}.

(** C8 (the code departs from the claim).  The name [route_id], which the
    error message reads, is bound neither in [get_custom_direction_data] nor
    in the module, so whenever the number of surviving candidates is not 1
    the function raises [NameError] and the message with the stop
    constraints and the candidate shape ids is never built.  In direction 1
    of the example feed, with its two clusters: requiring stop C leaves no
    candidate and no constraint leaves two, and both calls raise
    [NameError]; requiring D then A leaves one candidate and the call
    returns.  The message the code composes for the first call, had
    [route_id] held "R", is shown last. *)
Theorem ambiguous_match_raises_name_error :
  (forall value : string, load_name "route_id" value = Raise (NameError "route_id"))
  /\ (forall (line_distance : line -> point -> Q) (point_distance : point -> point -> Q)
             (shape_hash : list string -> string) (self : GtfsScraper)
             (info : custom_direction_info) (route_trips_df : list trip)
             (shapes : list shape_info),
         get_unique_shapes shape_hash self
           (filter (fun tr => eqb (direction_id tr) (cdi_gtfs_direction_id info))
              route_trips_df) = Ok shapes ->
         length
           (filter
              (fun shape =>
                 contains_included_stops
                   (match cdi_included_stop_ids info with Some l => l | None => [] end)
                   (info_stop_ids shape)
                 && negb (contains_excluded_stop
                            (match cdi_excluded_stop_ids info with Some l => l | None => [] end)
                            (info_stop_ids shape)))
              shapes) <> 1 ->
         get_custom_direction_data line_distance point_distance shape_hash self info
           route_trips_df = Raise (NameError "route_id"))
  /\ get_custom_direction_data euclid_line_distance euclid_point_distance example_hash
       example_feed_scraper (example_custom_direction (Some ["C"%string]) None)
       example_feed_trips = Raise (NameError "route_id")
  /\ get_custom_direction_data euclid_line_distance euclid_point_distance example_hash
       example_feed_scraper (example_custom_direction None None)
       example_feed_trips = Raise (NameError "route_id")
  /\ (exists dd,
         get_custom_direction_data euclid_line_distance euclid_point_distance example_hash
           example_feed_scraper (example_custom_direction (Some ["D"; "A"]%string) None)
           example_feed_trips = Ok dd /\
         dd_gtfs_shape_id dd = "other"%string)
  /\ error_message "R" [] "1" ["C"%string] [] =
       "0 shapes found for route R with GTFS direction ID 1 including C"%string.
Proof.
  split; [intros value; reflexivity|].
  split.
  - intros ld pd shape_hash self info trips shapes Hshapes Hlen.
    unfold get_custom_direction_data. rewrite Hshapes. cbn [bind].
    apply Nat.eqb_neq in Hlen. rewrite Hlen. reflexivity.
  - split; [vm_compute; reflexivity|].
    split; [vm_compute; reflexivity|].
    split; [|vm_compute; reflexivity].
    eexists. split; [vm_compute; reflexivity | reflexivity].
Qed.

Lemma ambiguous_match_raises_name_error_witness :
  get_custom_direction_data euclid_line_distance euclid_point_distance example_hash
    example_feed_scraper (example_custom_direction None (Some ["D"%string]))
    example_feed_trips = Raise (NameError "route_id").
Proof.
  eapply (proj1 (proj2 ambiguous_match_raises_name_error)
            euclid_line_distance euclid_point_distance example_hash example_feed_scraper
            (example_custom_direction None (Some ["D"%string])) example_feed_trips).
  - vm_compute. reflexivity.
  - vm_compute. discriminate.
Defined.


(* ================================================================== *)
(** * Further properties of the scraper                                *)
(* ================================================================== *)

(** ** is_subsequence, continued *)

Lemma index_app_first {A : Type} `{PyEq A} (pre post : list A) (x : A) :
  ~ In x pre -> index (pre ++ x :: post) x = Ok (length pre).
Proof.
  induction pre as [|y pre IH]; intros Hnotin; simpl.
  - now rewrite eqb_refl.
  - assert (Hy : eqb y x = false) by (apply eqb_neq; intros ->; apply Hnotin; now left).
    rewrite Hy, IH; [reflexivity|]. intros Hin. apply Hnotin. now right.
Qed.

Lemma list_eqb_refl {A : Type} `{PyEq A} (l : list A) : list_eqb l l = true.
Proof. destruct (list_eqb_spec l l); congruence. Qed.

(** X1. A non-empty stop sequence passes the test against every list that
    holds it as a contiguous run, provided its first element does not occur
    before the run; in particular against itself and against every list it
    is a prefix of. *)
Theorem is_subsequence_accepts_first_run :
  forall (A : Type) (E : PyEq A) (x0 : A) (rest pre post : list A),
    ~ In x0 pre ->
    is_subsequence (x0 :: rest) (pre ++ (x0 :: rest) ++ post) = Ok true.
Proof.
  intros A E x0 rest pre post Hnotin. unfold is_subsequence.
  assert (Hlen : (length (pre ++ (x0 :: rest) ++ post) <? length (x0 :: rest)) = false).
  { apply Nat.ltb_ge. rewrite !length_app. lia. }
  rewrite Hlen. cbn [getitem nth_error bind].
  change ((x0 :: rest) ++ post) with (x0 :: (rest ++ post)).
  rewrite (index_app_first pre (rest ++ post) x0 Hnotin).
  assert (Hfit : (length (pre ++ x0 :: rest ++ post) <? length pre + length (x0 :: rest)) = false).
  { apply Nat.ltb_ge. rewrite length_app. simpl. rewrite length_app. lia. }
  rewrite Hfit. rewrite slice_run.
  rewrite skipn_app, skipn_all, Nat.sub_diag. cbn [skipn app].
  change (x0 :: rest ++ post) with ((x0 :: rest) ++ post).
  rewrite firstn_app, firstn_all, Nat.sub_diag. cbn [firstn]. rewrite app_nil_r.
  now rewrite list_eqb_refl.
Qed.

Lemma is_subsequence_accepts_first_run_witness :
  is_subsequence ["A"; "B"]%string
    (["X"%string] ++ ["A"%string; "B"%string] ++ ["D"%string]) = Ok true.
Proof.
  apply (is_subsequence_accepts_first_run string PyEq_string "A"%string ["B"%string]
           ["X"%string] ["D"%string]).
  simpl. intuition discriminate.
Defined.

(** X2. Only the alignment at the first occurrence of [smaller[0]] is
    tried: when [bigger] starts with that element followed by an element
    other than [smaller[1]], the answer is [False] whatever follows, also
    when [smaller] occurs as a contiguous run further on. *)
Theorem is_subsequence_misses_later_run :
  forall (A : Type) (E : PyEq A) (x a b : A) (rest tail : list A),
    a <> b ->
    is_subsequence (x :: a :: rest) (x :: b :: tail ++ x :: a :: rest) = Ok false.
Proof.
  intros A E x a b rest tail Hne. unfold is_subsequence.
  assert (Hlen : (length (x :: b :: tail ++ x :: a :: rest) <? length (x :: a :: rest)) = false).
  { apply Nat.ltb_ge. simpl. rewrite length_app. simpl. lia. }
  rewrite Hlen. cbn [getitem nth_error bind index]. rewrite eqb_refl.
  assert (Hfit : (length (x :: b :: tail ++ x :: a :: rest) <? 0 + length (x :: a :: rest)) = false).
  { apply Nat.ltb_ge. simpl. rewrite length_app. simpl. lia. }
  rewrite Hfit. unfold slice. cbn [skipn length Nat.add Nat.sub firstn list_eqb].
  rewrite eqb_refl. apply eqb_neq in Hne. rewrite Hne. reflexivity.
Qed.

Lemma is_subsequence_misses_later_run_witness :
  is_subsequence [1; 2]%Z (1 :: 3 :: [] ++ [1; 2])%Z = Ok false.
Proof.
  apply (is_subsequence_misses_later_run Z PyEq_Z 1 2 3 [] [])%Z. discriminate.
Defined.

(** X3. Two lists that pass the test against each other are equal, so two
    different stop sequences never contain one another. *)
Theorem is_subsequence_antisymmetric :
  forall (A : Type) (E : PyEq A) (a b : list A),
    is_subsequence a b = Ok true -> is_subsequence b a = Ok true -> a = b.
Proof.
  intros A E a b Hab Hba.
  assert (Hle : forall (s t : list A), is_subsequence s t = Ok true ->
                  length s <= length t /\
                  (length t <= length s -> s = t)).
  { intros s t. unfold is_subsequence.
    destruct (Nat.ltb_spec (length t) (length s)) as [Hlt|Hge]; [discriminate|].
    destruct (getitem s 0) as [x0|]; [|discriminate]. cbn [bind].
    destruct (index_result t x0) as [[start_pos Hix]|Hix]; rewrite Hix; [|discriminate].
    destruct (Nat.ltb_spec (length t) (start_pos + length s)) as [Hlt|Hfit]; [discriminate|].
    rewrite slice_run.
    destruct (list_eqb_spec s (firstn (length s) (skipn start_pos t))) as [Heq|Hneq];
      [|discriminate].
    intros _. split; [exact Hge|]. intros Hts.
    assert (start_pos = 0) by lia. subst start_pos. cbn [skipn] in Heq.
    rewrite Heq at 1. apply firstn_all2. lia. }
  destruct (Hle a b Hab) as [Hlab Heq]. destruct (Hle b a Hba) as [Hlba _]. auto.
Qed.

Lemma is_subsequence_antisymmetric_witness :
  ["A"; "B"]%string = ["A"; "B"]%string.
Proof.
  apply (is_subsequence_antisymmetric string PyEq_string ["A"; "B"]%string ["A"; "B"]%string);
    reflexivity.
Defined.

(** ** Service calendar, continued *)

Lemma add_service_wf (dates_map : dict date (list string)) (d : date) (s : string) :
  dict_wf dates_map -> dict_wf (add_service dates_map d s).
Proof.
  intros Hwf. unfold add_service.
  set (m := if dict_mem dates_map d then dates_map else dict_set dates_map d []).
  assert (Hm : dict_wf m) by (subst m; destruct (dict_mem dates_map d); auto using dict_wf_set).
  destruct (dict_get m d); auto using dict_wf_set.
Qed.

Lemma add_service_get (dates_map : dict date (list string)) (d d' : date) (s : string) :
  dict_get (add_service dates_map d s) d' =
  if eqb d d' then Some (or_nil (dict_get dates_map d) ++ [s]) else dict_get dates_map d'.
Proof.
  unfold add_service, dict_mem.
  destruct (dict_get dates_map d) as [l|] eqn:Hg.
  - rewrite Hg. destruct (eqb_spec d d') as [<-|Hne].
    + now rewrite dict_get_set_eq.
    + now rewrite dict_get_set_ne.
  - rewrite dict_get_set_eq. destruct (eqb_spec d d') as [<-|Hne].
    + now rewrite dict_get_set_eq.
    + now rewrite !dict_get_set_ne.
Qed.

Lemma fold_add_service_wf (dates : list date) (s : string) (dates_map : dict date (list string)) :
  dict_wf dates_map ->
  dict_wf (fold_left (fun m d => add_service m d s) dates dates_map).
Proof.
  revert dates_map. induction dates as [|d dates IH]; intros m Hwf; simpl; [exact Hwf|].
  apply IH. now apply add_service_wf.
Qed.

Lemma add_calendar_date_row_wf (dates_map : dict date (list string)) (row : calendar_date_row) :
  dict_wf dates_map -> dict_wf (add_calendar_date_row dates_map row).
Proof.
  intros Hwf. unfold add_calendar_date_row.
  set (m := if (exception_type row =? 1)%Z
            then add_service dates_map (cd_date row) (cd_service_id row) else dates_map).
  assert (Hm : dict_wf m)
    by (subst m; destruct (exception_type row =? 1)%Z; auto using add_service_wf).
  destruct (exception_type row =? 2)%Z; [|exact Hm].
  destruct (dict_get m (cd_date row)) as [l|]; [|exact Hm].
  destruct (contains l (cd_service_id row)); auto using dict_wf_set.
Qed.

(** Whatever the calendar and exception rows are, the mapping returned by
    [get_services_by_date] holds every date once. *)
Lemma get_services_by_date_wf :
  forall (calendar_df : list calendar_row) (calendar_dates_df : list calendar_date_row),
    dict_wf (get_services_by_date calendar_df calendar_dates_df).
Proof.
  intros calendar_df calendar_dates_df. unfold get_services_by_date.
  assert (Hcal : forall rows m, dict_wf m -> dict_wf (fold_left add_calendar_row rows m)).
  { induction rows as [|r rows IH]; intros m Hwf; simpl; [exact Hwf|].
    apply IH. unfold add_calendar_row. now apply fold_add_service_wf. }
  assert (Hexc : forall rows m, dict_wf m -> dict_wf (fold_left add_calendar_date_row rows m)).
  { induction rows as [|r rows IH]; intros m Hwf; simpl; [exact Hwf|].
    apply IH. now apply add_calendar_date_row_wf. }
  apply Hexc, Hcal. constructor.
Qed.

(** How often a service id is listed for a date. *)
Definition active_count (dates_map : dict date (list string)) (d : date) (s : string) : nat :=
  count_occ string_dec (or_nil (dict_get dates_map d)) s.

Lemma remove_first_count (l : list string) (s s' : string) :
  count_occ string_dec (remove_first l s) s' =
  if eqb s s' && contains l s then count_occ string_dec l s' - 1 else count_occ string_dec l s'.
Proof.
  induction l as [|y l IH]; cbn [remove_first contains count_occ].
  - now rewrite andb_false_r.
  - destruct (eqb_spec y s) as [Hys|Hys]; cbn [orb].
    + rewrite andb_true_r. subst y.
      destruct (eqb_spec s s') as [Hss'|Hss']; destruct (string_dec s s'); try congruence.
      lia.
    + cbn [count_occ]. rewrite IH.
      destruct (eqb_spec s s') as [Hss'|Hss']; cbn [andb]; [|reflexivity].
      subst s'. destruct (string_dec y s); [congruence|]. reflexivity.
Qed.

(** X4. An exception row of type 1 lists the service once more for its
    date, creating the date when the mapping does not have it (a service
    that is already active is listed twice), and changes nothing else. *)
Theorem exception_add_lists_service_once_more :
  forall (dates_map : dict date (list string)) (row : calendar_date_row),
    exception_type row = 1%Z ->
    dict_mem (add_calendar_date_row dates_map row) (cd_date row) = true /\
    forall d s,
      active_count (add_calendar_date_row dates_map row) d s =
      if eqb (cd_date row) d && eqb (cd_service_id row) s
      then S (active_count dates_map d s)
      else active_count dates_map d s.
Proof.
  intros dates_map row Htype. unfold add_calendar_date_row. rewrite Htype.
  cbn [Z.eqb Pos.eqb]. split.
  - unfold dict_mem. rewrite add_service_get, eqb_refl. reflexivity.
  - intros d s. unfold active_count. rewrite add_service_get.
    destruct (eqb_spec (cd_date row) d) as [<-|Hne]; cbn [andb or_nil]; [|reflexivity].
    rewrite count_occ_app. cbn [count_occ].
    destruct (eqb_spec (cd_service_id row) s) as [->|Hs].
    + destruct (string_dec s s); [lia | congruence].
    + destruct (string_dec (cd_service_id row) s); [congruence | lia].
Qed.

Lemma exception_add_lists_service_once_more_witness :
  let row := {| cd_date := mkdate 2020 1 5; cd_service_id := "A"; exception_type := 1 |} in
  let dates_map := [ (mkdate 2020 1 5, ["A"%string]) ] in
  dict_mem (add_calendar_date_row dates_map row) (cd_date row) = true /\
  forall d s,
    active_count (add_calendar_date_row dates_map row) d s =
    if eqb (cd_date row) d && eqb (cd_service_id row) s
    then S (active_count dates_map d s)
    else active_count dates_map d s.
Proof.
  intros row dates_map.
  apply (exception_add_lists_service_once_more dates_map row). reflexivity.
Defined.

(** X5. An exception row of type 2 drops one listing of the service from
    its date when the service is listed there, and changes nothing
    otherwise; it never removes a date, so a date whose only service is
    removed stays in the mapping with no service, and a date the mapping
    does not have is not created. *)
Theorem exception_remove_drops_one_listing :
  forall (dates_map : dict date (list string)) (row : calendar_date_row),
    exception_type row = 2%Z ->
    dict_keys (add_calendar_date_row dates_map row) = dict_keys dates_map /\
    forall d s,
      active_count (add_calendar_date_row dates_map row) d s =
      if eqb (cd_date row) d && eqb (cd_service_id row) s
      then active_count dates_map d s - 1
      else active_count dates_map d s.
Proof.
  intros dates_map row Htype. unfold add_calendar_date_row. rewrite Htype.
  cbn [Z.eqb Pos.eqb].
  destruct (dict_get dates_map (cd_date row)) as [l|] eqn:Hg.
  - destruct (contains l (cd_service_id row)) eqn:Hc.
    + split.
      * rewrite dict_keys_set. unfold dict_mem. now rewrite Hg.
      * intros d s. unfold active_count.
        destruct (eqb_spec (cd_date row) d) as [<-|Hne]; cbn [andb].
        -- rewrite dict_get_set_eq, Hg. cbn [or_nil]. rewrite remove_first_count, Hc.
           now rewrite andb_true_r.
        -- now rewrite dict_get_set_ne.
    + split; [reflexivity|]. intros d s. unfold active_count.
      destruct (eqb_spec (cd_date row) d) as [<-|Hne]; cbn [andb]; [|reflexivity].
      rewrite Hg. cbn [or_nil].
      destruct (eqb_spec (cd_service_id row) s) as [<-|Hs]; [|reflexivity].
      assert (Hz : count_occ string_dec l (cd_service_id row) = 0).
      { apply count_occ_not_In. intros Hin.
        assert (Hct : contains l (cd_service_id row) = true); [|congruence].
        clear Hc Hg. induction l as [|y l IH]; [destruct Hin|]. cbn [contains].
        destruct Hin as [->|Hin]; [now rewrite eqb_refl | rewrite IH by exact Hin].
        apply orb_true_r. }
      rewrite Hz. reflexivity.
  - split; [reflexivity|]. intros d s. unfold active_count.
    destruct (eqb_spec (cd_date row) d) as [<-|Hne]; cbn [andb]; [|reflexivity].
    rewrite Hg. cbn [or_nil count_occ]. now destruct (eqb (cd_service_id row) s).
Qed.

Lemma exception_remove_drops_one_listing_witness :
  let row := {| cd_date := mkdate 2020 1 5; cd_service_id := "A"; exception_type := 2 |} in
  let dates_map := [ (mkdate 2020 1 5, ["A"%string]) ] in
  dict_keys (add_calendar_date_row dates_map row) = dict_keys dates_map /\
  forall d s,
    active_count (add_calendar_date_row dates_map row) d s =
    if eqb (cd_date row) d && eqb (cd_service_id row) s
    then active_count dates_map d s - 1
    else active_count dates_map d s.
Proof.
  intros row dates_map.
  apply (exception_remove_drops_one_listing dates_map row). reflexivity.
Defined.

(** ** Date keys, continued *)

(** X6. For the mapping of any calendar, the date-key loop of
    [save_timetables] returns; it gives every date of the mapping a key and
    leaves the entries that an earlier run stored for other dates as they
    were. *)
Theorem date_keys_cover_calendar :
  forall (json : Type) (E : PyEq json) (json_dumps : list string -> json)
         (calendar_df : list calendar_row) (calendar_dates_df : list calendar_date_row)
         (date_keys0 : dict date string),
    let dates_map := get_services_by_date calendar_df calendar_dates_df in
    exists first date_keys,
      save_timetables_date_keys json_dumps dates_map date_keys0 = Ok (first, date_keys) /\
      (forall d, In d (dict_keys dates_map) -> dict_mem date_keys d = true) /\
      (forall d, ~ In d (dict_keys dates_map) -> dict_get date_keys d = dict_get date_keys0 d).
Proof.
  intros json E json_dumps calendar_df calendar_dates_df date_keys0 dates_map.
  destruct (date_keys_loop_spec json_dumps dates_map [] [] date_keys0)
    as (first & date_keys & Hrun & _ & Hframe & Hkeys); [reflexivity|].
  exists first, date_keys. split; [exact Hrun|]. split; [|exact Hframe].
  intros d Hin. apply in_map_iff in Hin. destruct Hin as ([d' s] & Hd & Hin).
  simpl in Hd. subst d'.
  destruct (Hkeys (get_services_by_date_wf calendar_df calendar_dates_df) d s Hin)
    as (d0 & _ & Hget).
  unfold dict_mem. now rewrite Hget.
Qed.

Lemma date_keys_loop_first_wf {json : Type} `{PyEq json} (json_dumps : list string -> json)
    (items : list (date * list string)) (first first' : dict json date)
    (date_keys date_keys' : dict date string) :
  dict_wf first ->
  date_keys_loop json_dumps items (first, date_keys) = Ok (first', date_keys') ->
  dict_wf first'.
Proof.
  revert first date_keys. induction items as [|[d s] items IH]; intros first date_keys Hwf;
    cbn [date_keys_loop date_keys_step].
  - now intros [= <- <-].
  - set (first1 := if negb (dict_mem first (json_dumps (sorted_strings s)))
                   then dict_set first (json_dumps (sorted_strings s)) d else first).
    assert (Hwf1 : dict_wf first1).
    { subst first1. destruct (negb _); auto using dict_wf_set. }
    destruct (dict_getitem first1 (json_dumps (sorted_strings s))) as [d0|]; [|discriminate].
    cbn [bind]. apply IH. exact Hwf1.
Qed.

(** X7. [first_date_for_service_ids_map], over which the timetables are
    written, holds every key once, and each of its entries pairs a date of
    the mapping with the JSON text of that date's sorted service ids: what
    [json.loads] reads back for a timetable is the sorted list of the
    services of the date that names it. *)
Theorem first_dates_name_their_services :
  forall (json : Type) (E : PyEq json)
         (json_dumps : list string -> json) (json_loads : json -> list string),
    (forall l : list string, json_loads (json_dumps l) = l) ->
    forall (dates_map : dict date (list string)) (date_keys0 : dict date string)
           (first : dict json date) (date_keys : dict date string),
      save_timetables_date_keys json_dumps dates_map date_keys0 = Ok (first, date_keys) ->
      dict_wf first /\
      forall service_ids_json d,
        In (service_ids_json, d) first ->
        exists service_ids,
          In (d, service_ids) dates_map /\
          json_loads service_ids_json = sorted_strings service_ids.
Proof.
  intros json E json_dumps json_loads Hrt dates_map date_keys0 first date_keys Hrun.
  unfold save_timetables_date_keys in Hrun.
  assert (Hwf : dict_wf first).
  { eapply date_keys_loop_first_wf; [|exact Hrun]. constructor. }
  split; [exact Hwf|]. intros k d Hin.
  destruct (date_keys_loop_spec json_dumps dates_map [] [] date_keys0)
    as (first' & date_keys' & Hrun' & Hfirst & _); [reflexivity|].
  pose proof (eq_trans (eq_sym Hrun') Hrun) as Heq. injection Heq as -> ->.
  pose proof (dict_wf_In_get _ _ _ Hwf Hin) as Hget. rewrite Hfirst in Hget. simpl in Hget.
  destruct (first_date_with_In json_dumps _ _ _ Hget) as (pre & s & post & Hsplit & Hk & _).
  exists s. split; [rewrite Hsplit; apply in_elt|]. now rewrite <- Hk, Hrt.
Qed.

Lemma first_dates_name_their_services_witness :
  let dates_map : dict date (list string) :=
    [ (mkdate 2020 1 6, ["B"; "A"]%string);
      (mkdate 2020 1 7, ["A"; "B"]%string);
      (mkdate 2020 1 11, ["S"]%string) ] in
  let first := [ (["A"; "B"]%string, mkdate 2020 1 6); (["S"]%string, mkdate 2020 1 11) ] in
  dict_wf first /\
  forall service_ids_json d,
    In (service_ids_json, d) first ->
    exists service_ids,
      In (d, service_ids) dates_map /\ service_ids_json = sorted_strings service_ids.
Proof.
  intros dates_map first.
  apply (first_dates_name_their_services (list string) PyEq_list
           (fun l : list string => l) (fun l : list string => l) (fun l => eq_refl)
           dates_map [] first
           [ (mkdate 2020 1 6, "2020-01-06"%string); (mkdate 2020 1 7, "2020-01-06"%string);
             (mkdate 2020 1 11, "2020-01-11"%string) ]).
  vm_compute. reflexivity.
Defined.

(** ** Scheduled arrivals, continued *)

(** X8. [get_stop_times_for_trip] returns the stop time rows of the trip,
    in the order of the feed, and raises [KeyError] for a trip that has no
    stop time row. *)
Theorem get_stop_times_for_trip_rows :
  forall (self : GtfsScraper) (the_trip_id : string),
    get_stop_times_for_trip self the_trip_id =
    if existsb (fun st => eqb (st_trip_id st) the_trip_id) (feed_stop_times self)
    then Ok (filter (fun st => eqb (st_trip_id st) the_trip_id) (feed_stop_times self))
    else Raise KeyError.
Proof.
  intros self tid. unfold get_stop_times_for_trip, dict_getitem.
  destruct (existsb _ _) eqn:Hex.
  - apply existsb_exists in Hex. destruct Hex as (st & Hin & Heq).
    apply eqb_eq in Heq. subst tid.
    now rewrite (groupby_get st_trip_id _ st Hin).
  - assert (Hnone : dict_get (groupby st_trip_id (feed_stop_times self)) tid = None);
      [|now rewrite Hnone].
    apply dict_get_None. unfold groupby, dict_keys. rewrite map_map. cbn [fst].
    rewrite map_id. intros Hin. apply (proj1 (np_unique_In _ _)) in Hin.
    apply in_map_iff in Hin. destruct Hin as (st & Hst & Hin).
    assert (Htrue : existsb (fun st => eqb (st_trip_id st) tid) (feed_stop_times self) = true);
      [|congruence].
    apply existsb_exists. exists st. split; [exact Hin | now apply eqb_eq].
Qed.

(** What a successful iteration of the loop over the trips has done. *)
Lemma trips_step_inv (self : GtfsScraper) (gmap : dict string dir_info)
    (abd abd' : dict string (dict string (list arrival)))
    (m m' : dict string Z) (next next' : Z) (tr : trip) :
  trips_step self gmap (abd, m, next) tr = Ok (abd', m', next') ->
  exists sts trip_int di da da',
    get_stop_times_for_trip self (trip_id tr) = Ok sts /\
    (forall t n, dict_get m t = Some n -> dict_get m' t = Some n) /\
    dict_get m' (trip_id tr) = Some trip_int /\
    dict_get gmap (direction_id tr) = Some di /\
    dict_get abd (dir_id di) = Some da /\
    stop_times_loop self sts trip_int da = Ok da' /\
    abd' = dict_set abd (dir_id di) da'.
Proof.
  unfold trips_step.
  destruct (get_stop_times_for_trip self (trip_id tr)) as [sts|]; [|discriminate].
  cbn [bind].
  set (upd := if negb (dict_mem m (trip_id tr))
              then (dict_set m (trip_id tr) next, (next + 1)%Z) else (m, next)).
  assert (Hupd : (forall t n, dict_get m t = Some n -> dict_get (fst upd) t = Some n)).
  { subst upd. unfold dict_mem. destruct (dict_get m (trip_id tr)) eqn:Hg; simpl; [auto|].
    intros t n Ht. rewrite dict_get_set_ne; [exact Ht | congruence]. }
  destruct upd as [m1 next1]. cbn [fst] in Hupd.
  unfold dict_getitem.
  destruct (dict_get m1 (trip_id tr)) as [trip_int|] eqn:Hint; [|discriminate]. cbn [bind].
  destruct (dict_get gmap (direction_id tr)) as [di|] eqn:Hdi; [|discriminate]. cbn [bind].
  destruct (dict_get abd (dir_id di)) as [da|] eqn:Hda; [|discriminate]. cbn [bind].
  destruct (stop_times_loop self sts trip_int da) as [da'|] eqn:Hloop; [|discriminate].
  cbn [bind]. intros [= <- <- <-].
  exists sts, trip_int, di, da, da'. repeat split; auto.
Qed.

Lemma dict_keys_set_present {K V : Type} `{PyEq K} (d : dict K V) (k : K) (v v' : V) :
  dict_get d k = Some v -> dict_keys (dict_set d k v') = dict_keys d.
Proof. intros Hg. rewrite dict_keys_set. unfold dict_mem. now rewrite Hg. Qed.

Lemma trips_loop_keys (self : GtfsScraper) (gmap : dict string dir_info)
    (trips : list trip) (abd abd' : dict string (dict string (list arrival)))
    (m m' : dict string Z) (next next' : Z) :
  trips_loop self gmap trips (abd, m, next) = Ok (abd', m', next') ->
  dict_keys abd' = dict_keys abd.
Proof.
  revert abd m next. induction trips as [|tr rest IH]; intros abd m next; cbn [trips_loop].
  - now intros [= <- <- <-].
  - destruct (trips_step self gmap (abd, m, next) tr) as [[[abd1 m1] next1]|] eqn:Hstep;
      [|discriminate].
    cbn [bind]. intros Hrun. rewrite (IH _ _ _ Hrun).
    destruct (trips_step_inv _ _ _ _ _ _ _ _ _ Hstep)
      as (sts & n & di & da & da' & _ & _ & _ & _ & Hda & _ & ->).
    eapply dict_keys_set_present; eauto.
Qed.

Lemma direction_maps_keys (infos : list dir_info)
    (gmap gmap' : dict string dir_info)
    (abd abd' : dict string (dict string (list arrival))) :
  fold_left direction_maps_step infos (gmap, abd) = (gmap', abd') ->
  forall k, In k (dict_keys abd') <-> In k (dict_keys abd) \/ In k (map dir_id infos).
Proof.
  revert gmap abd. induction infos as [|di infos IH]; intros gmap abd;
    cbn [fold_left direction_maps_step].
  - intros [= <- <-] k. simpl. tauto.
  - intros Hfold k. rewrite (IH _ _ Hfold k), dict_keys_set. cbn [map In].
    destruct (dict_mem abd (dir_id di)) eqn:Hm.
    + unfold dict_mem in Hm. destruct (dict_get abd (dir_id di)) eqn:Hg; [|discriminate].
      assert (Hin : In (dir_id di) (dict_keys abd)).
      { destruct (In_dec string_dec (dir_id di) (dict_keys abd)) as [Hin|Hout]; [exact Hin|].
        apply dict_get_None in Hout. congruence. }
      split; [tauto|]. intros [Hk|[<-|Hk]]; tauto.
    + rewrite in_app_iff. simpl. tauto.
Qed.

(** X9. The dict returned by [get_scheduled_arrivals_by_service_id] has
    one entry for each direction id of the route config and no other: a
    direction without trips is there with no stop. *)
Theorem arrivals_have_every_direction :
  forall (self : GtfsScraper) (service_id : string) (route_config : route_config)
         (service_route_trips : list trip) (m m' : dict string Z)
         (arrivals : dict string (dict string (list arrival))),
    get_scheduled_arrivals_by_service_id self service_id route_config service_route_trips m
      = Ok (arrivals, m') ->
    forall dir, In dir (dict_keys arrivals) <->
                In dir (map dir_id (get_direction_infos route_config)).
Proof.
  intros self sid rc trips m m' arrivals. unfold get_scheduled_arrivals_by_service_id.
  destruct (initial_next_trip_int m) as [next|]; [|discriminate]. cbn [bind].
  destruct (fold_left direction_maps_step (get_direction_infos rc) ([], []))
    as [gmap abd] eqn:Hfold.
  destruct (trips_loop self gmap trips (abd, m, next)) as [[[abd1 m1] next1]|] eqn:Hloop;
    [|discriminate].
  cbn [bind]. intros [= <- <-] dir.
  rewrite (trips_loop_keys _ _ _ _ _ _ _ _ _ Hloop).
  rewrite (direction_maps_keys _ _ _ _ _ Hfold dir). simpl. tauto.
Qed.

Lemma arrivals_have_every_direction_witness :
  In "1"%string
     (dict_keys
        [ ("0"%string, [ ("s1"%string, [ {| arr_t := 32400; arr_i := 1; arr_e := None |} ]) ]);
          ("1"%string, []) ]) <->
  In "1"%string (map dir_id (get_direction_infos example_route_config)).
Proof.
  apply (arrivals_have_every_direction example_scraper "WKD" example_route_config
           [ {| trip_id := "T3"; route_id := "R"; service_id := "WKD"; direction_id := "0";
                shape_id := "a" |} ] [] [ ("T3"%string, 1%Z) ]).
  vm_compute. reflexivity.
Defined.

Lemma get_stop_times_for_trip_Ok (self : GtfsScraper) (the_trip_id : string)
    (sts : list stop_time) :
  get_stop_times_for_trip self the_trip_id = Ok sts ->
  sts <> [] /\
  forall st, In st sts <-> In st (feed_stop_times self) /\ st_trip_id st = the_trip_id.
Proof.
  unfold get_stop_times_for_trip, dict_getitem.
  destruct (dict_get _ the_trip_id) as [rows|] eqn:Hg; [|discriminate].
  intros [= <-]. apply dict_get_In in Hg. unfold groupby in Hg.
  apply in_map_iff in Hg. destruct Hg as (k & [= <- <-] & Hk).
  apply (proj1 (np_unique_In _ _)) in Hk. apply in_map_iff in Hk.
  destruct Hk as (st0 & Hst0 & Hin0).
  assert (Hiff : forall st,
             In st (filter (fun row => eqb (st_trip_id row) k) (feed_stop_times self)) <->
             In st (feed_stop_times self) /\ st_trip_id st = k).
  { intros st. rewrite filter_In, eqb_eq. tauto. }
  split; [|exact Hiff].
  intros Hnil. assert (Hin : In st0 []); [|destruct Hin].
  rewrite <- Hnil. apply Hiff. auto.
Qed.

Lemma direction_maps_entries (infos : list dir_info)
    (gmap gmap' : dict string dir_info)
    (abd abd' : dict string (dict string (list arrival))) :
  fold_left direction_maps_step infos (gmap, abd) = (gmap', abd') ->
  (forall g di, dict_get gmap' g = Some di ->
     dict_get gmap g = Some di \/ (In di infos /\ gtfs_direction_id di = g)) /\
  (forall dir stops, dict_get abd' dir = Some stops ->
     dict_get abd dir = Some stops \/ stops = []).
Proof.
  revert gmap abd. induction infos as [|di0 infos IH]; intros gmap abd;
    cbn [fold_left direction_maps_step].
  - intros [= <- <-]. split; auto.
  - intros Hfold. destruct (IH _ _ Hfold) as [Hg Ha]. split.
    + intros g di Hget. destruct (Hg g di Hget) as [Hold|[Hin Heq]].
      * destruct (eqb_spec (gtfs_direction_id di0) g) as [<-|Hne].
        -- rewrite dict_get_set_eq in Hold. injection Hold as <-. right. split; [now left | auto].
        -- rewrite dict_get_set_ne in Hold by exact Hne. now left.
      * right. split; [now right | exact Heq].
    + intros dir stops Hget. destruct (Ha dir stops Hget) as [Hold|Hnil]; [|now right].
      destruct (eqb_spec (dir_id di0) dir) as [<-|Hne].
      * rewrite dict_get_set_eq in Hold. injection Hold as <-. now right.
      * rewrite dict_get_set_ne in Hold by exact Hne. now left.
Qed.

Lemma trips_loop_needs (self : GtfsScraper) (gmap : dict string dir_info)
    (trips : list trip) (st st' : trips_state) :
  trips_loop self gmap trips st = Ok st' ->
  forall tr, In tr trips ->
    (exists row, In row (feed_stop_times self) /\ st_trip_id row = trip_id tr) /\
    (exists di, dict_get gmap (direction_id tr) = Some di).
Proof.
  revert st. induction trips as [|tr0 rest IH]; intros st; cbn [trips_loop].
  - intros _ tr [].
  - destruct st as [[abd m] next].
    destruct (trips_step self gmap (abd, m, next) tr0) as [[[abd1 m1] next1]|] eqn:Hstep;
      [|discriminate].
    cbn [bind]. intros Hrun tr [<-|Hin]; [|eapply IH; eauto].
    destruct (trips_step_inv _ _ _ _ _ _ _ _ _ Hstep)
      as (sts & n & di & da & da' & Hsts & _ & _ & Hdi & _).
    split; [|eauto].
    destruct (get_stop_times_for_trip_Ok _ _ _ Hsts) as [Hne Hrows].
    destruct sts as [|row sts]; [congruence|].
    exists row. apply Hrows. now left.
Qed.

(** X10. [get_scheduled_arrivals_by_service_id] returns only if every trip
    it is given has a stop time row and a direction id that some direction
    of the route config carries; a trip that lacks either makes the whole
    call raise. *)
Theorem scheduled_arrivals_need_stop_times_and_direction :
  forall (self : GtfsScraper) (service_id : string) (route_config : route_config)
         (service_route_trips : list trip) (m : dict string Z)
         (r : dict string (dict string (list arrival)) * dict string Z),
    get_scheduled_arrivals_by_service_id self service_id route_config service_route_trips m
      = Ok r ->
    forall tr, In tr service_route_trips ->
      (exists row, In row (feed_stop_times self) /\ st_trip_id row = trip_id tr) /\
      (exists di, In di (get_direction_infos route_config) /\
                  gtfs_direction_id di = direction_id tr).
Proof.
  intros self sid rc trips m r. unfold get_scheduled_arrivals_by_service_id.
  destruct (initial_next_trip_int m) as [next|]; [|discriminate]. cbn [bind].
  destruct (fold_left direction_maps_step (get_direction_infos rc) ([], []))
    as [gmap abd] eqn:Hfold.
  destruct (trips_loop self gmap trips (abd, m, next)) as [st'|] eqn:Hloop; [|discriminate].
  intros _ tr Hin.
  destruct (trips_loop_needs _ _ _ _ _ Hloop tr Hin) as [Hrow [di Hdi]].
  split; [exact Hrow|].
  destruct (proj1 (direction_maps_entries _ _ _ _ _ Hfold) _ _ Hdi) as [Hold|[Hi Hg]];
    [discriminate | eauto].
Qed.

Lemma scheduled_arrivals_need_stop_times_and_direction_witness :
  let tr := {| trip_id := "T2"; route_id := "R"; service_id := "SAT"; direction_id := "1";
               shape_id := "b" |} in
  (exists row, In row (feed_stop_times example_scraper) /\ st_trip_id row = trip_id tr) /\
  (exists di, In di (get_direction_infos example_route_config) /\
              gtfs_direction_id di = direction_id tr).
Proof.
  intros tr.
  eapply (scheduled_arrivals_need_stop_times_and_direction example_scraper "SAT"
            example_route_config
            (filter (fun tr => eqb (service_id tr) "SAT"%string) example_route_trips) []).
  - vm_compute. reflexivity.
  - cbn. right. now left.
Defined.

Lemma stop_times_loop_events (self : GtfsScraper) (sts : list stop_time) (trip_int : Z)
    (da da' : dict string (list arrival)) :
  stop_times_loop self sts trip_int da = Ok da' ->
  forall stop l e, dict_get da' stop = Some l -> In e l ->
    (exists l0, dict_get da stop = Some l0 /\ In e l0) \/
    (exists st, In st sts /\
                arr_t e = arrival_time st /\ arr_i e = trip_int /\
                arr_e e = if (departure_time st =? arrival_time st)%Z
                          then None else Some (departure_time st)).
Proof.
  revert da. induction sts as [|st rest IH]; intros da; cbn [stop_times_loop].
  - intros [= <-] stop l e Hget Hin. left. eauto.
  - destruct (normalize_gtfs_stop_id self (st_stop_id st)) as [sid|]; [|discriminate].
    cbn [bind].
    set (da0 := if negb (dict_mem da sid) then dict_set da sid [] else da).
    assert (Hda0 : forall k l, dict_get da0 k = Some l ->
                     dict_get da k = Some l \/ l = []).
    { intros k l Hk. subst da0. destruct (negb (dict_mem da sid)); [|now left].
      destruct (eqb_spec sid k) as [<-|Hne].
      - rewrite dict_get_set_eq in Hk. injection Hk as <-. now right.
      - rewrite dict_get_set_ne in Hk by exact Hne. now left. }
    unfold dict_getitem. destruct (dict_get da0 sid) as [l0|] eqn:Hl0; [|discriminate].
    cbn [bind]. intros Hrun stop l e Hget Hin.
    destruct (IH _ Hrun stop l e Hget Hin) as [(l1 & Hl1 & Hin1)|(st' & Hst' & Hf)].
    + destruct (eqb_spec sid stop) as [<-|Hne].
      * rewrite dict_get_set_eq in Hl1. injection Hl1 as <-.
        apply in_app_or in Hin1. destruct Hin1 as [Hold|[<-|[]]].
        -- destruct (Hda0 _ _ Hl0) as [Hd| ->]; [left; eauto | destruct Hold].
        -- right. exists st. split; [now left|]. cbn [arr_t arr_i arr_e].
           repeat split. now destruct (departure_time st =? arrival_time st)%Z.
      * rewrite dict_get_set_ne in Hl1 by exact Hne.
        destruct (Hda0 _ _ Hl1) as [Hd| ->]; [left; eauto | destruct Hin1].
    + right. exists st'. split; [now right | exact Hf].
Qed.

(** Every event of [abd] comes from a stop time row of a trip in [T] whose
    integer [m] holds. *)
Definition events_from (self : GtfsScraper) (T : trip -> Prop) (m : dict string Z)
    (abd : dict string (dict string (list arrival))) : Prop :=
  forall dir stop l e, dict_get2 abd dir stop = Some l -> In e l ->
    exists tr st,
      T tr /\ In st (feed_stop_times self) /\ st_trip_id st = trip_id tr /\
      dict_get m (trip_id tr) = Some (arr_i e) /\
      arr_t e = arrival_time st /\
      arr_e e = if (departure_time st =? arrival_time st)%Z
                then None else Some (departure_time st).

Lemma trips_loop_events (self : GtfsScraper) (gmap : dict string dir_info)
    (T : trip -> Prop) (trips : list trip)
    (abd abd' : dict string (dict string (list arrival)))
    (m m' : dict string Z) (next next' : Z) :
  (forall tr, In tr trips -> T tr) ->
  events_from self T m abd ->
  trips_loop self gmap trips (abd, m, next) = Ok (abd', m', next') ->
  events_from self T m' abd'.
Proof.
  revert abd m next. induction trips as [|tr0 rest IH]; intros abd m next HT Hinv;
    cbn [trips_loop].
  - now intros [= <- <- <-].
  - destruct (trips_step self gmap (abd, m, next) tr0) as [[[abd1 m1] next1]|] eqn:Hstep;
      [|discriminate].
    cbn [bind]. apply IH; [intros tr Hin; apply HT; now right|].
    destruct (trips_step_inv _ _ _ _ _ _ _ _ _ Hstep)
      as (sts & n & di & da & da' & Hsts & Hext & Hint & Hdi & Hda & Hloop & ->).
    destruct (get_stop_times_for_trip_Ok _ _ _ Hsts) as [_ Hrows].
    intros dir stop l e Hget Hin. unfold dict_get2 in Hget.
    assert (Hold : forall dir0 l0, dict_get2 abd dir0 stop = Some l0 -> In e l0 ->
              exists tr st,
                T tr /\ In st (feed_stop_times self) /\ st_trip_id st = trip_id tr /\
                dict_get m1 (trip_id tr) = Some (arr_i e) /\
                arr_t e = arrival_time st /\
                arr_e e = if (departure_time st =? arrival_time st)%Z
                          then None else Some (departure_time st)).
    { intros dir0 l0 Hg0 Hin0.
      destruct (Hinv dir0 stop l0 e Hg0 Hin0) as (tr & st & HTtr & Hst & Htid & Hm & Hf).
      exists tr, st. split; [exact HTtr|]. split; [exact Hst|]. split; [exact Htid|].
      split; [apply Hext; exact Hm | exact Hf]. }
    destruct (eqb_spec (dir_id di) dir) as [<-|Hne].
    + rewrite dict_get_set_eq in Hget.
      destruct (stop_times_loop_events _ _ _ _ _ Hloop stop l e Hget Hin)
        as [(l0 & Hl0 & Hin0)|(st & Hst & Ht & Hi & He)].
      * apply (Hold (dir_id di) l0); [unfold dict_get2; now rewrite Hda | exact Hin0].
      * apply Hrows in Hst. destruct Hst as [Hfeed Htid].
        exists tr0, st. split; [apply HT; now left|]. split; [exact Hfeed|].
        split; [exact Htid|]. split; [rewrite Hi; exact Hint|]. split; [exact Ht | exact He].
    + rewrite dict_get_set_ne in Hget by exact Hne.
      apply (Hold dir l); [exact Hget | exact Hin].
Qed.

(** X11. Every event that [get_scheduled_arrivals_by_service_id] returns
    comes from a stop time row of one of the trips it was given: ['t'] is
    the row's arrival time, ['i'] is the integer that the returned
    [trip_ids_map] holds for the trip, and ['e'] is the row's departure time,
    present exactly when it differs from the arrival time. *)
Theorem events_come_from_stop_times :
  forall (self : GtfsScraper) (service_id : string) (route_config : route_config)
         (service_route_trips : list trip) (m m' : dict string Z)
         (arrivals : dict string (dict string (list arrival))),
    get_scheduled_arrivals_by_service_id self service_id route_config service_route_trips m
      = Ok (arrivals, m') ->
    forall dir stop l e, dict_get2 arrivals dir stop = Some l -> In e l ->
      exists tr st,
        In tr service_route_trips /\
        In st (feed_stop_times self) /\ st_trip_id st = trip_id tr /\
        dict_get m' (trip_id tr) = Some (arr_i e) /\
        arr_t e = arrival_time st /\
        arr_e e = if (departure_time st =? arrival_time st)%Z
                  then None else Some (departure_time st).
Proof.
  intros self sid rc trips m m' arrivals. unfold get_scheduled_arrivals_by_service_id.
  destruct (initial_next_trip_int m) as [next|]; [|discriminate]. cbn [bind].
  destruct (fold_left direction_maps_step (get_direction_infos rc) ([], []))
    as [gmap abd] eqn:Hfold.
  destruct (trips_loop self gmap trips (abd, m, next)) as [[[abd1 m1] next1]|] eqn:Hloop;
    [|discriminate].
  cbn [bind]. intros [= <- <-].
  apply (trips_loop_events self gmap (fun tr => In tr trips) trips abd abd1 m m1 next next1);
    [auto | | exact Hloop].
  intros dir stop l e Hget Hin. unfold dict_get2 in Hget.
  destruct (dict_get abd dir) as [stops|] eqn:Hd; [|discriminate].
  destruct (proj2 (direction_maps_entries _ _ _ _ _ Hfold) _ _ Hd) as [Hold| ->];
    discriminate.
Qed.

Lemma events_come_from_stop_times_witness :
  let trips := [ {| trip_id := "T1"; route_id := "R"; service_id := "SAT"; direction_id := "0";
                    shape_id := "a" |} ] in
  let e := {| arr_t := 29100; arr_i := 1; arr_e := Some 29160%Z |} in
  exists tr st,
    In tr trips /\
    In st (feed_stop_times example_scraper) /\ st_trip_id st = trip_id tr /\
    dict_get [ ("T1"%string, 1%Z) ] (trip_id tr) = Some (arr_i e) /\
    arr_t e = arrival_time st /\
    arr_e e = if (departure_time st =? arrival_time st)%Z
              then None else Some (departure_time st).
Proof.
  intros trips e.
  apply (events_come_from_stop_times example_scraper "SAT" example_route_config
           trips [] [ ("T1"%string, 1%Z) ]
           [ ("0"%string,
              [ ("s1"%string, [ {| arr_t := 28800; arr_i := 1; arr_e := None |} ]);
                ("s2"%string, [ e ]) ]);
             ("1"%string, []) ]
           ltac:(vm_compute; reflexivity) "0"%string "s2"%string [e]).
  - vm_compute. reflexivity.
  - now left.
Defined.

Lemma direction_maps_last (infos : list dir_info)
    (gmap gmap' : dict string dir_info)
    (abd abd' : dict string (dict string (list arrival))) :
  fold_left direction_maps_step infos (gmap, abd) = (gmap', abd') ->
  forall g di, dict_get gmap' g = Some di ->
    (In di infos /\ gtfs_direction_id di = g) \/
    (dict_get gmap g = Some di /\ forall d, In d infos -> gtfs_direction_id d <> g).
Proof.
  revert gmap abd. induction infos as [|d0 infos IH]; intros gmap abd;
    cbn [fold_left direction_maps_step].
  - intros [= <- <-] g di Hget. right. split; [exact Hget | intros d []].
  - intros Hfold g di Hget.
    destruct (IH _ _ Hfold g di Hget) as [[Hin Hg]|[Hold Hnone]].
    + left. split; [now right | exact Hg].
    + destruct (eqb_spec (gtfs_direction_id d0) g) as [Heq|Hne].
      * rewrite <- Heq in Hold. rewrite dict_get_set_eq in Hold. injection Hold as <-.
        left. split; [now left | exact Heq].
      * rewrite dict_get_set_ne in Hold by exact Hne. right. split; [exact Hold|].
        intros d [<-|Hin]; auto.
Qed.

Lemma direction_maps_empty (infos : list dir_info)
    (gmap gmap' : dict string dir_info)
    (abd abd' : dict string (dict string (list arrival))) (k : string) :
  fold_left direction_maps_step infos (gmap, abd) = (gmap', abd') ->
  dict_get abd k = Some [] \/ In k (map dir_id infos) ->
  dict_get abd' k = Some [].
Proof.
  revert gmap abd. induction infos as [|d0 infos IH]; intros gmap abd;
    cbn [fold_left direction_maps_step map].
  - intros [= <- <-] [H|[]]. exact H.
  - intros Hfold Hk. apply (IH _ _ Hfold).
    destruct (eqb_spec (dir_id d0) k) as [<-|Hne].
    + left. apply dict_get_set_eq.
    + destruct Hk as [H|[H|H]]; [left | contradiction | now right].
      now rewrite dict_get_set_ne.
Qed.

Lemma trips_loop_untouched (self : GtfsScraper) (gmap : dict string dir_info)
    (k : string) (trips : list trip)
    (abd abd' : dict string (dict string (list arrival)))
    (m m' : dict string Z) (next next' : Z) :
  (forall g di, dict_get gmap g = Some di -> dir_id di <> k) ->
  trips_loop self gmap trips (abd, m, next) = Ok (abd', m', next') ->
  dict_get abd' k = dict_get abd k.
Proof.
  intros Hk. revert abd m next.
  induction trips as [|tr0 rest IH]; intros abd m next; cbn [trips_loop].
  - now intros [= <- <- <-].
  - destruct (trips_step self gmap (abd, m, next) tr0) as [[[abd1 m1] next1]|] eqn:Hstep;
      [|discriminate].
    cbn [bind]. intros Hrun. rewrite (IH _ _ _ Hrun).
    destruct (trips_step_inv _ _ _ _ _ _ _ _ _ Hstep)
      as (sts & n & di & da & da' & _ & _ & _ & Hdi & _ & _ & ->).
    apply dict_get_set_ne. exact (Hk _ _ Hdi).
Qed.

(** X12. The trips of a call are filed by GTFS direction id, and the table
    from GTFS direction id to direction keeps the last direction of the
    route config for each id.  So when the directions have distinct ids and
    a later direction has the same GTFS direction id as an earlier one, the
    earlier direction is returned with no arrivals at all, whatever the
    trips are. *)
Theorem shadowed_direction_stays_empty :
  forall (self : GtfsScraper) (service_id : string) (route_config : route_config)
         (service_route_trips : list trip) (m m' : dict string Z)
         (arrivals : dict string (dict string (list arrival)))
         (pre post : list dir_info) (d1 d2 : dir_info),
    get_direction_infos route_config = pre ++ d1 :: post ->
    NoDup (map dir_id (get_direction_infos route_config)) ->
    In d2 post ->
    gtfs_direction_id d2 = gtfs_direction_id d1 ->
    get_scheduled_arrivals_by_service_id self service_id route_config service_route_trips m
      = Ok (arrivals, m') ->
    dict_get arrivals (dir_id d1) = Some [].
Proof.
  intros self sid rc trips m m' arrivals pre post d1 d2 Hinfos Hnodup Hd2 Hsame.
  unfold get_scheduled_arrivals_by_service_id.
  destruct (initial_next_trip_int m) as [next|]; [|discriminate]. cbn [bind].
  destruct (fold_left direction_maps_step (get_direction_infos rc) ([], []))
    as [gmap abd] eqn:Hfold.
  destruct (trips_loop self gmap trips (abd, m, next)) as [[[abd1 m1] next1]|] eqn:Hloop;
    [|discriminate].
  cbn [bind]. intros [= <- <-].
  assert (Hinit : dict_get abd (dir_id d1) = Some []).
  { apply (direction_maps_empty _ _ _ _ _ _ Hfold). right.
    rewrite Hinfos, map_app. apply in_or_app. right. now left. }
  rewrite <- Hinit. apply (trips_loop_untouched _ _ _ _ _ _ _ _ _ _ ) with (2 := Hloop).
  intros g di Hdi Heq.
  rewrite Hinfos, map_app in Hnodup. cbn [map] in Hnodup.
  apply NoDup_remove_2 in Hnodup.
  rewrite Hinfos in Hfold.
  replace (pre ++ d1 :: post) with ((pre ++ [d1]) ++ post) in Hfold
    by (now rewrite <- app_assoc).
  rewrite fold_left_app in Hfold.
  destruct (fold_left direction_maps_step (pre ++ [d1]) ([], [])) as [gmid amid] eqn:Hmid.
  destruct (direction_maps_last _ _ _ _ _ Hfold g di Hdi) as [[Hin _]|[Hold Hnone]].
  - apply Hnodup. apply in_or_app. right. rewrite <- Heq. now apply in_map.
  - destruct (proj1 (direction_maps_entries _ _ _ _ _ Hmid) _ _ Hold) as [Hnil|[Hin Hg]];
      [discriminate|].
    apply in_app_or in Hin. destruct Hin as [Hin|[<-|[]]].
    + apply Hnodup. apply in_or_app. left. rewrite <- Heq. now apply in_map.
    + apply (Hnone d2 Hd2). congruence.
Qed.

Lemma shadowed_direction_stays_empty_witness :
  dict_get
    [ ("in"%string, []);
      ("in_short"%string,
       [ ("s1"%string, [ {| arr_t := 28800; arr_i := 1; arr_e := None |} ]);
         ("s2"%string, [ {| arr_t := 29100; arr_i := 1; arr_e := Some 29160%Z |} ]) ]) ]
    "in"%string = Some [].
Proof.
  apply (shadowed_direction_stays_empty example_scraper "SAT"
           {| rc_id := "R";
              get_direction_infos :=
                [ {| dir_id := "in"; gtfs_direction_id := "0" |};
                  {| dir_id := "in_short"; gtfs_direction_id := "0" |} ] |}
           [ {| trip_id := "T1"; route_id := "R"; service_id := "SAT"; direction_id := "0";
                shape_id := "a" |} ]
           [] [ ("T1"%string, 1%Z) ] _ []
           [ {| dir_id := "in_short"; gtfs_direction_id := "0" |} ]
           {| dir_id := "in"; gtfs_direction_id := "0" |}
           {| dir_id := "in_short"; gtfs_direction_id := "0" |}).
  - reflexivity.
  - repeat constructor; cbn; intuition discriminate.
  - now left.
  - reflexivity.
  - vm_compute. reflexivity.
Defined.

(* ------------------------------------------------------------------ *)
(** ** Projecting a stop on a shape                                    *)
(* ------------------------------------------------------------------ *)

Lemma Qltb_lt (a b : Q) : Qltb a b = true <-> (a < b)%Q.
Proof.
  unfold Qltb. rewrite negb_true_iff. split.
  - intros Hb. apply Qnot_le_lt. intros Hle. apply Qle_bool_iff in Hle. congruence.
  - intros Hlt. destruct (Qle_bool b a) eqn:Hb; [|reflexivity].
    apply Qle_bool_iff in Hb. exfalso. exact (Qlt_not_le _ _ Hlt Hb).
Qed.

Lemma Qltb_ge (a b : Q) : Qltb a b = false <-> (b <= a)%Q.
Proof.
  unfold Qltb. rewrite negb_false_iff. apply Qle_bool_iff.
Qed.

Section StopProjection.

Variable line_distance : line -> point -> Q.
Variable point_distance : point -> point -> Q.

(** What the scan leaves: the candidate it was given, or a segment it
    visited that is strictly nearer than that candidate and than every
    segment visited before it.  A result not below 50 is a minimum over all
    the segments, since the scan then never stops early. *)
Lemma scan_lines_nearest (lines : list line) (stop_xy : point) (shape_index : nat)
    (best_offset : Q) (best_index : nat) (best_offset' : Q) (best_index' : nat) :
  scan_lines line_distance lines stop_xy shape_index best_offset best_index
    = (best_offset', best_index') ->
  ((best_offset' = best_offset /\ best_index' = best_index) \/
   (exists i shape_line,
      best_index' = shape_index + i /\
      nth_error lines i = Some shape_line /\
      best_offset' = line_distance shape_line stop_xy /\
      (best_offset' < best_offset)%Q /\
      forall j l, j < i -> nth_error lines j = Some l ->
        (best_offset' < line_distance l stop_xy)%Q)) /\
  (~ (best_offset' < 50)%Q ->
   forall j l, nth_error lines j = Some l -> (best_offset' <= line_distance l stop_xy)%Q).
Proof.
  revert shape_index best_offset best_index.
  induction lines as [|shape_line rest IH]; intros idx bo bi; cbn [scan_lines].
  - intros [= <- <-]. split; [now left|]. intros _ [|j] l; discriminate.
  - set (d := line_distance shape_line stop_xy).
    destruct (Qltb d bo) eqn:Hlt.
    + apply Qltb_lt in Hlt.
      assert (Hirr : Qltb d d = false) by (apply Qltb_ge; apply Qle_refl).
      rewrite Hirr, andb_false_r. intros Hscan.
      destruct (IH _ _ _ Hscan) as [[[-> ->]|(i & ln & -> & Hnth & -> & Hbo & Hbefore)] Hmin].
      * split.
        -- right. exists 0, shape_line. repeat split; auto. intros j l Hj. lia.
        -- intros H50 [|j] l Hl; cbn [nth_error] in Hl.
           ++ injection Hl as <-. apply Qle_refl.
           ++ exact (Hmin H50 j l Hl).
      * split.
        -- right. exists (S i), ln. split; [lia|]. split; [exact Hnth|]. split; [reflexivity|].
           split; [eapply Qlt_trans; eauto|].
           intros [|j] l Hj Hl; cbn [nth_error] in Hl.
           ++ injection Hl as <-. exact Hbo.
           ++ apply (Hbefore j l); [lia | exact Hl].
        -- intros H50 [|j] l Hl; cbn [nth_error] in Hl.
           ++ injection Hl as <-. apply Qlt_le_weak. exact Hbo.
           ++ exact (Hmin H50 j l Hl).
    + apply Qltb_ge in Hlt.
      destruct (Qltb bo 50 && Qltb bo d) eqn:Hbreak.
      * intros [= <- <-]. split; [now left|].
        apply andb_true_iff in Hbreak. destruct Hbreak as [H50 _]. apply Qltb_lt in H50.
        intros Hn. contradiction.
      * intros Hscan.
        destruct (IH _ _ _ Hscan) as [[[-> ->]|(i & ln & -> & Hnth & -> & Hbo & Hbefore)] Hmin].
        -- split; [now left|].
           intros H50 [|j] l Hl; cbn [nth_error] in Hl.
           ++ injection Hl as <-. exact Hlt.
           ++ exact (Hmin H50 j l Hl).
        -- assert (Hd : (line_distance ln stop_xy < d)%Q) by (eapply Qlt_le_trans; eauto).
           split.
           ++ right. exists (S i), ln. split; [lia|]. split; [exact Hnth|].
              split; [reflexivity|]. split; [exact Hbo|].
              intros [|j] l Hj Hl; cbn [nth_error] in Hl.
              ** injection Hl as <-. exact Hd.
              ** apply (Hbefore j l); [lia | exact Hl].
           ++ intros H50 [|j] l Hl; cbn [nth_error] in Hl.
              ** injection Hl as <-. apply Qlt_le_weak. exact Hd.
              ** exact (Hmin H50 j l Hl).
Qed.

(** X13. When [get_stop_geometry] reports an offset of at most 100, the
    anchor segment [after_index] lies at or after [start_index], the offset
    is the integer part of the distance from the stop to that segment, and
    that distance is strictly smaller than the distance to every segment
    between [start_index] and the anchor.  If it is not below 50, no segment
    from [start_index] on is nearer. *)
Theorem anchor_is_first_nearest_segment :
  forall (stop_xy : point) (shape_lines_xy : list line) (shape_cumulative_dist : list Q)
         (start_index : nat) (g : stop_geometry),
    get_stop_geometry line_distance point_distance stop_xy shape_lines_xy
      shape_cumulative_dist start_index = Ok g ->
    (offset g <= 100)%Z ->
    exists shape_line,
      start_index <= after_index g /\
      nth_error shape_lines_xy (after_index g) = Some shape_line /\
      offset g = py_int (line_distance shape_line stop_xy) /\
      (forall j l, start_index <= j < after_index g -> nth_error shape_lines_xy j = Some l ->
         (line_distance shape_line stop_xy < line_distance l stop_xy)%Q) /\
      (~ (line_distance shape_line stop_xy < 50)%Q ->
       forall j l, start_index <= j -> nth_error shape_lines_xy j = Some l ->
         (line_distance shape_line stop_xy <= line_distance l stop_xy)%Q).
Proof.
  intros stop_xy lines cum start g. unfold get_stop_geometry.
  destruct (scan_lines line_distance (skipn start lines) stop_xy start 99999999 0)
    as [bo bi] eqn:Hscan.
  destruct (getitem lines bi) as [shape_line0|]; [|discriminate]. cbn [bind].
  destruct (getitem cum bi) as [d|]; [|discriminate]. cbn [bind].
  intros [= <-]. cbn [offset after_index]. intros Hoff.
  destruct (scan_lines_nearest _ _ _ _ _ _ _ Hscan)
    as [[[-> ->]|(i & ln & -> & Hnth & -> & Hbo & Hbefore)] Hmin].
  - exfalso. vm_compute in Hoff. now apply Hoff.
  - rewrite nth_error_skipn in Hnth. exists ln.
    split; [lia|]. split; [exact Hnth|]. split; [reflexivity|]. split.
    + intros j l Hj Hl. apply (Hbefore (j - start) l); [lia|].
      rewrite nth_error_skipn. now replace (start + (j - start)) with j by lia.
    + intros H50 j l Hj Hl. apply (Hmin H50 (j - start) l).
      rewrite nth_error_skipn. now replace (start + (j - start)) with j by lia.
Qed.

(** X14. The scan stops at the first segment that is within 50 and
    followed by a farther one: the stop is anchored there, whatever the
    rest of the shape is, even when a later segment passes nearer. *)
Theorem scan_stops_at_first_near_segment :
  forall (stop_xy : point) (shape_lines_xy : list line) (shape_cumulative_dist : list Q)
         (start_index : nat) (l1 l2 : line) (c : Q),
    nth_error shape_lines_xy start_index = Some l1 ->
    nth_error shape_lines_xy (S start_index) = Some l2 ->
    nth_error shape_cumulative_dist start_index = Some c ->
    (line_distance l1 stop_xy < 50)%Q ->
    (line_distance l1 stop_xy < line_distance l2 stop_xy)%Q ->
    get_stop_geometry line_distance point_distance stop_xy shape_lines_xy
      shape_cumulative_dist start_index
    = Ok {| distance := py_int (c + point_distance stop_xy (fst l1));
            after_index := start_index;
            offset := py_int (line_distance l1 stop_xy) |}.
Proof.
  intros stop_xy lines cum start l1 l2 c H1 H2 Hc H50 Hfar. unfold get_stop_geometry.
  assert (Hskip : exists rest, skipn start lines = l1 :: l2 :: rest).
  { pose proof (nth_error_skipn start lines 0) as E0.
    pose proof (nth_error_skipn start lines 1) as E1.
    rewrite Nat.add_0_r, H1 in E0. replace (start + 1) with (S start) in E1 by lia.
    rewrite H2 in E1.
    destruct (skipn start lines) as [|a [|b rest]]; try discriminate.
    cbn in E0, E1. injection E0 as ->. injection E1 as ->. eauto. }
  destruct Hskip as [rest ->]. cbn [scan_lines].
  assert (Hbig : Qltb (line_distance l1 stop_xy) 99999999 = true).
  { apply Qltb_lt. eapply Qlt_trans; [exact H50|]. reflexivity. }
  rewrite Hbig.
  assert (Hirr : Qltb (line_distance l1 stop_xy) (line_distance l1 stop_xy) = false)
    by (apply Qltb_ge; apply Qle_refl).
  rewrite Hirr, andb_false_r.
  assert (Hnot : Qltb (line_distance l2 stop_xy) (line_distance l1 stop_xy) = false)
    by (apply Qltb_ge; apply Qlt_le_weak; exact Hfar).
  rewrite Hnot.
  rewrite (proj2 (Qltb_lt _ _) H50), (proj2 (Qltb_lt _ _) Hfar). cbn [andb].
  unfold getitem. rewrite H1, Hc. reflexivity.
Qed.

(** X15. With no segment left to scan, that is with [start_index] at or
    beyond the number of segments, [get_stop_geometry] anchors the stop at
    segment 0 with the offset 99999999; on a shape without segments it
    raises [IndexError]. *)
Theorem no_segment_left_to_scan :
  forall (stop_xy : point) (shape_lines_xy : list line) (shape_cumulative_dist : list Q)
         (start_index : nat),
    length shape_lines_xy <= start_index ->
    get_stop_geometry line_distance point_distance stop_xy shape_lines_xy
      shape_cumulative_dist start_index
    = match shape_lines_xy, shape_cumulative_dist with
      | l0 :: _, c0 :: _ =>
          Ok {| distance := py_int (c0 + point_distance stop_xy (fst l0));
                after_index := 0;
                offset := 99999999 |}
      | _, _ => Raise IndexError
      end.
Proof.
  intros stop_xy lines cum start Hlen. unfold get_stop_geometry.
  rewrite skipn_all2 by exact Hlen. cbn [scan_lines].
  destruct lines as [|l0 lines]; [reflexivity|].
  destruct cum as [|c0 cum]; reflexivity.
Qed.

End StopProjection.

Lemma anchor_is_first_nearest_segment_witness :
  let stop_xy := (145, 30)%Q in
  let g := {| distance := 154; after_index := 1; offset := 30 |} in
  exists shape_line,
    0 <= after_index g /\
    nth_error (shape_lines_xy example_shape) (after_index g) = Some shape_line /\
    offset g = py_int (euclid_line_distance shape_line stop_xy) /\
    (forall j l, 0 <= j < after_index g -> nth_error (shape_lines_xy example_shape) j = Some l ->
       (euclid_line_distance shape_line stop_xy < euclid_line_distance l stop_xy)%Q) /\
    (~ (euclid_line_distance shape_line stop_xy < 50)%Q ->
     forall j l, 0 <= j -> nth_error (shape_lines_xy example_shape) j = Some l ->
       (euclid_line_distance shape_line stop_xy <= euclid_line_distance l stop_xy)%Q).
Proof.
  intros stop_xy g.
  apply (anchor_is_first_nearest_segment euclid_line_distance euclid_point_distance
           stop_xy (shape_lines_xy example_shape) (shape_cumulative_dist example_shape) 0 g).
  - vm_compute. reflexivity.
  - vm_compute. discriminate.
Defined.

Lemma scan_stops_at_first_near_segment_witness :
  get_stop_geometry euclid_line_distance euclid_point_distance (40, 30)%Q
    [ ((0, 0), (100, 0)); ((100, 0), (100, 100)); ((100, 100), (40, 30)) ]%Q
    [ 0; 100; 200; 292 ]%Q 0
  = Ok {| distance := py_int (0 + euclid_point_distance (40, 30)%Q (0, 0)%Q);
          after_index := 0;
          offset := py_int (euclid_line_distance ((0, 0), (100, 0))%Q (40, 30)%Q) |}.
Proof.
  apply (scan_stops_at_first_near_segment euclid_line_distance euclid_point_distance
           (40, 30)%Q _ _ 0 ((0, 0), (100, 0))%Q ((100, 0), (100, 100))%Q 0%Q).
  - reflexivity.
  - reflexivity.
  - reflexivity.
  - vm_compute. reflexivity.
  - vm_compute. reflexivity.
Defined.

Lemma no_segment_left_to_scan_witness :
  get_stop_geometry euclid_line_distance euclid_point_distance (40, 30)%Q
    (shape_lines_xy example_shape) (shape_cumulative_dist example_shape) 2
  = Ok {| distance := py_int (0 + euclid_point_distance (40, 30)%Q (0, 0)%Q);
          after_index := 0;
          offset := 99999999 |}.
Proof.
  apply (no_segment_left_to_scan euclid_line_distance euclid_point_distance
           (40, 30)%Q (shape_lines_xy example_shape) (shape_cumulative_dist example_shape) 2).
  cbn. lia.
Defined.

(* ------------------------------------------------------------------ *)
(** ** The descriptor of a direction                                   *)
(* ------------------------------------------------------------------ *)

Section DirectionData.

Variable line_distance : line -> point -> Q.
Variable point_distance : point -> point -> Q.

Lemma stops_loop_needs (self : GtfsScraper) (shape : shape_geometry) (l : list string)
    (sgm : dict string stop_geometry) (si : nat) (r : dict string stop_geometry * nat) :
  stops_loop line_distance point_distance self shape l sgm si = Ok r ->
  forall s, In s l -> dict_mem (stops_map self) s = true.
Proof.
  revert sgm si. induction l as [|s0 l IH]; intros sgm si; cbn [stops_loop].
  - intros _ s [].
  - unfold dict_getitem, dict_mem.
    destruct (dict_get (stops_map self) s0) as [st|] eqn:Hst; [|discriminate]. cbn [bind].
    destruct (get_stop_geometry _ _ _ _ _ _) as [g|]; [|discriminate]. cbn [bind].
    intros Hrun s [<-|Hin].
    + now rewrite Hst.
    + destruct (offset g >? 100)%Z; exact (IH _ _ Hrun s Hin).
Qed.

(** X16. Every entry of the [stop_geometry] dict of a descriptor belongs
    to a stop of the descriptor's stop list, has an offset of at most 100
    and is anchored at a segment of the shape for which a cumulative
    distance exists. *)
Theorem stop_geometry_entries_valid :
  forall (self : GtfsScraper) (id gtfs_shape_id gtfs_direction_id : string)
         (stop_ids : list string) (title : option string) (dd : dir_data),
    get_direction_data line_distance point_distance self id gtfs_shape_id gtfs_direction_id
      stop_ids title = Ok dd ->
    exists shape,
      dict_get (feed_shapes self) gtfs_shape_id = Some shape /\
      forall k g, dict_get (dd_stop_geometry dd) k = Some g ->
        In k stop_ids /\
        (offset g <= 100)%Z /\
        after_index g < length (shape_lines_xy shape) /\
        after_index g < length (shape_cumulative_dist shape).
Proof.
  intros self id sid gdid stop_ids title dd. unfold get_direction_data.
  destruct (match title with Some t => Ok t | None => _ end) as [t|]; [|discriminate].
  cbn [bind].
  destruct (dict_get (feed_shapes self) sid) as [shape|]; [|discriminate]. cbn [bind].
  destruct (getitem_last (shape_cumulative_dist shape)) as [total|]; [|discriminate].
  cbn [bind].
  destruct (stops_loop line_distance point_distance self shape stop_ids [] 0)
    as [[sgm si]|] eqn:Hloop; [|discriminate].
  cbn [bind]. intros [= <-]. cbn [dd_stop_geometry].
  exists shape. split; [reflexivity|]. intros k g Hget.
  split.
  - destruct (in_dec string_dec k stop_ids) as [Hin|Hnotin]; [exact Hin|].
    rewrite (stops_loop_frame _ _ _ _ _ _ _ _ _ k Hloop Hnotin) in Hget. discriminate.
  - assert (Hinit : forall k0 g0, dict_get (@nil (string * stop_geometry)) k0 = Some g0 ->
              recorded line_distance point_distance self shape k0 g0)
      by (intros k0 g0 H0; discriminate).
    destruct (stops_loop_recorded _ _ _ _ _ _ _ _ _ Hinit Hloop k g Hget)
      as (st & si0 & _ & Hg & Hoff).
    split; [exact Hoff|].
    destruct (get_stop_geometry_distance _ _ _ _ _ _ _ Hg) as (ln & c & Hln & Hc & _).
    split; apply nth_error_Some; congruence.
Qed.

(** X17. On a feed whose shapes have at least one segment and one
    cumulative distance per coordinate, [get_direction_data] returns a
    descriptor exactly when the shape id is in the feed, every stop of the
    list is in [stops_map] and, if no title is given, the list has a last
    stop that is in [stops_map] and has a [stop_name].  In every other case
    it raises. *)
Theorem get_direction_data_returns_iff :
  forall (self : GtfsScraper) (id gtfs_shape_id gtfs_direction_id : string)
         (stop_ids : list string) (title : option string),
    (forall k shape, dict_get (feed_shapes self) k = Some shape ->
       shape_lines_xy shape <> [] /\
       length (shape_cumulative_dist shape) = S (length (shape_lines_xy shape))) ->
    (exists dd,
       get_direction_data line_distance point_distance self id gtfs_shape_id
         gtfs_direction_id stop_ids title = Ok dd) <->
    (dict_mem (feed_shapes self) gtfs_shape_id = true /\
     (forall s, In s stop_ids -> dict_mem (stops_map self) s = true) /\
     (title = None ->
      exists last_stop_id last_stop name,
        getitem_last stop_ids = Ok last_stop_id /\
        dict_get (stops_map self) last_stop_id = Some last_stop /\
        getattr last_stop "stop_name" = Ok name)).
Proof.
  intros self id sid gdid stop_ids title Hshapes. unfold get_direction_data, dict_mem.
  split.
  - intros [dd Hrun].
    destruct (match title with Some t => Ok t | None => _ end) as [t|] eqn:Htitle;
      [|discriminate].
    cbn [bind] in Hrun.
    destruct (dict_get (feed_shapes self) sid) as [shape|]; [|discriminate].
    cbn [bind] in Hrun.
    destruct (getitem_last (shape_cumulative_dist shape)) as [total|]; [|discriminate].
    cbn [bind] in Hrun.
    destruct (stops_loop line_distance point_distance self shape stop_ids [] 0)
      as [r|] eqn:Hloop; [|discriminate].
    split; [reflexivity|]. split; [exact (stops_loop_needs _ _ _ _ _ _ Hloop)|].
    intros ->. unfold dict_getitem in Htitle.
    destruct (getitem_last stop_ids) as [last_stop_id|]; [|discriminate].
    cbn [bind] in Htitle.
    destruct (dict_get (stops_map self) last_stop_id) as [last_stop|] eqn:Hlast;
      [|discriminate].
    cbn [bind] in Htitle. exists last_stop_id, last_stop, t. auto.
  - intros (Hshape & Hstops & Htitle).
    destruct (dict_get (feed_shapes self) sid) as [shape|] eqn:Hs; [|discriminate].
    destruct (Hshapes _ _ Hs) as [Hne Hlen].
    assert (Ht : exists t, match title with
                           | Some t => Ok t
                           | None =>
                               last_stop_id <- getitem_last stop_ids ;;
                               last_stop <- dict_getitem (stops_map self) last_stop_id ;;
                               getattr last_stop "stop_name"
                           end = Ok t).
    { destruct title as [t|]; [eauto|].
      destruct (Htitle eq_refl) as (l & st & name & -> & Hst & Hname).
      cbn [bind]. unfold dict_getitem. rewrite Hst. cbn [bind]. eauto. }
    destruct Ht as [t ->]. cbn [bind].
    destruct (getitem_last_In (shape_cumulative_dist shape)) as (total & -> & _).
    { intros Hnil. rewrite Hnil in Hlen. discriminate. }
    cbn [bind].
    destruct (stops_loop_returns line_distance point_distance self shape stop_ids [] 0 Hne)
      as [[sgm si] ->]; [lia | exact Hstops |].
    cbn [bind]. eauto.
Qed.

End DirectionData.

Lemma stop_geometry_entries_valid_witness :
  exists shape,
    dict_get (feed_shapes example_direction_scraper) "shape"%string = Some shape /\
    forall k g,
      dict_get [ ("A"%string, {| distance := 50; after_index := 0; offset := 30 |});
                 ("B"%string, {| distance := 45; after_index := 0; offset := 0 |}) ] k
        = Some g ->
      In k ["A"; "C"; "B"]%string /\
      (offset g <= 100)%Z /\
      after_index g < length (shape_lines_xy shape) /\
      after_index g < length (shape_cumulative_dist shape).
Proof.
  apply (stop_geometry_entries_valid euclid_line_distance euclid_point_distance
           example_direction_scraper "0" "shape" "0" ["A"; "C"; "B"]%string
           (Some "To B"%string)
           {| dd_id := "0"; dd_gtfs_shape_id := "shape"; dd_gtfs_direction_id := "0";
              dd_stops := ["A"; "C"; "B"]%string;
              dd_stop_geometry :=
                [ ("A"%string, {| distance := 50; after_index := 0; offset := 30 |});
                  ("B"%string, {| distance := 45; after_index := 0; offset := 0 |}) ];
              dd_distance := 200 |}).
  vm_compute. reflexivity.
Defined.

Lemma get_direction_data_returns_iff_witness :
  (exists dd,
     get_direction_data euclid_line_distance euclid_point_distance example_direction_scraper
       "0" "shape" "0" ["A"; "B"]%string None = Ok dd) <->
  (dict_mem (feed_shapes example_direction_scraper) "shape"%string = true /\
   (forall s, In s ["A"; "B"]%string ->
      dict_mem (stops_map example_direction_scraper) s = true) /\
   (@None string = None ->
    exists last_stop_id last_stop name,
      getitem_last ["A"; "B"]%string = Ok last_stop_id /\
      dict_get (stops_map example_direction_scraper) last_stop_id = Some last_stop /\
      getattr last_stop "stop_name" = Ok name)).
Proof.
  apply (get_direction_data_returns_iff euclid_line_distance euclid_point_distance
           example_direction_scraper "0" "shape" "0" ["A"; "B"]%string None).
  intros k shape. cbn [feed_shapes example_direction_scraper dict_get].
  destruct (eqb "shape"%string k); [|discriminate].
  intros [= <-]. split; [discriminate | reflexivity].
Defined.

(* ------------------------------------------------------------------ *)
(** ** Shape clusters, continued                                       *)
(* ------------------------------------------------------------------ *)

Lemma string_leb_trans (a b c : string) :
  String.leb a b = true -> String.leb b c = true -> String.leb a c = true.
Proof.
  unfold String.leb.
  assert (H : forall a b c, String.compare a b <> Gt -> String.compare b c <> Gt ->
                String.compare a c <> Gt).
  { clear. induction a as [|x a IH]; intros [|y b] [|z c]; cbn [String.compare];
      try congruence.
    unfold Ascii.compare.
    destruct (N.compare_spec (N_of_ascii x) (N_of_ascii y)) as [Exy|Lxy|Gxy];
      destruct (N.compare_spec (N_of_ascii y) (N_of_ascii z)) as [Eyz|Lyz|Gyz];
      try congruence; intros Hab Hbc.
    - rewrite Exy, Eyz, N.compare_refl. now apply (IH b c).
    - rewrite Exy. rewrite (proj2 (N.compare_lt_iff _ _) Lyz). discriminate.
    - rewrite <- Eyz. rewrite (proj2 (N.compare_lt_iff _ _) Lxy). discriminate.
    - rewrite (proj2 (N.compare_lt_iff _ _) (N.lt_trans _ _ _ Lxy Lyz)). discriminate. }
  intros Hab Hbc.
  destruct (String.compare a b) eqn:Eab; try discriminate;
    destruct (String.compare b c) eqn:Ebc; try discriminate;
    destruct (String.compare a c) eqn:Eac; try reflexivity;
    exfalso; apply (H a b c); congruence.
Qed.

Lemma insert_sorted_strings_sorted (x : string) (l : list string) :
  StronglySorted (fun a b => String.leb a b = true) l ->
  StronglySorted (fun a b => String.leb a b = true) (insert_sorted String.leb x l).
Proof.
  induction l as [|y l IH]; intros Hs; cbn [insert_sorted].
  - repeat constructor.
  - inversion Hs as [|? ? Hs' Hall]; subst.
    destruct (String.leb x y) eqn:Hxy.
    + constructor; [exact Hs|]. constructor; [exact Hxy|].
      eapply Forall_impl; [|exact Hall]. intros z Hz. eapply string_leb_trans; eauto.
    + constructor; [now apply IH|].
      assert (Hyx : String.leb y x = true).
      { destruct (String.leb_total x y) as [H|H]; [congruence | exact H]. }
      apply (Permutation_Forall (Permutation_sym (insert_sorted_permutation _ x l))).
      constructor; assumption.
Qed.

Lemma sorted_strings_sorted (l : list string) :
  StronglySorted (fun a b => String.leb a b = true) (sorted_strings l).
Proof.
  unfold sorted_strings. induction l as [|x l IH]; cbn [sorted_with]; [constructor|].
  now apply insert_sorted_strings_sorted.
Qed.

Lemma dedup_adjacent_NoDup (l : list string) :
  StronglySorted (fun a b => String.leb a b = true) l -> NoDup (dedup_adjacent l).
Proof.
  induction l as [|a l IH]; intros Hs; [constructor|].
  inversion Hs as [|? ? Hs' Hall]; subst.
  cbn [dedup_adjacent]. destruct l as [|b l]; [repeat constructor; intros []|].
  destruct (eqb_spec a b) as [Heq|Hne]; [now apply IH|].
  constructor; [|now apply IH].
  rewrite dedup_adjacent_In. intros Hin. apply Hne.
  inversion Hs' as [|? ? _ Hallb]; subst.
  inversion Hall as [|? ? Hab _]; subst.
  apply String.leb_antisym; [exact Hab|].
  destruct Hin as [<-|Hin]; [destruct (String.leb_total b b); assumption|].
  rewrite Forall_forall in Hallb. exact (Hallb a Hin).
Qed.

Lemma np_unique_NoDup (values : list string) : NoDup (np_unique values).
Proof.
  apply dedup_adjacent_NoDup, sorted_strings_sorted.
Qed.

(** [sum(l)] *)
Definition py_sum (l : list Z) : Z := fold_right Z.add 0%Z l.

Lemma py_sum_cons (x : Z) (l : list Z) : py_sum (x :: l) = (x + py_sum l)%Z.
Proof. reflexivity. Qed.

Lemma py_sum_app (l1 l2 : list Z) : py_sum (l1 ++ l2) = (py_sum l1 + py_sum l2)%Z.
Proof.
  induction l1 as [|x l1 IH]; cbn [app]; [reflexivity|].
  rewrite !py_sum_cons. lia.
Qed.

Lemma py_sum_perm (l1 l2 : list Z) : Permutation l1 l2 -> py_sum l1 = py_sum l2.
Proof.
  induction 1; rewrite ?py_sum_cons; lia.
Qed.

(** The counts of [np.unique(values, return_counts=True)] add up to the
    number of values. *)
Lemma counts_total (us values : list string) :
  NoDup us -> (forall v, In v values -> In v us) ->
  py_sum (map (fun u => Z.of_nat (length (filter (fun x => eqb x u) values))) us)
  = Z.of_nat (length values).
Proof.
  intros Hnd. induction values as [|x values IH]; intros Hcover.
  - cbn [filter length]. induction us as [|u us IHus]; [reflexivity|].
    cbn [map]. rewrite py_sum_cons.
    inversion Hnd; subst. rewrite IHus; [reflexivity | assumption | intros v []].
  - assert (Hx : In x us) by (apply Hcover; now left).
    assert (IH' := IH (fun v Hv => Hcover v (or_intror Hv))).
    rewrite <- (Nat2Z.id (length values)) in IH' at 1. clear IH Hcover.
    assert (Hstep : forall us, NoDup us ->
              py_sum (map (fun u => Z.of_nat (length (filter (fun y => eqb y u) (x :: values)))) us)
              = (py_sum (map (fun u => Z.of_nat (length (filter (fun y => eqb y u) values))) us)
                 + (if in_dec string_dec x us then 1 else 0))%Z).
    { clear. induction us as [|u us IHus]; intros Hnd; [reflexivity|].
      inversion Hnd as [|? ? Hnotin Hnd']; subst.
      cbn [map]. rewrite !py_sum_cons. rewrite (IHus Hnd'). cbn [filter].
      destruct (eqb_spec x u) as [->|Hne].
      - destruct (in_dec string_dec u (u :: us)) as [_|Hn]; [|exfalso; apply Hn; now left].
        destruct (in_dec string_dec u us) as [Hi|_]; [contradiction|].
        cbn [length]. lia.
      - destruct (in_dec string_dec x (u :: us)) as [[He|Hi]|Hn];
          destruct (in_dec string_dec x us) as [Hi'|Hn']; try lia; try congruence;
          try contradiction.
        exfalso. apply Hn. now right. }
    rewrite (Hstep us Hnd).
    destruct (in_dec string_dec x us) as [_|Hn]; [|contradiction].
    rewrite Nat2Z.id in IH'. rewrite IH'. cbn [length]. lia.
Qed.

Lemma shape_order_total (direction_trips_df : list trip) :
  py_sum (map snd (shape_order direction_trips_df)) = Z.of_nat (length direction_trips_df).
Proof.
  unfold shape_order.
  rewrite (py_sum_perm _ (map snd (np_unique_counts (map shape_id direction_trips_df)))).
  - unfold np_unique_counts. rewrite map_map. cbn [snd].
    rewrite (counts_total _ (map shape_id direction_trips_df)).
    + now rewrite length_map.
    + apply np_unique_NoDup.
    + intros v Hv. now apply np_unique_In.
  - apply Permutation_map. unfold sorted_by. apply sorted_with_perm.
Qed.

(** The number of trips the clusters of a map stand for. *)
Definition cluster_total (unique_shapes_map : dict string shape_info) : Z :=
  py_sum (map count (dict_values unique_shapes_map)).

Lemma cluster_total_set (m : dict string shape_info) (k : string) (v v' : shape_info) :
  dict_get m k = Some v ->
  cluster_total (dict_set m k v') = (cluster_total m - count v + count v')%Z.
Proof.
  unfold cluster_total, dict_values.
  induction m as [|[k0 v0] m IH]; cbn [dict_get dict_set map snd]; [discriminate|].
  destruct (eqb k0 k).
  - intros [= ->]. cbn [map snd]. rewrite !py_sum_cons. lia.
  - intros Hget. cbn [map snd]. rewrite !py_sum_cons, (IH Hget). lia.
Qed.

Lemma cluster_total_new (m : dict string shape_info) (k : string) (v : shape_info) :
  dict_get m k = None ->
  cluster_total (dict_set m k v) = (cluster_total m + count v)%Z.
Proof.
  intros Hget. rewrite (dict_set_absent _ _ _ Hget).
  unfold cluster_total, dict_values. rewrite !map_app, py_sum_app. cbn [map snd].
  rewrite py_sum_cons. cbn [py_sum fold_right]. lia.
Qed.

Lemma cluster_total_del (m : dict string shape_info) (k : string) (v : shape_info) :
  dict_get m k = Some v ->
  cluster_total (dict_del m k) = (cluster_total m - count v)%Z.
Proof.
  unfold cluster_total, dict_values.
  induction m as [|[k0 v0] m IH]; cbn [dict_get dict_del map snd]; [discriminate|].
  destruct (eqb k0 k).
  - intros [= ->]. rewrite py_sum_cons. lia.
  - intros Hget. cbn [map snd]. rewrite !py_sum_cons, (IH Hget). lia.
Qed.

Lemma In_dict_set {K V : Type} `{PyEq K} (m : dict K V) (k k' : K) (v v' : V) :
  In (k, v) (dict_set m k' v') -> (k, v) = (k', v') \/ In (k, v) m.
Proof.
  induction m as [|[k0 v0] m IH]; cbn [dict_set].
  - intros [<-|[]]. now left.
  - destruct (eqb_spec k0 k') as [->|Hne].
    + intros [<-|Hin]; [now left | right; now right].
    + intros [<-|Hin]; [right; now left|].
      destruct (IH Hin) as [Heq|Hin']; [now left | right; now right].
Qed.

Lemma In_dict_del {K V : Type} `{PyEq K} (m : dict K V) (k : K) (p : K * V) :
  In p (dict_del m k) -> In p m.
Proof.
  induction m as [|[k0 v0] m IH]; cbn [dict_del]; [tauto|].
  destruct (eqb k0 k).
  - intros Hin. now right.
  - intros [<-|Hin]; [now left | right; auto].
Qed.

Lemma dict_wf_del {K V : Type} `{PyEq K} (m : dict K V) (k : K) :
  dict_wf m -> dict_wf (dict_del m k).
Proof.
  unfold dict_wf, dict_keys.
  induction m as [|[k0 v0] m IH]; cbn [dict_del map fst]; [auto|].
  intros Hwf. inversion Hwf as [|? ? Hnotin Hwf']; subst.
  destruct (eqb k0 k); [exact Hwf'|].
  cbn [map fst]. constructor; [|now apply IH].
  intros Hin. apply Hnotin. apply in_map_iff in Hin. destruct Hin as ([k1 v1] & <- & Hin).
  apply in_map_iff. exists (k1, v1). split; [reflexivity|]. exact (In_dict_del _ _ _ Hin).
Qed.

Lemma match_existing_found (the_stop_ids : list string) (items : list (string * shape_info))
    (decision : match_decision) :
  match_existing the_stop_ids items = Ok decision ->
  match decision with
  | ReuseKey other_shape_key => exists info, In (other_shape_key, info) items
  | Supersede other_shape_key other_count =>
      exists info, In (other_shape_key, info) items /\ count info = other_count
  | NoMatch => True
  end.
Proof.
  induction items as [|[k info] rest IH]; cbn [match_existing].
  - intros [= <-]. exact I.
  - destruct (is_subsequence the_stop_ids (info_stop_ids info)) as [[|]|]; cbn [bind];
      [intros [= <-]; exists info; now left | | discriminate].
    destruct (is_subsequence (info_stop_ids info) the_stop_ids) as [[|]|]; cbn [bind];
      [intros [= <-]; exists info; split; [now left | reflexivity] | | discriminate].
    intros Hrest. specialize (IH Hrest).
    destruct decision as [o|o c|]; [| |exact I].
    + destruct IH as [i Hi]. exists i. now right.
    + destruct IH as (i & Hi & Hc). exists i. split; [now right | exact Hc].
Qed.

Section ClusterInvariant.

(** A property of the shape id and the stop list of a cluster. *)
Variable P : string -> list string -> Prop.

Definition clusters_ok (m : dict string shape_info) : Prop :=
  dict_wf m /\
  forall k info, In (k, info) m -> P (info_shape_id info) (info_stop_ids info).

(** Line 436: the count of an existing cluster grows. *)
Lemma bump_count_ok (m : dict string shape_info) (k : string) (info : shape_info) (x : Z) :
  clusters_ok m ->
  dict_get m k = Some info ->
  let m' := dict_set m k {| count := (count info + x)%Z;
                            info_shape_id := info_shape_id info;
                            info_stop_ids := info_stop_ids info |} in
  clusters_ok m' /\ cluster_total m' = (cluster_total m + x)%Z.
Proof.
  intros [Hwf HP] Hget m'. subst m'. split; [split|].
  - now apply dict_wf_set.
  - intros k0 info0 Hin. apply In_dict_set in Hin. destruct Hin as [[= -> ->]|Hin].
    + cbn [info_shape_id info_stop_ids]. apply (HP k info). now apply dict_get_In.
    + exact (HP _ _ Hin).
  - rewrite (cluster_total_set _ _ _ _ Hget). cbn [count]. lia.
Qed.

(** Lines 429-436 for a key that is not in the map. *)
Lemma open_cluster_ok (m : dict string shape_info) (k the_shape_id : string)
    (the_stop_ids : list string) (x : Z) :
  clusters_ok m ->
  dict_get m k = None ->
  P the_shape_id the_stop_ids ->
  let m1 := dict_set m k {| count := 0; info_shape_id := the_shape_id;
                            info_stop_ids := the_stop_ids |} in
  let m' := dict_set m1 k {| count := (0 + x)%Z; info_shape_id := the_shape_id;
                             info_stop_ids := the_stop_ids |} in
  clusters_ok m' /\ cluster_total m' = (cluster_total m + x)%Z.
Proof.
  intros [Hwf HP] Hget Hnew m1 m'.
  assert (H1 : clusters_ok m1).
  { split; [now apply dict_wf_set|].
    intros k0 info0 Hin. apply In_dict_set in Hin. destruct Hin as [[= -> ->]|Hin].
    - exact Hnew.
    - exact (HP _ _ Hin). }
  destruct (bump_count_ok m1 k _ x H1 (dict_get_set_eq _ _ _)) as [Hok Htot].
  cbn [count info_shape_id info_stop_ids] in Hok, Htot.
  split; [exact Hok|]. subst m'. rewrite Htot. subst m1.
  rewrite (cluster_total_new _ _ _ Hget). cbn [count]. lia.
Qed.

Lemma add_shape_ok (unique_shape_key : string) (m m' : dict string shape_info)
    (the_shape_id : string) (shape_id_count : Z) (the_stop_ids : list string) :
  clusters_ok m ->
  P the_shape_id the_stop_ids ->
  add_shape unique_shape_key m the_shape_id shape_id_count the_stop_ids = Ok m' ->
  clusters_ok m' /\ cluster_total m' = (cluster_total m + shape_id_count)%Z.
Proof.
  intros Hok Hnew. unfold add_shape, dict_mem, dict_getitem.
  destruct (dict_get m unique_shape_key) as [info0|] eqn:Hkey; cbn [negb bind].
  - repeat (progress (rewrite ?Hkey; cbn [negb bind])).
    intros [= <-]. now apply bump_count_ok.
  - destruct (match_existing the_stop_ids m) as [decision|] eqn:Hmatch; [|discriminate].
    cbn [bind]. apply match_existing_found in Hmatch.
    destruct decision as [other|other other_count|]; cbn [bind].
    + destruct Hmatch as [info Hin].
      pose proof (dict_wf_In_get _ _ _ (proj1 Hok) Hin) as Hother.
      repeat (progress (rewrite ?Hother; cbn [negb bind])).
      intros [= <-]. apply bump_count_ok; [exact Hok|].
      exact (dict_wf_In_get _ _ _ (proj1 Hok) Hin).
    + destruct Hmatch as (info & Hin & <-).
      pose proof (dict_wf_In_get _ _ _ (proj1 Hok) Hin) as Hother.
      assert (Hne : other <> unique_shape_key) by congruence.
      assert (Hdel : dict_get (dict_del m other) unique_shape_key = None)
        by (now rewrite dict_get_del_ne).
      repeat (progress (rewrite ?Hdel, ?dict_get_set_eq;
                        cbn [negb bind count info_shape_id info_stop_ids])).
      intros [= <-].
      assert (Hok' : clusters_ok (dict_del m other)).
      { split; [apply dict_wf_del; exact (proj1 Hok)|].
        intros k0 info0 Hin0. apply (proj2 Hok k0 info0). exact (In_dict_del _ _ _ Hin0). }
      destruct (open_cluster_ok _ unique_shape_key the_shape_id the_stop_ids
                  (shape_id_count + count info) Hok' Hdel Hnew) as [Hres Htot].
      split; [exact Hres|]. etransitivity; [exact Htot|].
      rewrite (cluster_total_del _ _ _ Hother). lia.
    + repeat (progress (rewrite ?Hkey, ?dict_get_set_eq;
                        cbn [negb bind count info_shape_id info_stop_ids])).
      intros [= <-]. now apply open_cluster_ok.
Qed.

End ClusterInvariant.

(** The clusters of a direction: each names a shape id of the direction
    and holds the stop list read for that shape. *)
Definition represents (self : GtfsScraper) (direction_trips_df : list trip)
    (the_shape_id : string) (the_stop_ids : list string) : Prop :=
  In the_shape_id (map shape_id direction_trips_df) /\
  shape_trip_stop_ids self direction_trips_df the_shape_id = Ok the_stop_ids.

Lemma unique_shapes_loop_ok (shape_hash : list string -> string) (self : GtfsScraper)
    (direction_trips_df : list trip) (shapes : list (string * Z))
    (m m' : dict string shape_info) :
  clusters_ok (represents self direction_trips_df) m ->
  (forall p, In p shapes -> In (fst p) (map shape_id direction_trips_df)) ->
  unique_shapes_loop shape_hash self direction_trips_df shapes m = Ok m' ->
  clusters_ok (represents self direction_trips_df) m' /\
  cluster_total m' = (cluster_total m + py_sum (map snd shapes))%Z.
Proof.
  revert m. induction shapes as [|[sid c] rest IH]; intros m Hok Hids;
    cbn [unique_shapes_loop].
  - intros [= <-]. split; [exact Hok|]. cbn [map py_sum fold_right]. lia.
  - unfold unique_shapes_step.
    destruct (shape_trip_stop_ids self direction_trips_df sid) as [ids|] eqn:Hread;
      [|discriminate].
    cbn [bind].
    destruct (add_shape (shape_hash ids) m sid c ids) as [m1|] eqn:Hadd; [|discriminate].
    cbn [bind]. intros Hrun.
    destruct (add_shape_ok (represents self direction_trips_df) _ _ _ _ _ _ Hok
                (conj (Hids (sid, c) (or_introl eq_refl)) Hread) Hadd) as [Hok1 Htot1].
    destruct (IH m1 Hok1 (fun p Hp => Hids p (or_intror Hp)) Hrun) as [Hok' Htot'].
    split; [exact Hok'|]. rewrite Htot', Htot1. cbn [map snd]. rewrite py_sum_cons. lia.
Qed.

Lemma shape_order_ids (direction_trips_df : list trip) (p : string * Z) :
  In p (shape_order direction_trips_df) -> In (fst p) (map shape_id direction_trips_df).
Proof.
  unfold shape_order, sorted_by. intros Hin.
  apply (Permutation_in _ (sorted_with_perm _ _)) in Hin.
  unfold np_unique_counts in Hin. apply in_map_iff in Hin. destruct Hin as (v & <- & Hv).
  cbn [fst]. now apply np_unique_In.
Qed.

Lemma clusters_ok_nil (P : string -> list string -> Prop) : clusters_ok P [].
Proof.
  split; [constructor | intros k info []].
Qed.

Lemma print_shapes_needs (self : GtfsScraper) (sorted_shapes : list shape_info) (u : unit) :
  print_shapes self sorted_shapes = Ok u ->
  forall info, In info sorted_shapes ->
    exists first_stop_id last_stop_id,
      getitem (info_stop_ids info) 0 = Ok first_stop_id /\
      getitem_last (info_stop_ids info) = Ok last_stop_id /\
      known_stop self first_stop_id /\ known_stop self last_stop_id.
Proof.
  induction sorted_shapes as [|info0 rest IH]; cbn [print_shapes]; [intros _ info []|].
  destruct (getitem (info_stop_ids info0) 0) as [f|] eqn:Hf; [|discriminate]. cbn [bind].
  destruct (getitem_last (info_stop_ids info0)) as [l|] eqn:Hl; [|discriminate]. cbn [bind].
  unfold dict_getitem.
  destruct (dict_get (stops_map self) f) as [fs|] eqn:Hfs; [|discriminate]. cbn [bind].
  destruct (dict_get (stops_map self) l) as [ls|] eqn:Hls; [|discriminate]. cbn [bind].
  destruct (getattr fs "stop_name") as [fname|] eqn:Hfn; [|discriminate]. cbn [bind].
  destruct (getattr ls "stop_name") as [lname|] eqn:Hln; [|discriminate]. cbn [bind].
  intros Hrest info [<-|Hin]; [|exact (IH Hrest info Hin)].
  exists f, l. rewrite Hf, Hl. repeat split; [exists fs, fname | exists ls, lname]; auto.
Qed.

(** X18. The clusters of a direction count every trip of the direction
    exactly once: the counts of the clusters [get_unique_shapes] returns
    add up to the number of trips it was given, however the shapes were
    merged. *)
Theorem cluster_counts_add_up_to_trips :
  forall (shape_hash : list string -> string) (self : GtfsScraper)
         (direction_trips_df : list trip) (shapes : list shape_info),
    get_unique_shapes shape_hash self direction_trips_df = Ok shapes ->
    py_sum (map count shapes) = Z.of_nat (length direction_trips_df).
Proof.
  intros shape_hash self df shapes. unfold get_unique_shapes.
  destruct (unique_shapes_loop shape_hash self df (shape_order df) []) as [m|] eqn:Hloop;
    [|discriminate].
  cbn [bind].
  destruct (print_shapes self _) as [u|]; [|discriminate]. cbn [bind].
  intros [= <-].
  destruct (unique_shapes_loop_ok _ _ _ _ _ _ (clusters_ok_nil _)
              (shape_order_ids df) Hloop) as [_ Htot].
  rewrite shape_order_total in Htot. unfold cluster_total in Htot.
  cbn [dict_values map py_sum fold_right] in Htot. rewrite Z.add_0_l in Htot.
  rewrite <- Htot. apply py_sum_perm, Permutation_map.
  unfold sorted_by. apply sorted_with_perm.
Qed.

Lemma cluster_counts_add_up_to_trips_witness :
  py_sum (map count
            [ {| count := 2; info_shape_id := "other"; info_stop_ids := ["D"; "A"]%string |};
              {| count := 1; info_shape_id := "long";
                 info_stop_ids := ["A"; "B"; "D"]%string |} ])
  = Z.of_nat (length example_direction_1).
Proof.
  apply (cluster_counts_add_up_to_trips example_hash example_feed_scraper).
  vm_compute. reflexivity.
Defined.

(** X19. Every cluster [get_unique_shapes] returns names a shape id of a
    trip of the direction and holds the stop list of the first trip of that
    shape, in stop sequence order; the list is not empty and its first and
    its last stop are rows of [stops_map] with a [stop_name], since the
    function reads them for its log line and raises otherwise. *)
Theorem clusters_hold_their_shape_stops :
  forall (shape_hash : list string -> string) (self : GtfsScraper)
         (direction_trips_df : list trip) (shapes : list shape_info),
    get_unique_shapes shape_hash self direction_trips_df = Ok shapes ->
    forall info, In info shapes ->
      (exists tr, In tr direction_trips_df /\ shape_id tr = info_shape_id info) /\
      shape_trip_stop_ids self direction_trips_df (info_shape_id info)
        = Ok (info_stop_ids info) /\
      exists first_stop_id last_stop_id,
        getitem (info_stop_ids info) 0 = Ok first_stop_id /\
        getitem_last (info_stop_ids info) = Ok last_stop_id /\
        known_stop self first_stop_id /\ known_stop self last_stop_id.
Proof.
  intros shape_hash self df shapes. unfold get_unique_shapes.
  destruct (unique_shapes_loop shape_hash self df (shape_order df) []) as [m|] eqn:Hloop;
    [|discriminate].
  cbn [bind].
  destruct (print_shapes self _) as [u|] eqn:Hprint; [|discriminate]. cbn [bind].
  intros [= <-] info Hin.
  destruct (unique_shapes_loop_ok _ _ _ _ _ _ (clusters_ok_nil _)
              (shape_order_ids df) Hloop) as [[_ Hrep] _].
  pose proof (print_shapes_needs _ _ _ Hprint info Hin) as Hends.
  unfold sorted_by in Hin. apply (Permutation_in _ (sorted_with_perm _ _)) in Hin.
  unfold dict_values in Hin. apply in_map_iff in Hin. destruct Hin as ([k info'] & <- & Hin).
  destruct (Hrep k info' Hin) as [Hid Hstops]. cbn [snd] in *.
  split; [|split; [exact Hstops | exact Hends]].
  apply in_map_iff in Hid. destruct Hid as (tr & Htr & Hintr). eauto.
Qed.

Lemma clusters_hold_their_shape_stops_witness :
  let info := {| count := 1; info_shape_id := "long";
                 info_stop_ids := ["A"; "B"; "D"]%string |} in
  (exists tr, In tr example_direction_1 /\ shape_id tr = info_shape_id info) /\
  shape_trip_stop_ids example_feed_scraper example_direction_1 (info_shape_id info)
    = Ok (info_stop_ids info) /\
  exists first_stop_id last_stop_id,
    getitem (info_stop_ids info) 0 = Ok first_stop_id /\
    getitem_last (info_stop_ids info) = Ok last_stop_id /\
    known_stop example_feed_scraper first_stop_id /\
    known_stop example_feed_scraper last_stop_id.
Proof.
  intros info.
  apply (clusters_hold_their_shape_stops example_hash example_feed_scraper
           example_direction_1
           [ {| count := 2; info_shape_id := "other"; info_stop_ids := ["D"; "A"]%string |};
             info ]).
  - vm_compute. reflexivity.
  - right. now left.
Defined.

(* ------------------------------------------------------------------ *)
(** ** The directions of a route                                       *)
(* ------------------------------------------------------------------ *)

Lemma get_direction_data_fields (line_distance : line -> point -> Q)
    (point_distance : point -> point -> Q) (self : GtfsScraper)
    (id gtfs_shape_id gtfs_direction_id : string) (stop_ids : list string)
    (title : option string) (dd : dir_data) :
  get_direction_data line_distance point_distance self id gtfs_shape_id gtfs_direction_id
    stop_ids title = Ok dd ->
  dd_id dd = id /\ dd_gtfs_shape_id dd = gtfs_shape_id /\
  dd_gtfs_direction_id dd = gtfs_direction_id /\ dd_stops dd = stop_ids.
Proof.
  unfold get_direction_data.
  destruct (match title with Some t => Ok t | None => _ end) as [t|]; [|discriminate].
  cbn [bind].
  destruct (dict_get (feed_shapes self) gtfs_shape_id) as [shape|]; [|discriminate].
  cbn [bind].
  destruct (getitem_last (shape_cumulative_dist shape)) as [total|]; [|discriminate].
  cbn [bind].
  destruct (stops_loop line_distance point_distance self shape stop_ids [] 0)
    as [[sgm si]|]; [|discriminate].
  cbn [bind]. intros [= <-]. repeat split.
Qed.

Lemma sorted_by_head_least {A : Type} (key : A -> Z) (l : list A) (x : A) (rest : list A) :
  sorted_by key l = x :: rest ->
  forall y, In y l -> (key x <= key y)%Z.
Proof.
  intros Hs y Hy.
  pose proof (sorted_by_sorted key l) as Hsorted. rewrite Hs in Hsorted.
  assert (Hin : In y (x :: rest)).
  { rewrite <- Hs. unfold sorted_by.
    apply (Permutation_in _ (Permutation_sym (sorted_with_perm _ _))). exact Hy. }
  inversion Hsorted as [|? ? _ Hall]; subst.
  destruct Hin as [<-|Hin]; [lia|].
  rewrite Forall_forall in Hall. exact (Hall y Hin).
Qed.

Lemma filter_none {A : Type} (f : A -> bool) (l : list A) :
  (forall x, In x l -> f x = false) -> filter f l = [].
Proof.
  induction l as [|a l IH]; intros Hall; cbn [filter]; [reflexivity|].
  rewrite (Hall a (or_introl eq_refl)). apply IH. intros x Hx. apply Hall. now right.
Qed.

Lemma mapM_Forall2 {A B : Type} (f : A -> result B) (l : list A) (ys : list B) :
  mapM f l = Ok ys -> Forall2 (fun x y => f x = Ok y) l ys.
Proof.
  revert ys. induction l as [|x l IH]; intros ys; cbn [mapM].
  - intros [= <-]. constructor.
  - destruct (f x) as [y|] eqn:Hx; [|discriminate]. cbn [bind].
    destruct (mapM f l) as [ys'|]; [|discriminate]. cbn [bind].
    intros [= <-]. constructor; [exact Hx | now apply IH].
Qed.

Section RouteDirectionFacts.

Variable line_distance : line -> point -> Q.
Variable point_distance : point -> point -> Q.
Variable shape_hash : list string -> string.

(** X20. The descriptor of a default direction is built from the cluster
    with the largest count among the clusters of the trips of that
    direction: it carries the shape id and the stop list of that cluster,
    and the direction id both as its id and as its GTFS direction id. *)
Theorem default_direction_uses_most_common_shape :
  forall (self : GtfsScraper) (the_direction_id : string) (route_trips_df : list trip)
         (dd : dir_data),
    get_default_direction_data line_distance point_distance shape_hash self
      the_direction_id route_trips_df = Ok dd ->
    exists shapes best_shape,
      get_unique_shapes shape_hash self
        (filter (fun tr => eqb (direction_id tr) the_direction_id) route_trips_df)
        = Ok shapes /\
      In best_shape shapes /\
      (forall shape, In shape shapes -> (count shape <= count best_shape)%Z) /\
      dd_gtfs_shape_id dd = info_shape_id best_shape /\
      dd_stops dd = info_stop_ids best_shape /\
      dd_id dd = the_direction_id /\
      dd_gtfs_direction_id dd = the_direction_id.
Proof.
  intros self d trips dd. unfold get_default_direction_data.
  destruct (get_unique_shapes shape_hash self _) as [shapes|] eqn:Hshapes; [|discriminate].
  cbn [bind]. unfold getitem.
  destruct shapes as [|best rest]; [discriminate|]. cbn [nth_error bind].
  intros Hdd. apply get_direction_data_fields in Hdd.
  destruct Hdd as (Hid & Hshape & Hgd & Hstops).
  exists (best :: rest), best. split; [reflexivity|]. split; [now left|].
  split; [|auto].
  unfold get_unique_shapes in Hshapes.
  destruct (unique_shapes_loop shape_hash self _ _ []) as [m|]; [|discriminate].
  cbn [bind] in Hshapes.
  destruct (print_shapes self _) as [u|]; [|discriminate]. cbn [bind] in Hshapes.
  assert (Hsorted : sorted_by (fun shape => (-1 * count shape)%Z) (dict_values m)
                    = best :: rest)
    by (injection Hshapes; intros H; exact H).
  intros shape Hin.
  assert (Hin' : In shape (dict_values m)).
  { rewrite <- Hsorted in Hin. unfold sorted_by in Hin.
    exact (Permutation_in _ (sorted_with_perm _ _) Hin). }
  pose proof (sorted_by_head_least _ _ _ _ Hsorted shape Hin') as Hle.
  cbv beta in Hle. lia.
Qed.

(** X21. For a direction id that no trip of the route carries,
    [get_default_direction_data] raises [IndexError]: there is no cluster
    to take the first of. *)
Theorem default_direction_without_trips_raises :
  forall (self : GtfsScraper) (the_direction_id : string) (route_trips_df : list trip),
    (forall tr, In tr route_trips_df -> direction_id tr <> the_direction_id) ->
    get_default_direction_data line_distance point_distance shape_hash self
      the_direction_id route_trips_df = Raise IndexError.
Proof.
  intros self d trips Hnone. unfold get_default_direction_data.
  rewrite filter_none; [reflexivity|].
  intros tr Hin. apply eqb_neq. exact (Hnone tr Hin).
Qed.

(** X22. The directions of a route that [get_route_data] computes: with
    custom directions configured for the route id, one descriptor per
    configured direction, in the configured order, with the configured id
    and GTFS direction id; otherwise one descriptor per distinct direction
    id of the trips of the route, in ascending order, the direction id being
    both its id and its GTFS direction id. *)
Theorem route_directions_follow_configuration :
  forall (self : GtfsScraper) (custom_directions : dict string (list custom_direction_info))
         (trips_df : list trip) (the_route_id gtfs_route_id : string)
         (directions : list dir_data),
    get_route_data_directions line_distance point_distance shape_hash self
      custom_directions trips_df the_route_id gtfs_route_id = Ok directions ->
    match dict_get custom_directions the_route_id with
    | Some infos =>
        map dd_id directions = map cdi_id infos /\
        map dd_gtfs_direction_id directions = map cdi_gtfs_direction_id infos
    | None =>
        map dd_id directions =
          np_unique (map direction_id
                       (filter (fun tr => eqb (route_id tr) gtfs_route_id) trips_df)) /\
        map dd_gtfs_direction_id directions = map dd_id directions
    end.
Proof.
  intros self custom trips rid grid directions.
  unfold get_route_data_directions, dict_mem, dict_getitem.
  destruct (dict_get custom rid) as [infos|]; cbn [bind].
  - intros Hrun. apply mapM_Forall2 in Hrun.
    induction Hrun as [|info dd infos' dds Hone _ IH]; [split; reflexivity|].
    cbn [map]. destruct IH as [-> ->].
    unfold get_custom_direction_data in Hone.
    destruct (get_unique_shapes shape_hash self _) as [shapes|]; [|discriminate].
    cbn [bind] in Hone.
    destruct (negb (length _ =? 1)).
    + unfold load_name in Hone. vm_compute in Hone. discriminate.
    + destruct (getitem _ 0) as [matching_shape|]; [|discriminate]. cbn [bind] in Hone.
      apply get_direction_data_fields in Hone. destruct Hone as (-> & _ & -> & _).
      split; reflexivity.
  - intros Hrun. apply mapM_Forall2 in Hrun.
    induction Hrun as [|d dd ds dds Hone _ IH]; [split; reflexivity|].
    cbn [map]. destruct IH as [<- ->].
    unfold get_default_direction_data in Hone.
    destruct (get_unique_shapes shape_hash self _) as [shapes|]; [|discriminate].
    cbn [bind] in Hone.
    destruct (getitem shapes 0) as [best|]; [|discriminate]. cbn [bind] in Hone.
    apply get_direction_data_fields in Hone. destruct Hone as (-> & _ & -> & _).
    split; reflexivity.
Qed.

End RouteDirectionFacts.

Definition example_default_direction_0 : dir_data :=
  {| dd_id := "0"; dd_gtfs_shape_id := "long"; dd_gtfs_direction_id := "0";
     dd_stops := ["A"; "B"; "D"]%string;
     dd_stop_geometry :=
       [ ("A"%string, {| distance := 50; after_index := 0; offset := 30 |});
         ("B"%string, {| distance := 45; after_index := 0; offset := 0 |});
         ("D"%string, {| distance := 190; after_index := 1; offset := 0 |}) ];
     dd_distance := 200 |}.

Definition example_default_direction_1 : dir_data :=
  {| dd_id := "1"; dd_gtfs_shape_id := "other"; dd_gtfs_direction_id := "1";
     dd_stops := ["D"; "A"]%string;
     dd_stop_geometry :=
       [ ("D"%string, {| distance := 190; after_index := 1; offset := 0 |});
         ("A"%string, {| distance := 167; after_index := 1; offset := 67 |}) ];
     dd_distance := 200 |}.

Lemma default_direction_uses_most_common_shape_witness :
  exists shapes best_shape,
    get_unique_shapes example_hash example_feed_scraper
      (filter (fun tr => eqb (direction_id tr) "1"%string) example_feed_trips)
      = Ok shapes /\
    In best_shape shapes /\
    (forall shape, In shape shapes -> (count shape <= count best_shape)%Z) /\
    dd_gtfs_shape_id example_default_direction_1 = info_shape_id best_shape /\
    dd_stops example_default_direction_1 = info_stop_ids best_shape /\
    dd_id example_default_direction_1 = "1"%string /\
    dd_gtfs_direction_id example_default_direction_1 = "1"%string.
Proof.
  apply (default_direction_uses_most_common_shape euclid_line_distance
           euclid_point_distance example_hash example_feed_scraper "1" example_feed_trips).
  vm_compute. reflexivity.
Defined.

Lemma default_direction_without_trips_raises_witness :
  get_default_direction_data euclid_line_distance euclid_point_distance example_hash
    example_feed_scraper "2" example_feed_trips = Raise IndexError.
Proof.
  apply (default_direction_without_trips_raises euclid_line_distance
           euclid_point_distance example_hash example_feed_scraper "2" example_feed_trips).
  intros tr Hin.
  repeat (destruct Hin as [<-|Hin]; [cbn; discriminate|]). destruct Hin.
Defined.

Lemma route_directions_follow_configuration_witness :
  let directions := [ example_default_direction_0; example_default_direction_1 ] in
  map dd_id directions =
    np_unique (map direction_id
                 (filter (fun tr => eqb (route_id tr) "R"%string) example_feed_trips)) /\
  map dd_gtfs_direction_id directions = map dd_id directions.
Proof.
  intros directions.
  exact (route_directions_follow_configuration euclid_line_distance euclid_point_distance
           example_hash example_feed_scraper [] example_feed_trips "R" "R" directions
           ltac:(vm_compute; reflexivity)).
Defined.

(* ------------------------------------------------------------------ *)
(** ** Custom directions: the stop constraints                         *)
(* ------------------------------------------------------------------ *)

(** The elements of the first list occur in the second, in the same
    order, not necessarily next to each other. *)
Inductive occurs_in_order {A : Type} : list A -> list A -> Prop :=
| occurs_nil (l : list A) : occurs_in_order [] l
| occurs_skip (y : A) (l1 l2 : list A) :
    occurs_in_order l1 l2 -> occurs_in_order l1 (y :: l2)
| occurs_take (x : A) (l1 l2 : list A) :
    occurs_in_order l1 l2 -> occurs_in_order (x :: l1) (x :: l2).

Lemma occurs_in_order_tail {A : Type} (x : A) (l1 l2 : list A) :
  occurs_in_order (x :: l1) l2 -> occurs_in_order l1 l2.
Proof.
  induction l2 as [|y l2 IH]; intros H; inversion H; subst.
  - apply occurs_skip. now apply IH.
  - now apply occurs_skip.
Qed.

Lemma occurs_in_order_head {A : Type} (x : A) (l1 l2 : list A) :
  occurs_in_order (x :: l1) l2 -> In x l2.
Proof.
  induction l2 as [|y l2 IH]; intros H; inversion H; subst.
  - right. now apply IH.
  - now left.
Qed.

Lemma index_In {A : Type} `{PyEq A} (l : list A) (x : A) :
  (exists i, index l x = Ok i) <-> In x l.
Proof.
  induction l as [|y l IH]; cbn [index In].
  - split; [intros [i Hi]; discriminate | tauto].
  - destruct (eqb_spec y x) as [->|Hne].
    + split; [now left | eauto].
    + rewrite <- IH. split.
      * intros [i Hi]. destruct (index l x) as [n|]; [eauto | discriminate].
      * intros [Heq|[i Hi]]; [contradiction|]. rewrite Hi. cbn [bind]. eauto.
Qed.

(** After the first occurrence of [x], the rest of the search goes on in
    what follows it. *)
Lemma occurs_after_first {A : Type} `{PyEq A} (l : list A) (x : A) (rest : list A) (n : nat) :
  index l x = Ok n ->
  (occurs_in_order (x :: rest) l <-> occurs_in_order rest (skipn (S n) l)).
Proof.
  revert n. induction l as [|y l IH]; intros n; cbn [index]; [discriminate|].
  destruct (eqb_spec y x) as [->|Hne].
  - intros [= <-]. cbn [skipn]. split.
    + intros Hocc. inversion Hocc; subst; [|assumption].
      eapply occurs_in_order_tail; eauto.
    + apply occurs_take.
  - destruct (index l x) as [n'|] eqn:Hix; [|discriminate]. cbn [bind].
    intros [= <-]. cbn [skipn]. rewrite <- (IH n' eq_refl). split.
    + intros Hocc. inversion Hocc; subst; [assumption | congruence].
    + apply occurs_skip.
Qed.

Lemma contains_included_stops_from_spec (included_stop_ids shape_stop_ids : list string)
    (min_index : nat) :
  contains_included_stops_from included_stop_ids shape_stop_ids min_index = true <->
  occurs_in_order included_stop_ids (skipn min_index shape_stop_ids).
Proof.
  revert min_index. induction included_stop_ids as [|s rest IH]; intros min_index;
    cbn [contains_included_stops_from].
  - split; [intros _; constructor | reflexivity].
  - unfold index_from.
    destruct (index (skipn min_index shape_stop_ids) s) as [n|e] eqn:Hix; cbn [bind].
    + rewrite IH, (occurs_after_first _ _ rest _ Hix), skipn_skipn.
      now replace (S n + min_index) with (min_index + n + 1) by lia.
    + split; [discriminate|]. intros Hocc. apply occurs_in_order_head in Hocc.
      apply index_In in Hocc. destruct Hocc as [i Hi]. congruence.
Qed.

Lemma contains_excluded_stop_spec (excluded_stop_ids shape_stop_ids : list string) :
  contains_excluded_stop excluded_stop_ids shape_stop_ids = true <->
  exists s, In s excluded_stop_ids /\ In s shape_stop_ids.
Proof.
  induction excluded_stop_ids as [|s rest IH]; cbn [contains_excluded_stop].
  - split; [discriminate | intros (s & [] & _)].
  - destruct (index shape_stop_ids s) as [i|e] eqn:Hix.
    + split; [intros _|reflexivity]. exists s. split; [now left|].
      apply index_In. eauto.
    + rewrite IH. split.
      * intros (s' & Hin & Hshape). exists s'. split; [now right | exact Hshape].
      * intros (s' & [<-|Hin] & Hshape); [|eauto].
        apply index_In in Hshape. destruct Hshape as [i Hi]. congruence.
Qed.

(** X23. [contains_included_stops] accepts a shape exactly when the
    included stops occur in the stop list of the shape in the configured
    order, with any number of other stops between them; unlike
    [is_subsequence] it does not ask for a contiguous run. *)
Theorem included_stops_need_order_not_adjacency :
  forall included_stop_ids shape_stop_ids : list string,
    contains_included_stops included_stop_ids shape_stop_ids = true <->
    occurs_in_order included_stop_ids shape_stop_ids.
Proof.
  intros incl shape. unfold contains_included_stops.
  now rewrite contains_included_stops_from_spec.
Qed.

Definition or_empty (l : option (list string)) : list string :=
  match l with Some l => l | None => [] end.

(** X24. The descriptor [get_custom_direction_data] returns is built from
    the one cluster of the GTFS direction that meets the stop constraints:
    its stops contain the included stops in order and none of the excluded
    stops, no other cluster of the direction does, and it carries the
    configured id and GTFS direction id. *)
Theorem custom_direction_meets_constraints :
  forall (line_distance : line -> point -> Q) (point_distance : point -> point -> Q)
         (shape_hash : list string -> string) (self : GtfsScraper)
         (info : custom_direction_info) (route_trips_df : list trip) (dd : dir_data),
    get_custom_direction_data line_distance point_distance shape_hash self info
      route_trips_df = Ok dd ->
    let meets (stop_ids : list string) :=
      occurs_in_order (or_empty (cdi_included_stop_ids info)) stop_ids /\
      forall s, In s (or_empty (cdi_excluded_stop_ids info)) -> ~ In s stop_ids in
    meets (dd_stops dd) /\
    dd_id dd = cdi_id info /\
    dd_gtfs_direction_id dd = cdi_gtfs_direction_id info /\
    exists shapes shape,
      get_unique_shapes shape_hash self
        (filter (fun tr => eqb (direction_id tr) (cdi_gtfs_direction_id info)) route_trips_df)
        = Ok shapes /\
      In shape shapes /\
      dd_gtfs_shape_id dd = info_shape_id shape /\
      dd_stops dd = info_stop_ids shape /\
      forall other, In other shapes -> meets (info_stop_ids other) -> other = shape.
Proof.
  intros ld pd shape_hash self info trips dd. unfold get_custom_direction_data.
  fold (or_empty (cdi_included_stop_ids info)). fold (or_empty (cdi_excluded_stop_ids info)).
  set (incl := or_empty (cdi_included_stop_ids info)).
  set (excl := or_empty (cdi_excluded_stop_ids info)).
  destruct (get_unique_shapes shape_hash self _) as [shapes|]; [|discriminate].
  cbn [bind].
  set (keep := fun shape : shape_info =>
                 contains_included_stops incl (info_stop_ids shape)
                 && negb (contains_excluded_stop excl (info_stop_ids shape))).
  assert (Hkeep : forall shape, keep shape = true <->
            occurs_in_order incl (info_stop_ids shape) /\
            forall s, In s excl -> ~ In s (info_stop_ids shape)).
  { intros shape. unfold keep. rewrite andb_true_iff, negb_true_iff.
    unfold contains_included_stops. rewrite contains_included_stops_from_spec.
    cbn [skipn]. split; intros [Hi He]; (split; [exact Hi|]).
    - intros s Hs Hshape.
      assert (Ht : contains_excluded_stop excl (info_stop_ids shape) = true)
        by (apply contains_excluded_stop_spec; eauto).
      congruence.
    - destruct (contains_excluded_stop excl (info_stop_ids shape)) eqn:Hc; [|reflexivity].
      apply contains_excluded_stop_spec in Hc. destruct Hc as (s & Hs & Hshape).
      exfalso. exact (He s Hs Hshape). }
  destruct (filter keep shapes) as [|shape [|shape2 more]] eqn:Hfilter;
    cbn [length Nat.eqb negb];
    [intros Hraise; vm_compute in Hraise; discriminate | |
     intros Hraise; vm_compute in Hraise; discriminate].
  unfold getitem. cbn [nth_error bind]. intros Hdd.
  apply get_direction_data_fields in Hdd. destruct Hdd as (Hid & Hshape & Hgd & Hstops).
  assert (Hin : In shape (filter keep shapes)) by (rewrite Hfilter; now left).
  apply filter_In in Hin. destruct Hin as [Hin Hk].
  split; [|split; [exact Hid | split; [exact Hgd|]]].
  - rewrite Hstops. now apply Hkeep.
  - exists shapes, shape. split; [reflexivity|]. split; [exact Hin|].
    split; [exact Hshape|]. split; [exact Hstops|].
    intros other Hother Hmeets.
    assert (Ho : In other (filter keep shapes)).
    { apply filter_In. split; [exact Hother|]. now apply Hkeep. }
    rewrite Hfilter in Ho. destruct Ho as [<-|[]]. reflexivity.
Qed.

Definition example_custom_direction_data : dir_data :=
  {| dd_id := "X"; dd_gtfs_shape_id := "other"; dd_gtfs_direction_id := "1";
     dd_stops := ["D"; "A"]%string;
     dd_stop_geometry :=
       [ ("D"%string, {| distance := 190; after_index := 1; offset := 0 |});
         ("A"%string, {| distance := 167; after_index := 1; offset := 67 |}) ];
     dd_distance := 200 |}.

Lemma custom_direction_meets_constraints_witness :
  let info := example_custom_direction (Some ["D"; "A"]%string) (Some ["B"]%string) in
  let dd := example_custom_direction_data in
  let meets (stop_ids : list string) :=
    occurs_in_order (or_empty (cdi_included_stop_ids info)) stop_ids /\
    forall s, In s (or_empty (cdi_excluded_stop_ids info)) -> ~ In s stop_ids in
  meets (dd_stops dd) /\
  dd_id dd = cdi_id info /\
  dd_gtfs_direction_id dd = cdi_gtfs_direction_id info /\
  exists shapes shape,
    get_unique_shapes example_hash example_feed_scraper
      (filter (fun tr => eqb (direction_id tr) (cdi_gtfs_direction_id info)) example_feed_trips)
      = Ok shapes /\
    In shape shapes /\
    dd_gtfs_shape_id dd = info_shape_id shape /\
    dd_stops dd = info_stop_ids shape /\
    forall other, In other shapes -> meets (info_stop_ids other) -> other = shape.
Proof.
  intros info dd.
  apply (custom_direction_meets_constraints euclid_line_distance euclid_point_distance
           example_hash example_feed_scraper info example_feed_trips dd).
  vm_compute. reflexivity.
Defined.

(* ------------------------------------------------------------------ *)
(** ** The stop maps and normalize_gtfs_stop_id                        *)
(* ------------------------------------------------------------------ *)

Lemma stop_dict_keeps (key : stop -> result string) (stops_df : list stop)
    (acc d : dict string stop) :
  stop_dict key stops_df acc = Ok d ->
  forall k, dict_mem acc k = true -> dict_mem d k = true.
Proof.
  revert acc. induction stops_df as [|s rest IH]; intros acc; cbn [stop_dict].
  - now intros [= <-].
  - destruct (key s) as [k0|]; [|discriminate]. cbn [bind].
    intros Hrun k Hk. apply (IH _ Hrun). unfold dict_mem in *.
    destruct (eqb_spec k0 k) as [<-|Hne].
    + now rewrite dict_get_set_eq.
    + now rewrite dict_get_set_ne.
Qed.

Lemma stop_dict_covers (key : stop -> result string) (stops_df : list stop)
    (acc d : dict string stop) :
  stop_dict key stops_df acc = Ok d ->
  forall s, In s stops_df -> exists k, key s = Ok k /\ dict_mem d k = true.
Proof.
  revert acc. induction stops_df as [|s0 rest IH]; intros acc; cbn [stop_dict].
  - intros _ s [].
  - destruct (key s0) as [k0|] eqn:Hk0; [|discriminate]. cbn [bind].
    intros Hrun s [<-|Hin]; [|exact (IH _ Hrun s Hin)].
    exists k0. split; [exact Hk0|].
    apply (stop_dict_keeps _ _ _ _ Hrun). unfold dict_mem. now rewrite dict_get_set_eq.
Qed.

Lemma stop_dict_rows (key : stop -> result string) (stops_df : list stop)
    (acc d : dict string stop) :
  stop_dict key stops_df acc = Ok d ->
  forall k st, dict_get d k = Some st ->
    dict_get acc k = Some st \/ (In st stops_df /\ key st = Ok k).
Proof.
  revert acc. induction stops_df as [|s0 rest IH]; intros acc; cbn [stop_dict].
  - intros [= <-] k st Hget. now left.
  - destruct (key s0) as [k0|] eqn:Hk0; [|discriminate]. cbn [bind].
    intros Hrun k st Hget.
    destruct (IH _ Hrun k st Hget) as [Hacc|[Hin Hkey]].
    + destruct (eqb_spec k0 k) as [<-|Hne].
      * rewrite dict_get_set_eq in Hacc. injection Hacc as <-. right. split; [now left | auto].
      * rewrite dict_get_set_ne in Hacc by exact Hne. now left.
    + right. split; [now right | exact Hkey].
Qed.

(** X25. After [__init__] has built the two stop maps, every key of
    [stops_map] is the id that its row carries in the configured field, and
    the GTFS stop id of every row of stops.txt normalizes to a key of
    [stops_map]: [normalize_gtfs_stop_id] returns for it and the lookup
    that follows cannot raise [KeyError]. *)
Theorem normalized_stop_ids_are_in_stops_map :
  forall (self : GtfsScraper) (stops_df : list stop),
    init_stop_maps (stop_id_gtfs_field self) stops_df
      = Ok (gtfs_stop_ids_map self, stops_map self) ->
    (forall k st, dict_get (stops_map self) k = Some st ->
       In st stops_df /\ getattr st (stop_id_gtfs_field self) = Ok k) /\
    (forall s gtfs_stop_id, In s stops_df -> getattr s "stop_id" = Ok gtfs_stop_id ->
       exists k st,
         normalize_gtfs_stop_id self gtfs_stop_id = Ok k /\
         dict_get (stops_map self) k = Some st).
Proof.
  intros self stops_df. unfold init_stop_maps, normalize_gtfs_stop_id.
  destruct (stop_dict (fun s => getattr s "stop_id") stops_df []) as [gmap|] eqn:Hg;
    [|discriminate].
  cbn [bind].
  destruct (eqb_spec (stop_id_gtfs_field self) "stop_id"%string) as [Hfield|Hfield];
    cbn [negb bind].
  - intros [= Hgm Hsm]. rewrite <- Hsm. split.
    + intros k st Hget. rewrite Hfield.
      destruct (stop_dict_rows _ _ _ _ Hg k st Hget) as [Hnil|H]; [discriminate | exact H].
    + intros s sid Hin Hsid.
      destruct (stop_dict_covers _ _ _ _ Hg s Hin) as (k & Hk & Hmem).
      assert (k = sid) by congruence. subst k. unfold dict_mem in Hmem.
      destruct (dict_get gmap sid) as [st|] eqn:Hst; [|discriminate].
      exists sid, st. split; [reflexivity | exact Hst].
  - destruct (stop_dict (fun s => getattr s (stop_id_gtfs_field self)) stops_df [])
      as [smap|] eqn:Hs; [|discriminate].
    cbn [bind]. intros [= Hgm Hsm]. rewrite <- Hsm, <- Hgm. split.
    + intros k st Hget.
      destruct (stop_dict_rows _ _ _ _ Hs k st Hget) as [Hnil|H]; [discriminate | exact H].
    + intros s sid Hin Hsid.
      destruct (stop_dict_covers _ _ _ _ Hg s Hin) as (k & Hk & Hmem).
      assert (k = sid) by congruence. subst k. unfold dict_mem in Hmem.
      unfold dict_getitem.
      destruct (dict_get gmap sid) as [s0|] eqn:Hs0; [|discriminate]. cbn [bind].
      destruct (stop_dict_rows _ _ _ _ Hg sid s0 Hs0) as [Hnil|[Hin0 _]]; [discriminate|].
      destruct (stop_dict_covers _ _ _ _ Hs s0 Hin0) as (k & Hk0 & Hmem0).
      unfold dict_mem in Hmem0.
      destruct (dict_get smap k) as [st|] eqn:Hst; [|discriminate].
      exists k, st. split; [exact Hk0 | exact Hst].
Qed.

Definition example_coded_stop (id code : string) : stop :=
  {| stop_columns := [ ("stop_id", id); ("stop_code", code); ("stop_name", id) ]%string;
     stop_x := 0; stop_y := 0 |}.

Definition example_coded_scraper : GtfsScraper :=
  {| stop_id_gtfs_field := "stop_code";
     gtfs_stop_ids_map :=
       [ ("g1"%string, example_coded_stop "g1" "1001");
         ("g2"%string, example_coded_stop "g2" "1002") ];
     stops_map :=
       [ ("1001"%string, example_coded_stop "g1" "1001");
         ("1002"%string, example_coded_stop "g2" "1002") ];
     feed_stop_times := [];
     feed_shapes := [] |}.

Lemma normalized_stop_ids_are_in_stops_map_witness :
  let stops_df := [ example_coded_stop "g1" "1001"; example_coded_stop "g2" "1002" ] in
  (forall k st, dict_get (stops_map example_coded_scraper) k = Some st ->
     In st stops_df /\ getattr st "stop_code" = Ok k) /\
  (forall s gtfs_stop_id, In s stops_df -> getattr s "stop_id" = Ok gtfs_stop_id ->
     exists k st,
       normalize_gtfs_stop_id example_coded_scraper gtfs_stop_id = Ok k /\
       dict_get (stops_map example_coded_scraper) k = Some st).
Proof.
  intros stops_df.
  apply (normalized_stop_ids_are_in_stops_map example_coded_scraper stops_df).
  vm_compute. reflexivity.
Defined.
